(** * n8n-visualizer: the reference extractor, the dependency resolver and
      the reconciler

    A shallow embedding of [merge_data.py] and of
    [supabase_export_tables.py] (the resolver
    [build_functions_with_dependencies], the requests, the paging of
    [fetch_all_rows] and [main]), with the properties their specification
    states about them and further properties read off the code.

    Conventions of the embedding.
    - A value loaded by [json.load] is a [value]: [None], a [bool], an
      integer, a [str], a [list] or a [dict].  JSON numbers are integers
      here; non-integer numbers are outside the model.
    - A [str] is a [string] holding the UTF-8 encoding of the text.  The
      order of two such strings byte by byte is the order of the texts code
      point by code point, which is the order Python's [sorted] uses;
      iterating a [str] and [len] go by code points.
    - A [dict] is the list of its items in insertion order; the keys of a
      loaded dict are distinct, and [.get] reads the first item with the key.
    - An operation Python rejects at run time raises: the functions return a
      [result], either [Ok] with the value or [Raise] with the exception.
    - A Python [set] is a finite map from the hash key of an element to the
      element stored under it: [True] and [1] hash and compare equal, so a
      set holds only the first of them that was added. *)

From Stdlib Require Import ZArith List Ascii String DecimalString Permutation.
From stdpp Require Import base option list strings gmap sets sorting.

Local Open Scope string_scope.
Local Open Scope Z_scope.
Set Warnings "-clear-no-such-hyp".

(** ** Values and exceptions *)

#[warning="-register-all"]
Inductive value : Type :=
| VNone
| VBool (b : bool)
| VInt (n : Z)
| VStr (s : string)
| VList (xs : list value)
| VDict (items : list (string * value)).

Inductive exn : Type := TypeError | AttributeError.

Inductive result (A : Type) : Type :=
| Ok (a : A)
| Raise (e : exn).
Arguments Ok {A} a.
Arguments Raise {A} e.

#[global] Instance result_ret : MRet result := fun A a => Ok a.
#[global] Instance result_bind : MBind result := fun A B f m =>
  match m with Ok a => f a | Raise e => Raise e end.

(** Whether a computation returned. *)
Definition is_ok {A : Type} (r : result A) : bool :=
  match r with
  | Ok _ => true
  | Raise _ => false
  end.

(** [for x in xs: st = body(st, x)], stopping at the first exception. *)
Fixpoint for_each {S A : Type} (body : S -> A -> result S) (xs : list A) (st : S)
  : result S :=
  match xs with
  | [] => Ok st
  | x :: rest => st' ← body st x; for_each body rest st'
  end.

(** [[f(x) for x in xs]], stopping at the first exception. *)
Fixpoint map_each {A B : Type} (f : A -> result B) (xs : list A) : result (list B) :=
  match xs with
  | [] => Ok []
  | x :: rest => y ← f x; ys ← map_each f rest; Ok (y :: ys)
  end.

(** ** Python's builtin operations on values *)

Fixpoint lookup_item (k : string) (items : list (string * value)) : option value :=
  match items with
  | [] => None
  | (k', v) :: rest => if String.eqb k k' then Some v else lookup_item k rest
  end.

(** [d.get(k, dflt)]: only a dict has the method. *)
Definition dict_get (d : value) (k : string) (dflt : value) : result value :=
  match d with
  | VDict items => Ok (default dflt (lookup_item k items))
  | _ => Raise AttributeError
  end.

(** Truth value of a value, as [if v], [not v] and [or] test it. *)
Definition truthy (v : value) : bool :=
  match v with
  | VNone => false
  | VBool b => b
  | VInt n => negb (n =? 0)
  | VStr s => negb (String.eqb s "")
  | VList xs => match xs with [] => false | _ => true end
  | VDict items => match items with [] => false | _ => true end
  end.

(** [a or b], for operands that are already evaluated. *)
Definition py_or (a b : value) : value := if truthy a then a else b.

(** [v == s] for a string literal [s]: only that string is equal to it. *)
Definition eq_str (v : value) (s : string) : bool :=
  match v with
  | VStr s' => String.eqb s' s
  | _ => false
  end.

(** A byte that continues a code point in UTF-8: [10xxxxxx]. *)
Definition is_continuation (c : ascii) : bool :=
  (128 <=? N_of_ascii c)%N && (N_of_ascii c <? 192)%N.

Definition starts_with_continuation (s : string) : bool :=
  match s with
  | EmptyString => false
  | String c _ => is_continuation c
  end.

(** The code points of a text, each as its own UTF-8 encoding: a byte
    opens a code point, and the continuation bytes that follow belong to
    it. *)
Fixpoint code_points (s : string) : list string :=
  match s with
  | EmptyString => []
  | String c rest =>
      match code_points rest with
      | p :: ps =>
          if starts_with_continuation p then String c p :: ps
          else String c EmptyString :: p :: ps
      | [] => [String c EmptyString]
      end
  end.

(** The one-character strings iterating a [str] yields: one per code
    point. *)
Definition str_chars (s : string) : list value := VStr <$> code_points s.

(** The elements a [for] loop over a value visits. *)
Definition py_iter (v : value) : result (list value) :=
  match v with
  | VList xs => Ok xs
  | VDict items => Ok (map (fun kv => VStr (fst kv)) items)
  | VStr s => Ok (str_chars s)
  | _ => Raise TypeError
  end.

(** [len(v)]: for a [str], the number of its code points. *)
Definition py_len (v : value) : result Z :=
  match v with
  | VList xs => Ok (Z.of_nat (length xs))
  | VDict items => Ok (Z.of_nat (length items))
  | VStr s => Ok (Z.of_nat (length (code_points s)))
  | _ => Raise TypeError
  end.

(** *** Strings *)

Definition is_upper (c : ascii) : bool := (Ascii.leb "A" c && Ascii.leb c "Z")%char.
Definition is_lower (c : ascii) : bool := (Ascii.leb "a" c && Ascii.leb c "z")%char.
Definition is_digit (c : ascii) : bool := (Ascii.leb "0" c && Ascii.leb c "9")%char.

Definition lower_char (c : ascii) : ascii :=
  if is_upper c then ascii_of_N (N_of_ascii c + 32) else c.

(** [s.lower()] on the ASCII letters.  Python also lowers letters outside
    ASCII; of those only U+212A and U+0130 lower to text with an ASCII
    letter (k and i), and neither letter occurs in the words searched for
    below, so the tests [w in s.lower()] of the extractor agree with the
    model on every text. *)
Fixpoint lower (s : string) : string :=
  match s with
  | EmptyString => EmptyString
  | String c rest => String (lower_char c) (lower rest)
  end.

(** [v.lower()]: only a [str] has the method. *)
Definition str_lower (v : value) : result string :=
  match v with
  | VStr s => Ok (lower s)
  | _ => Raise AttributeError
  end.

(** [w in s] for two strings. *)
Fixpoint contains (w s : string) : bool :=
  String.prefix w s ||
  match s with
  | EmptyString => false
  | String _ rest => contains w rest
  end.

(** *** The pattern of an RPC path

    [/rpc/] followed by a group: one character of [a-zA-Z_], then as many
    characters of [a-zA-Z0-9_] as follow. *)

Definition ident_start (c : ascii) : bool :=
  is_lower c || is_upper c || Ascii.eqb c "_".
Definition ident_char (c : ascii) : bool :=
  is_lower c || is_upper c || is_digit c || Ascii.eqb c "_".

(** The longest prefix of [s] made of characters satisfying [p]: what a
    greedy star at the end of a pattern consumes. *)
Fixpoint take_while (p : ascii -> bool) (s : string) : string :=
  match s with
  | EmptyString => EmptyString
  | String c rest => if p c then String c (take_while p rest) else EmptyString
  end.

Fixpoint drop_prefix (n : nat) (s : string) : string :=
  match n, s with
  | O, _ => s
  | S n', String _ rest => drop_prefix n' rest
  | S _, EmptyString => EmptyString
  end.

(** The pattern matched at the very start of [s]: group 1 when it matches. *)
Definition match_rpc_here (s : string) : option string :=
  if String.prefix "/rpc/" s then
    match drop_prefix 5 s with
    | String c rest =>
        if ident_start c then Some (String c (take_while ident_char rest)) else None
    | EmptyString => None
    end
  else None.

(** [re.search(pattern, s)] on a [str]: the match at the leftmost position
    where the pattern matches, as group 1. *)
Fixpoint search_rpc (s : string) : option string :=
  match match_rpc_here s with
  | Some g => Some g
  | None =>
      match s with
      | EmptyString => None
      | String _ rest => search_rpc rest
      end
  end.

(** [re.search(pattern, v)]: anything but a [str] is rejected. *)
Definition re_search_rpc (v : value) : result (option string) :=
  match v with
  | VStr s => Ok (search_rpc s)
  | _ => Raise TypeError
  end.

(** ** Hashing and sets *)

(** What [hash] and [==] see of a hashable value: [True] is [1], [False] is
    [0], a string is its text. *)
Inductive hkey : Type :=
| KNone
| KNum (n : Z)
| KStr (s : string).

#[global] Instance hkey_eq_dec : EqDecision hkey.
Proof. solve_decision. Defined.

#[global] Instance hkey_countable : Countable hkey.
Proof.
  refine (inj_countable'
    (fun k => match k with
              | KNone => inl ()
              | KNum n => inr (inl n)
              | KStr s => inr (inr s)
              end)
    (fun x => match x with
              | inl _ => KNone
              | inr (inl n) => KNum n
              | inr (inr s) => KStr s
              end) _).
  by intros [].
Defined.

(** [hash(v)]: a list and a dict are unhashable. *)
Definition hash_key (v : value) : result hkey :=
  match v with
  | VNone => Ok KNone
  | VBool b => Ok (KNum (Z.b2z b))
  | VInt n => Ok (KNum n)
  | VStr s => Ok (KStr s)
  | VList _ | VDict _ => Raise TypeError
  end.

Abbreviation pyset := (gmap hkey value).

(** [s.add(v)] *)
Definition set_add (s : pyset) (v : value) : result pyset :=
  k ← hash_key v;
  Ok (match s !! k with
      | Some _ => s
      | None => <[k := v]> s
      end).

(** [v in s] *)
Definition set_in (v : value) (s : pyset) : result bool :=
  k ← hash_key v; Ok (bool_decide (k ∈ dom s)).

(** [len(s)] *)
Definition set_len (s : pyset) : Z := Z.of_nat (size s).

(** *** [sorted] *)

(** [a <= b] on keys of one kind: numbers by value, strings by code point. *)
Definition key_leb (a b : hkey) : bool :=
  match a, b with
  | KNum x, KNum y => x <=? y
  | KStr x, KStr y => String.leb x y
  | KNone, _ => true
  | KNum _, KStr _ => true
  | _, _ => false
  end.

Definition key_le (a b : hkey) : Prop := key_leb a b = true.

Definition is_num (k : hkey) : bool := match k with KNum _ => true | _ => false end.
Definition is_str (k : hkey) : bool := match k with KStr _ => true | _ => false end.

(** Whether [<] is defined between any two of the keys: it is between two
    numbers and between two strings, and a list of at most one element is
    sorted without a comparison. *)
Definition comparable (ks : list hkey) : bool :=
  (length ks <=? 1)%nat || forallb is_num ks || forallb is_str ks.

Definition item_le (a b : hkey * value) : Prop := key_le a.1 b.1.

#[global] Instance item_le_dec a b : Decision (item_le a b).
Proof. unfold item_le, key_le. apply _. Defined.

(** [sorted(s)] for a set [s]: the elements in increasing order, or
    [TypeError] when two of them cannot be compared. *)
Definition sorted_set (s : pyset) : result (list value) :=
  let items := map_to_list s in
  if comparable (items.*1) then Ok ((merge_sort item_le items).*2)
  else Raise TypeError.

(** ** supabase_export_tables.py: [build_functions_with_dependencies] *)

(** [hash((a, b))]: a tuple is hashable when its components are. *)
Definition hash_pair (a b : value) : result (hkey * hkey) :=
  ka ← hash_key a; kb ← hash_key b; Ok (ka, kb).

(** The key of a dependency record:
    [(dep.get("function_schema", "public"), dep.get("function_name"))],
    hashed. *)
Definition dep_key (dep : value) : result (hkey * hkey) :=
  fschema ← dict_get dep "function_schema" (VStr "public");
  fname ← dict_get dep "function_name" VNone;
  hash_pair fschema fname.

(** The body of the first loop, on [dep_map]. *)
Definition dep_step (dep_map : gmap (hkey * hkey) pyset) (dep : value)
  : result (gmap (hkey * hkey) pyset) :=
  key ← dep_key dep;
  let dep_map1 :=
    match dep_map !! key with
    | Some _ => dep_map
    | None => <[key := ∅]> dep_map
    end in
  table_name ← dict_get dep "referenced_table" VNone;
  if truthy table_name then
    s ← set_add (default ∅ (dep_map1 !! key)) table_name;
    Ok (<[key := s]> dep_map1)
  else Ok dep_map1.

(** [fn.get("schema_name") or fn.get("function_schema") or "public"] *)
Definition fn_schema (fn : value) : result value :=
  s1 ← dict_get fn "schema_name" VNone;
  s2 ← dict_get fn "function_schema" VNone;
  Ok (py_or (py_or s1 s2) (VStr "public")).

(** [fn.get("function_name") or fn.get("name")] *)
Definition fn_name (fn : value) : result value :=
  n1 ← dict_get fn "function_name" VNone;
  n2 ← dict_get fn "name" VNone;
  Ok (py_or n1 n2).

(** The body of the second loop: the entry appended for one function. *)
Definition fn_entry (dep_map : gmap (hkey * hkey) pyset) (fn : value) : result value :=
  schema ← fn_schema fn;
  name ← fn_name fn;
  key ← hash_pair schema name;
  tables_used ←
    match dep_map !! key with
    | Some s => sorted_set s
    | None => Ok []
    end;
  Ok (VDict [("schema", schema); ("name", name); ("tables_used", VList tables_used)]).

Definition build_functions_with_dependencies (functions dependencies : value)
  : result (list value) :=
  deps ← py_iter dependencies;
  dep_map ← for_each dep_step deps ∅;
  fns ← py_iter functions;
  map_each (fn_entry dep_map) fns.

(** *** The requests and the pages *)

(** What a run of the export script can end with, besides returning: an
    exception of the interpreter, [HTTPError] from [raise_for_status], a
    body that is no JSON, or [SystemExit]. *)
Inductive export_exn : Type :=
| PyError (e : exn)
| HTTPError (status : Z)
| JSONDecodeError
| SystemExit.

Inductive outcome (A : Type) : Type :=
| Done (a : A)
| Failed (e : export_exn).
Arguments Done {A} a.
Arguments Failed {A} e.

#[global] Instance outcome_ret : MRet outcome := fun A a => Done a.
#[global] Instance outcome_bind : MBind outcome := fun A B f m =>
  match m with Done a => f a | Failed e => Failed e end.

Definition lift {A : Type} (r : result A) : outcome A :=
  match r with
  | Ok a => Done a
  | Raise e => Failed (PyError e)
  end.

(** What the script reads of a response: its status code and, where the
    body is JSON, the parsed body. *)
Record response : Type := {
  status_code : Z;
  json_body : option value
}.

(** The REST service: the answer to a POST of a JSON body to a path under
    [rest_base], and the answer to the GET of [fetch_all_rows] for the text
    after [rest_base/] and a range of items.  Requests that do not come
    back (timeouts, refused connections) are outside the model. *)
Record server : Type := {
  post : string -> value -> response;
  get_rows : string -> Z -> Z -> response
}.

(** [r.raise_for_status()] *)
Definition raise_for_status (r : response) : outcome unit :=
  if (400 <=? status_code r) && (status_code r <? 600)
  then Failed (HTTPError (status_code r))
  else Done tt.

(** [r.json()] *)
Definition response_json (r : response) : outcome value :=
  match json_body r with
  | Some v => Done v
  | None => Failed JSONDecodeError
  end.

(** [sb_request("POST", path, json_body=body)] *)
Definition sb_request (srv : server) (path : string) (body : value) : outcome value :=
  let r := post srv path body in
  if status_code r =? 404 then Done VNone
  else _ ← raise_for_status r; response_json r.

(** [{"_schemas": SCHEMAS}] *)
Definition schemas_body (schemas : list string) : value :=
  VDict [("_schemas", VList (VStr <$> schemas))].

Definition list_tables (srv : server) (schemas : list string) : outcome value :=
  result ← sb_request srv "/rpc/list_tables" (schemas_body schemas);
  match result with
  | VNone => Failed SystemExit
  | _ => Done result
  end.

Definition list_functions (srv : server) (schemas : list string) : outcome value :=
  result ← sb_request srv "/rpc/list_functions" (schemas_body schemas);
  Done (py_or result (VList [])).

Definition list_function_dependencies (srv : server) (schemas : list string)
  : outcome value :=
  result ← sb_request srv "/rpc/list_function_dependencies" (schemas_body schemas);
  Done (py_or result (VList [])).

(** The [while True] loop of [fetch_all_rows], from the state [start],
    [rows]; it runs for at most [fuel] requests, [None] when that is not
    enough. *)
Fixpoint fetch_pages (fuel : nat) (srv : server) (table_text : string)
    (page_size start : Z) (rows : list value) : option (outcome (list value)) :=
  match fuel with
  | O => None
  | S fuel' =>
      let end_ := start + page_size - 1 in
      let r := get_rows srv table_text start end_ in
      if status_code r =? 416 then Some (Done rows)
      else
        match raise_for_status r with
        | Failed e => Some (Failed e)
        | Done _ =>
            match response_json r with
            | Failed e => Some (Failed e)
            | Done batch =>
                if negb (truthy batch) then Some (Done rows)
                else
                  match py_iter batch with
                  | Raise e => Some (Failed (PyError e))
                  | Ok items =>
                      fetch_pages fuel' srv table_text page_size
                        (start + page_size) (rows ++ items)
                  end
            end
        end
  end.

(** ** merge_data.py *)

Section Model.

(** The text [str] prints for a list or a dict.  It depends on [repr] of the
    strings inside, which follows the Unicode tables; it stays a parameter. *)
Variable container_text : value -> string.

(** [str(v)] *)
Definition py_str (v : value) : string :=
  match v with
  | VNone => "None"
  | VBool b => if b then "True" else "False"
  | VInt n => NilZero.string_of_int (Z.to_int n)
  | VStr s => s
  | VList _ | VDict _ => container_text v
  end.

(** [get_value]: the value of a resource locator or of a plain string. *)
Definition get_value (v : value) : value :=
  match v with
  | VNone => VStr ""
  | VStr _ => v
  | VDict items =>
      py_or (py_or (default VNone (lookup_item "cachedResultName" items))
                   (default VNone (lookup_item "value" items)))
            (VStr "")
  | _ => VStr (py_str v)
  end.

(** [(node.get("type") or "").lower()] *)
Definition node_type_of (node : value) : result string :=
  ty ← dict_get node "type" VNone;
  str_lower (py_or ty (VStr "")).

(** [node.get("parameters", {})] *)
Definition node_params_of (node : value) : result value :=
  dict_get node "parameters" (VDict []).

(** The first [if] of the loop body: a Supabase node, its table and, for
    the operation [call], its function. *)
Definition supabase_branch (params : value) (st : pyset * pyset)
  : result (pyset * pyset) :=
  let '(tables_used, functions_used) := st in
  tn ← dict_get params "tableName" VNone;
  let table_name := get_value tn in
  tables_used ←
    (if truthy table_name && negb (eq_str table_name "Supabase")
     then set_add tables_used table_name
     else Ok tables_used);
  op ← dict_get params "operation" VNone;
  let operation := get_value op in
  if eq_str operation "call" then
    fname ← dict_get params "functionName" VNone;
    arg ← (if truthy fname then Ok fname else dict_get params "rpc" VNone);
    let func_name := get_value arg in
    if truthy func_name then
      functions_used ← set_add functions_used func_name;
      Ok (tables_used, functions_used)
    else Ok (tables_used, functions_used)
  else Ok (tables_used, functions_used).

(** The second [if] of the loop body: an HTTP request to an RPC path. *)
Definition http_branch (params : value) (st : pyset * pyset)
  : result (pyset * pyset) :=
  let '(tables_used, functions_used) := st in
  u ← dict_get params "url" (VStr "");
  let url := get_value u in
  m ← re_search_rpc url;
  match m with
  | Some g =>
      functions_used ← set_add functions_used (VStr g);
      Ok (tables_used, functions_used)
  | None => Ok (tables_used, functions_used)
  end.

(** The body of the inner loop of
    [extract_supabase_references_from_workflows], on the two sets. *)
Definition extract_node (st : pyset * pyset) (node : value) : result (pyset * pyset) :=
  node_type ← node_type_of node;
  params ← node_params_of node;
  st ← (if contains "supabase" node_type then supabase_branch params st else Ok st);
  if contains "httprequest" node_type || contains "http" node_type
  then http_branch params st
  else Ok st.

(** The body of the outer loop: the nodes of one workflow. *)
Definition extract_workflow (st : pyset * pyset) (workflow : value)
  : result (pyset * pyset) :=
  ns ← dict_get workflow "nodes" (VList []);
  nodes ← py_iter ns;
  for_each extract_node nodes st.

Definition extract_supabase_references_from_workflows (workflows : value)
  : result (pyset * pyset) :=
  ws ← py_iter workflows;
  for_each extract_workflow ws (∅, ∅).

(** [load_json]: the parsed content of the file at [path], [None] when
    there is no such file.  The files are given as a map from paths to
    parsed contents; a file [json.load] cannot parse aborts the run before
    anything below and is outside the model. *)
Definition load_json (files : string -> option value) (path : string) : value :=
  default VNone (files path).

(** Step 4 of [main], the entry appended for one table of the catalog. *)
Definition enrich_table (tables_used_by_n8n : pyset) (table : value) : result value :=
  name ← dict_get table "name" VNone;
  schema ← dict_get table "schema" (VStr "public");
  used ← set_in name tables_used_by_n8n;
  Ok (VDict [("name", name); ("schema", schema); ("used_by_n8n", VBool used)]).

(** Step 5 of [main], the entry appended for one function of the catalog. *)
Definition enrich_function (functions_used_by_n8n : pyset) (func : value) : result value :=
  name ← dict_get func "name" VNone;
  schema ← dict_get func "schema" (VStr "public");
  tables_used ← dict_get func "tables_used" (VList []);
  used ← set_in name functions_used_by_n8n;
  Ok (VDict [("name", name); ("schema", schema); ("tables_used", tables_used);
             ("used_by_n8n", VBool used)]).

(** Steps 3 (the two [print] calls) to 6 of [main], once the usage sets
    are extracted: [stack_data], the report that step 7 writes.  [now] is
    the text of [datetime.now(timezone.utc).isoformat()].  The [print]
    calls sort the usage sets, which can raise. *)
Definition main_report (now : string) (workflows supabase_data : value)
    (tables_used_by_n8n functions_used_by_n8n : pyset) : result value :=
  _ ← sorted_set tables_used_by_n8n;
  _ ← sorted_set functions_used_by_n8n;
  tables ← dict_get supabase_data "tables" (VList []);
  tables ← py_iter tables;
  enriched_tables ← map_each (enrich_table tables_used_by_n8n) tables;
  functions ← dict_get supabase_data "functions" (VList []);
  functions ← py_iter functions;
  enriched_functions ← map_each (enrich_function functions_used_by_n8n) functions;
  workflow_count ← py_len workflows;
  Ok (VDict
        [("metadata", VDict
            [("generated_at", VStr now);
             ("workflow_count", VInt workflow_count);
             ("table_count", VInt (Z.of_nat (length enriched_tables)));
             ("function_count", VInt (Z.of_nat (length enriched_functions)));
             ("tables_used_by_n8n", VInt (set_len tables_used_by_n8n));
             ("functions_used_by_n8n", VInt (set_len functions_used_by_n8n))]);
         ("workflows", workflows);
         ("supabase", VDict
            [("tables", VList enriched_tables);
             ("functions", VList enriched_functions)])]).

(** Steps 3 to 6 of [main]: from the workflows and the catalog to the
    report. *)
Definition main_core (now : string) (workflows supabase_data : value) : result value :=
  used ← extract_supabase_references_from_workflows workflows;
  main_report now workflows supabase_data used.1 used.2.

(** Steps 1 and 2 of [main]: which workflows and which catalog are used. *)
Definition load_workflows (files : string -> option value) : value :=
  let n8n_data := load_json files "n8n_data.json" in
  let n8n_data :=
    if truthy n8n_data then n8n_data
    else load_json files "n8n_workflows_export/n8n_data.json" in
  if truthy n8n_data then
    match n8n_data with
    | VDict items => default (VList []) (lookup_item "workflows" items)
    | _ => n8n_data
    end
  else VList [].

Definition load_catalog (files : string -> option value) : value :=
  let supabase_data := load_json files "supabase_data.json" in
  let supabase_data :=
    if truthy supabase_data then supabase_data
    else load_json files "supabase_export_tables/supabase_data.json" in
  if truthy supabase_data then supabase_data
  else VDict [("tables", VList []); ("functions", VList []); ("metadata", VDict [])].

(** [main], up to the report it hands to [json.dump]. *)
Definition main (now : string) (files : string -> option value) : result value :=
  main_core now (load_workflows files) (load_catalog files).

(** *** Reading a report *)

(** [v[k]] for reading a field of a report: [None] where there is none. *)
Definition field (k : string) (v : value) : value :=
  match v with
  | VDict items => default VNone (lookup_item k items)
  | _ => VNone
  end.

(** [v.get(k, dflt)] for reading a field of a record: [dflt] where there
    is none. *)
Definition field_or (k : string) (dflt : value) (v : value) : value :=
  match v with
  | VDict items => default dflt (lookup_item k items)
  | _ => dflt
  end.

(** The items of a dict with the value under [k] replaced by [x]. *)
Fixpoint set_item (k : string) (x : value) (items : list (string * value))
  : list (string * value) :=
  match items with
  | [] => []
  | (k', v) :: rest =>
      if String.eqb k k' then (k', x) :: rest else (k', v) :: set_item k x rest
  end.

Definition with_field (k : string) (x : value) (v : value) : value :=
  match v with
  | VDict items => VDict (set_item k x items)
  | _ => v
  end.

(** The report with another generation timestamp. *)
Definition with_generated_at (now : string) (report : value) : value :=
  with_field "metadata" (with_field "generated_at" (VStr now) (field "metadata" report)) report.

(** The elements of a list value. *)
Definition elements_of (v : value) : list value :=
  match v with
  | VList xs => xs
  | _ => []
  end.

Definition report_tables (report : value) : list value :=
  elements_of (field "tables" (field "supabase" report)).
Definition report_functions (report : value) : list value :=
  elements_of (field "functions" (field "supabase" report)).

(** *** The nodes the extractor visits *)

Definition visits (workflows node : value) : Prop :=
  ∃ ws w ns nodes,
    py_iter workflows = Ok ws ∧ w ∈ ws ∧
    dict_get w "nodes" (VList []) = Ok ns ∧ py_iter ns = Ok nodes ∧ node ∈ nodes.

(** *** Records of the resolver *)

(** A name as the catalog RPCs return it: a string, or null. *)
Definition name_or_null (v : value) : bool :=
  match v with
  | VNone | VStr _ => true
  | _ => false
  end.

(** A dependency record: a dict whose function schema, function name and
    referenced table, where present, are names. *)
Definition dep_record_ok (dep : value) : bool :=
  match dep with
  | VDict items =>
      name_or_null (default VNone (lookup_item "function_schema" items)) &&
      name_or_null (default VNone (lookup_item "function_name" items)) &&
      name_or_null (default VNone (lookup_item "referenced_table" items))
  | _ => false
  end.

(** A function record: a dict whose schema and name fields, where present,
    are names. *)
Definition fn_record_ok (fn : value) : bool :=
  match fn with
  | VDict items =>
      name_or_null (default VNone (lookup_item "schema_name" items)) &&
      name_or_null (default VNone (lookup_item "function_schema" items)) &&
      name_or_null (default VNone (lookup_item "function_name" items)) &&
      name_or_null (default VNone (lookup_item "name" items))
  | _ => false
  end.




(** A set of names: every element is a non-empty string stored under its
    own text. *)
Definition names_only (s : pyset) : Prop :=
  ∀ k v, s !! k = Some v → ∃ t, k = KStr t ∧ v = VStr t ∧ t ≠ "".

(** A [dep_map] whose sets are sets of names. *)
Definition names_map (m : gmap (hkey * hkey) pyset) : Prop :=
  ∀ key s, m !! key = Some s → names_only s.

(** The set [s] after [if table_name: s.add(table_name)], for a name or
    null. *)
Definition add_name (s : pyset) (table_name : value) : pyset :=
  match table_name with
  | VStr t =>
      if String.eqb t "" then s
      else match s !! KStr t with
           | Some _ => s
           | None => <[KStr t := VStr t]> s
           end
  | _ => s
  end.

(** Strictly increasing in the lexicographic order. *)
Definition string_lt (s1 s2 : string) : Prop := String.ltb s1 s2 = true.

(** The text of a string key. *)
Definition key_text (k : hkey) : string :=
  match k with
  | KStr s => s
  | _ => ""
  end.

(** *** Catalogs the reconciler accepts *)

(** A catalog entry the reconciler can tag: a dict whose [name] is
    hashable. *)
Definition entry_ok (e : value) : bool :=
  match e with
  | VDict items =>
      match hash_key (default VNone (lookup_item "name" items)) with
      | Ok _ => true
      | Raise _ => false
      end
  | _ => false
  end.

Definition entries_ok (v : value) : bool :=
  match py_iter v with
  | Ok es => forallb entry_ok es
  | Raise _ => false
  end.

(** A catalog the reconciler can read: a dict whose [tables] and
    [functions], where present, are collections of such entries. *)
Definition catalog_ok (supabase_data : value) : bool :=
  match supabase_data with
  | VDict items =>
      entries_ok (default (VList []) (lookup_item "tables" items)) &&
      entries_ok (default (VList []) (lookup_item "functions" items))
  | _ => false
  end.

(** Whether [sorted] accepts a set with these keys. *)
Definition sortable (D : gset hkey) : bool := comparable (elements D).

(** *** Steps that only add to the two sets *)

(** A step is additive when whether it raises does not depend on the sets
    it starts from, and what it adds to them is what it adds to empty sets. *)
Definition additive (step : pyset * pyset -> result (pyset * pyset)) : Prop :=
  ∀ T F : pyset,
    match step (∅, ∅) with
    | Ok (A, B) =>
        ∃ T' F', step (T, F) = Ok (T', F') ∧
                 dom T' = dom T ∪ dom A ∧ dom F' = dom F ∪ dom B
    | Raise e => step (T, F) = Raise e
    end.

(** *** The pattern, as the specification words it *)

Fixpoint all_chars (p : ascii -> bool) (s : string) : bool :=
  match s with
  | EmptyString => true
  | String c rest => p c && all_chars p rest
  end.

(** The rest of [s] after its longest prefix of characters satisfying [p]. *)
Fixpoint drop_while (p : ascii -> bool) (s : string) : string :=
  match s with
  | EmptyString => EmptyString
  | String c rest => if p c then drop_while p rest else s
  end.

(** An identifier: one character of [a-zA-Z_], then characters of
    [a-zA-Z0-9_]. *)
Definition ident_text (g : string) : bool :=
  match g with
  | EmptyString => false
  | String c rest => ident_start c && all_chars ident_char rest
  end.

(** The text after an identifier does not continue it. *)
Definition stops (post : string) : bool :=
  match post with
  | EmptyString => true
  | String c _ => negb (ident_char c)
  end.

(** [t] starts with [/rpc/] and the maximal identifier [g]. *)
Definition rpc_match_here (t g : string) : Prop :=
  ∃ post, t = "/rpc/" +:+ g +:+ post ∧ ident_text g = true ∧ stops post = true.

(** [t] starts with [/rpc/] and some identifier. *)
Definition rpc_possible_here (t : string) : Prop :=
  ∃ g post, t = "/rpc/" +:+ g +:+ post ∧ ident_text g = true.

(** [g] is the maximal identifier after the leftmost [/rpc/] of [s] that
    an identifier follows. *)
Definition leftmost_rpc_match (s g : string) : Prop :=
  ∃ pre t,
    s = pre +:+ t ∧ rpc_match_here t g ∧
    ∀ pre' t', s = pre' +:+ t' → (String.length pre' < String.length pre)%nat →
               ¬ rpc_possible_here t'.

(** *** The examples of the specification *)

Definition locator_node : value :=
  VDict [("type", VStr "n8n-nodes-base.supabase");
         ("parameters",
          VDict [("tableName", VDict [("cachedResultName", VStr "orders")]);
                 ("operation", VStr "call");
                 ("functionName", VStr "refresh_orders")])].

Definition rpc_url : string := "https://x/rest/v1/rpc/compute_totals?x=1".

(** *** Concrete inputs *)

(** A stand-in for the text of containers, where one is needed. *)
Definition elided_text (v : value) : string := "[...]".

Definition example_workflows : value :=
  VList [VDict [("id", VStr "w1"); ("name", VStr "Orders");
                ("nodes", VList [locator_node])]].

Definition rpc_url_node : value :=
  VDict [("type", VStr "n8n-nodes-base.httpRequest");
         ("parameters", VDict [("url", VStr rpc_url)])].

Definition rpc_url_workflows : value :=
  VList [VDict [("nodes", VList [rpc_url_node])]].

Definition rpc_fallback_node : value :=
  VDict [("type", VStr "n8n-nodes-base.supabase");
         ("parameters",
          VDict [("operation", VStr "call");
                 ("functionName", VStr "");
                 ("rpc", VStr "refresh_orders")])].

Definition rpc_fallback_workflows : value :=
  VList [VDict [("nodes", VList [rpc_fallback_node])]].

Definition example_catalog : value :=
  VDict [("tables",
          VList [VDict [("schema", VStr "public"); ("name", VStr "orders")];
                 VDict [("schema", VStr "audit"); ("name", VStr "orders")];
                 VDict [("schema", VStr "public"); ("name", VStr "Supabase")]]);
         ("functions",
          VList [VDict [("schema", VStr "public"); ("name", VStr "refresh_orders");
                        ("tables_used", VList [VStr "orders"])];
                 VDict [("schema", VStr "other"); ("name", VStr "refresh_orders");
                        ("tables_used", VList [])]])].

Definition swapped_catalog : value :=
  VDict [("tables",
          VList [VDict [("schema", VStr "audit"); ("name", VStr "orders")];
                 VDict [("schema", VStr "public"); ("name", VStr "orders")];
                 VDict [("schema", VStr "public"); ("name", VStr "Supabase")]]);
         ("functions",
          VList [VDict [("schema", VStr "other"); ("name", VStr "refresh_orders");
                        ("tables_used", VList [])];
                 VDict [("schema", VStr "public"); ("name", VStr "refresh_orders");
                        ("tables_used", VList [VStr "orders"])]])].

Definition example_functions : list value :=
  [VDict [("function_name", VStr "refresh_orders")];
   VDict [("schema_name", VStr "audit"); ("function_name", VStr "purge")]].

Definition example_dependencies : list value :=
  [VDict [("function_schema", VStr "public"); ("function_name", VStr "refresh_orders");
          ("referenced_table", VStr "orders")];
   VDict [("function_name", VStr "refresh_orders");
          ("referenced_table", VStr "customers")];
   VDict [("function_schema", VStr "public"); ("function_name", VStr "refresh_orders");
          ("referenced_table", VStr "orders")];
   VDict [("function_schema", VStr "audit"); ("function_name", VStr "purge");
          ("referenced_table", VNone)]].

(** *** Workflows by the nodes they hold *)

(** The nodes of a workflow, as the inner loop visits them. *)
Definition workflow_nodes (workflow : value) : result (list value) :=
  ns ← dict_get workflow "nodes" (VList []); py_iter ns.

(** A node whose type is readable and names neither Supabase nor HTTP. *)
Definition skipped_node (node : value) : bool :=
  match node_type_of node with
  | Ok nt => negb (contains "supabase" nt) && negb (contains "http" nt)
  | Raise _ => false
  end.

Definition skipped_workflow (workflow : value) : bool :=
  match workflow_nodes workflow with
  | Ok nodes => forallb skipped_node nodes
  | Raise _ => false
  end.

(** A scalar of JSON: null, a boolean, a number or a string. *)
Definition scalar (v : value) : bool :=
  match v with
  | VList _ | VDict _ => false
  | _ => true
  end.

(** A parameter [get_value] resolves to a hashable value: anything but a
    resource locator whose cached name or raw value is a container. *)
Definition hashable_param (v : value) : bool :=
  match v with
  | VDict items =>
      scalar (default VNone (lookup_item "cachedResultName" items)) &&
      scalar (default VNone (lookup_item "value" items))
  | _ => true
  end.

(** A parameter [get_value] resolves to a string: anything but a resource
    locator whose cached name or raw value is not a string or null. *)
Definition text_param (v : value) : bool :=
  match v with
  | VDict items =>
      name_or_null (default VNone (lookup_item "cachedResultName" items)) &&
      name_or_null (default VNone (lookup_item "value" items))
  | _ => true
  end.

(** Parameters as an n8n export holds them, as far as the extractor reads
    them. *)
Definition params_ok (params : value) : bool :=
  match params with
  | VDict items =>
      hashable_param (default VNone (lookup_item "tableName" items)) &&
      hashable_param (default VNone (lookup_item "operation" items)) &&
      hashable_param (default VNone (lookup_item "functionName" items)) &&
      hashable_param (default VNone (lookup_item "rpc" items)) &&
      text_param (default (VStr "") (lookup_item "url" items))
  | _ => false
  end.

(** A node of an n8n export: an object whose type is a string or null and
    whose parameters, where present, are such parameters. *)
Definition node_ok (node : value) : bool :=
  match node with
  | VDict items =>
      name_or_null (default VNone (lookup_item "type" items)) &&
      params_ok (default (VDict []) (lookup_item "parameters" items))
  | _ => false
  end.

(** A workflow of an n8n export: an object whose nodes, where present, are
    a list of such nodes. *)
Definition workflow_ok (workflow : value) : bool :=
  match workflow with
  | VDict items =>
      match default (VList []) (lookup_item "nodes" items) with
      | VList nodes => forallb node_ok nodes
      | _ => false
      end
  | _ => false
  end.




(** ** supabase_export_tables.py: [fetch_all_rows] and [main] *)

(** [fetch_all_rows(schema_name, table_name, page_size)]: the URL is made of
    the table name alone. *)
Definition fetch_all_rows (fuel : nat) (srv : server) (schema_name table_name : value)
    (page_size : Z) : option (outcome (list value)) :=
  fetch_pages fuel srv (py_str table_name) page_size 0 [].

(** Where [main] writes: a name joined to [OUT_DIR], or a name in the
    working directory.  [OUT_DIR] is the directory the script creates in
    the working directory.  A name without a separator names a file directly
    in its directory; where a name with separators leads depends on the
    directory tree, which is outside the model. *)
Inductive target : Type :=
| InOutDir (name : string)
| InCwd (name : string).

(** [f"{schema}.{table}.json"] *)
Definition table_file_name (schema table : value) : string :=
  py_str schema +:+ "." +:+ py_str table +:+ ".json".

(** The loop of step 4 over the tables, from the files [written] so far:
    the files written when it ends, and how it ends ([None]: a fetch ran out
    of fuel). *)
Fixpoint export_tables (fuel : nat) (srv : server) (tables : list value)
    (written : list (target * value)) : list (target * value) * option (outcome unit) :=
  match tables with
  | [] => (written, Some (Done tt))
  | t :: rest =>
      match dict_get t "schema_name" (VStr "public") with
      | Raise e => (written, Some (Failed (PyError e)))
      | Ok schema =>
          match dict_get t "table_name" VNone with
          | Raise e => (written, Some (Failed (PyError e)))
          | Ok table =>
              if negb (truthy table) then export_tables fuel srv rest written
              else
                match fetch_all_rows fuel srv schema table 1000 with
                | None => (written, None)
                | Some (Failed e) => (written, Some (Failed e))
                | Some (Done data) =>
                    export_tables fuel srv rest
                      (written ++ [(InOutDir (table_file_name schema table), VList data)])
                end
          end
      end
  end.

(** One step of the comprehension [tables_for_bundle]. *)
Definition bundle_table (t : value) : result (option value) :=
  name ← dict_get t "table_name" VNone;
  if truthy name then
    schema ← dict_get t "schema_name" (VStr "public");
    name ← dict_get t "table_name" VNone;
    Ok (Some (VDict [("schema", schema); ("name", name)]))
  else Ok None.

Fixpoint tables_for_bundle (tables : list value) : result (list value) :=
  match tables with
  | [] => Ok []
  | t :: rest =>
      entry ← bundle_table t;
      entries ← tables_for_bundle rest;
      Ok (match entry with
          | Some e => e :: entries
          | None => entries
          end)
  end.

(** Step 5 of [main]: the bundle. *)
Definition make_bundle (now : string) (tables : list value) (functions dependencies : value)
  : result value :=
  tables_for_bundle ← tables_for_bundle tables;
  functions_for_bundle ← build_functions_with_dependencies functions dependencies;
  Ok (VDict
        [("metadata", VDict
            [("generated_at", VStr now);
             ("table_count", VInt (Z.of_nat (length tables_for_bundle)));
             ("function_count", VInt (Z.of_nat (length functions_for_bundle)))]);
         ("tables", VList tables_for_bundle);
         ("functions", VList functions_for_bundle)]).

(** Steps 1 to 3 of [main]: the three lists, with the [len] the [print]
    calls take of them. *)
Definition export_lists (srv : server) (schemas : list string)
  : outcome (value * value * value) :=
  tables ← list_tables srv schemas;
  _ ← lift (py_len tables);
  functions ← list_functions srv schemas;
  _ ← lift (py_len functions);
  dependencies ← list_function_dependencies srv schemas;
  _ ← (if truthy dependencies then lift (py_len dependencies) else Done 0);
  Done (tables, functions, dependencies).

(** [main] of the export script: the files it writes, in order, and how it
    ends. *)
Definition export_main (fuel : nat) (srv : server) (schemas : list string) (now : string)
  : list (target * value) * option (outcome unit) :=
  match export_lists srv schemas with
  | Failed e => ([], Some (Failed e))
  | Done (tables, functions, dependencies) =>
      let written := [(InOutDir "_list_tables.json", tables);
                      (InOutDir "_list_custom_functions.json", functions)] in
      match py_iter tables with
      | Raise e => (written, Some (Failed (PyError e)))
      | Ok ts =>
          match export_tables fuel srv ts written with
          | (written, Some (Done _)) =>
              match make_bundle now ts functions dependencies with
              | Raise e => (written, Some (Failed (PyError e)))
              | Ok bundle =>
                  ((written ++ [(InOutDir "supabase_data.json", bundle);
                                (InCwd "supabase_data.json", bundle)])%list,
                   Some (Done tt))
              end
          | stopped => stopped
          end
      end
  end.

(** The path of a target, as [merge_data.py] names files. *)
Definition target_path (t : target) : string :=
  match t with
  | InOutDir name => "supabase_export_tables/" +:+ name
  | InCwd name => name
  end.

(** The content of [path] after the writes: that of the last write to it.
    Two targets are taken for the same file when their paths are the same
    text, which is so when the names written are single path components
    ([plain_name] below); the properties that depend on which files the
    data of the tables land in assume it of the table rows. *)
Fixpoint files_after (written : list (target * value)) (path : string) : option value :=
  match written with
  | [] => None
  | (t, v) :: rest =>
      match files_after rest path with
      | Some v' => Some v'
      | None => if String.eqb (target_path t) path then Some v else None
      end
  end.


(** A file name that is a single path component: it holds no separator. *)
Definition plain_name (name : string) : bool := negb (contains "/" name).

(** A row of [list_tables] whose data file, if it has one, is named by a
    single path component. *)
Definition plain_row (t : value) : bool :=
  negb (truthy (field "table_name" t)) ||
  plain_name (table_file_name (field_or "schema_name" (VStr "public") t)
                              (field "table_name" t)).


(** The rows of [list_tables] that name a table. *)
Definition named_rows (ts : list value) : list value :=
  List.filter (fun t => truthy (field "table_name" t)) ts.

(** A page of a table that continues the loop: neither 416 nor an error
    status, with a truthy body holding [items]. *)
Definition full_page (r : response) (items : list value) : Prop :=
  status_code r ≠ 416 ∧ (400 <=? status_code r) && (status_code r <? 600) = false ∧
  ∃ batch, json_body r = Some batch ∧ truthy batch = true ∧ py_iter batch = Ok items.

(** A page that ends the loop: status 416, or an empty batch. *)
Definition end_page (r : response) : Prop :=
  status_code r = 416 ∨
  ((400 <=? status_code r) && (status_code r <? 600) = false ∧
   ∃ batch, json_body r = Some batch ∧ truthy batch = false).

(** The response to the request for page [k]. *)
Definition page_response (srv : server) (table_text : string) (page_size : Z) (k : nat)
  : response :=
  get_rows srv table_text (Z.of_nat k * page_size)
    (Z.of_nat k * page_size + page_size - 1).

(** A row of [list_tables] as the RPC returns it: an object whose schema
    and table names are strings or null. *)
Definition table_row_ok (t : value) : bool :=
  match t with
  | VDict items =>
      name_or_null (default VNone (lookup_item "schema_name" items)) &&
      name_or_null (default VNone (lookup_item "table_name" items))
  | _ => false
  end.


(** *** Exports whose parameters are text *)

(** Parameters whose every value the extractor reads resolves to a
    string. *)
Definition text_params_ok (params : value) : bool :=
  match params with
  | VDict items =>
      text_param (default VNone (lookup_item "tableName" items)) &&
      text_param (default VNone (lookup_item "operation" items)) &&
      text_param (default VNone (lookup_item "functionName" items)) &&
      text_param (default VNone (lookup_item "rpc" items)) &&
      text_param (default (VStr "") (lookup_item "url" items))
  | _ => false
  end.

Definition text_node_ok (node : value) : bool :=
  match node with
  | VDict items =>
      name_or_null (default VNone (lookup_item "type" items)) &&
      text_params_ok (default (VDict []) (lookup_item "parameters" items))
  | _ => false
  end.

Definition text_workflow_ok (workflow : value) : bool :=
  match workflow with
  | VDict items =>
      match default (VList []) (lookup_item "nodes" items) with
      | VList nodes => forallb text_node_ok nodes
      | _ => false
      end
  | _ => false
  end.

(** A set holding both a number and a string. *)
Definition mixed (D : gset hkey) : Prop := ∃ n s, KNum n ∈ D ∧ KStr s ∈ D.


(** *** A concrete service and concrete files *)

Definition ok_response (body : value) : response :=
  {| status_code := 200; json_body := Some body |}.

Definition status_response (status : Z) : response :=
  {| status_code := status; json_body := None |}.

Definition example_rows : list value :=
  [VDict [("id", VInt 1)]; VDict [("id", VInt 2)]].

Definition example_table_rows : value :=
  VList [VDict [("schema_name", VStr "public"); ("table_name", VStr "orders")];
         VDict [("schema_name", VStr "public"); ("table_name", VNone)]].

(** A service with one page of rows per table and without the RPC
    [list_function_dependencies]. *)
Definition example_server : server :=
  {| post path body :=
       if String.eqb path "/rpc/list_tables" then ok_response example_table_rows
       else if String.eqb path "/rpc/list_functions"
            then ok_response (VList example_functions)
            else status_response 404;
     get_rows table_text start end_ :=
       if start =? 0 then ok_response (VList example_rows) else status_response 416 |}.

(** The same service, answering every range with the same rows. *)
Definition stuck_server : server :=
  {| post := post example_server;
     get_rows table_text start end_ := ok_response (VList example_rows) |}.


(** The same service, answering the first range with a JSON string of two
    letters outside ASCII. *)
Definition text_page_server : server :=
  {| post := post example_server;
     get_rows table_text start end_ :=
       if start =? 0 then ok_response (VStr "é€") else status_response 416 |}.

(** A service without the RPC [list_tables]. *)
Definition bare_server : server :=
  {| post path body := status_response 404;
     get_rows table_text start end_ := status_response 416 |}.

Definition ended_well {A : Type} (run : list (target * value) * option (outcome A))
  : bool :=
  match run.2 with
  | Some (Done _) => true
  | _ => false
  end.

Definition plain_workflow : value :=
  VDict [("nodes", VList [VDict [("type", VStr "n8n-nodes-base.set")];
                          VDict [("parameters", VDict [("tableName", VStr "orders")])]])].

(** Two Supabase nodes, one naming its table by a numeric id. *)
Definition mixed_workflows : value :=
  VList [VDict [("nodes",
    VList [VDict [("type", VStr "n8n-nodes-base.supabase");
                  ("parameters", VDict [("tableName", VDict [("value", VInt 7)])])];
           VDict [("type", VStr "n8n-nodes-base.supabase");
                  ("parameters", VDict [("tableName", VStr "orders")])]])]].

Definition dict_file (path : string) : option value :=
  if String.eqb path "n8n_data.json"
  then Some (VDict [("workflows", example_workflows)])
  else None.

Definition list_file (path : string) : option value :=
  if String.eqb path "n8n_data.json" then Some example_workflows else None.


Definition null_schema_dependencies : list value :=
  [VDict [("function_schema", VNone); ("function_name", VStr "refresh_orders");
          ("referenced_table", VStr "orders")]].


(** * Properties *)

(** ** The exception monad and the loops *)

Lemma bind_Ok {A B : Type} (m : result A) (f : A -> result B) (b : B) :
  (m ≫= f) = Ok b ↔ ∃ a, m = Ok a ∧ f a = Ok b.
Proof.
  destruct m as [a|e]; simpl; split.
  - intros H. by exists a.
  - by intros (a' & [= <-] & H).
  - done.
  - by intros (a' & [=] & _).
Qed.

Ltac inv_bind H :=
  repeat match type of H with
  | (_ ≫= _) = Ok _ =>
      let a := fresh "a" in
      let Ha := fresh "H" a in
      apply bind_Ok in H as (a & Ha & H)
  end.

Lemma for_each_app {S A : Type} (body : S -> A -> result S) xs ys st :
  for_each body (xs ++ ys) st = (for_each body xs st ≫= for_each body ys).
Proof.
  revert st. induction xs as [|x xs IH]; intros st; simpl; [done|].
  destruct (body st x) as [st'|e]; simpl; [apply IH|done].
Qed.

Lemma map_each_Forall2 {A B : Type} (f : A -> result B) xs ys :
  map_each f xs = Ok ys ↔ Forall2 (fun x y => f x = Ok y) xs ys.
Proof.
  revert ys. induction xs as [|x xs IH]; intros ys; simpl.
  - split; [intros [= <-]; constructor | by inversion 1].
  - split.
    + intros H. inv_bind H. injection H as <-. constructor; [done|]. by apply IH.
    + inversion 1 as [|? y ? ys' Hx Hrest]; subst. rewrite Hx. simpl.
      apply IH in Hrest. by rewrite Hrest.
Qed.

Lemma map_each_length {A B : Type} (f : A -> result B) xs ys :
  map_each f xs = Ok ys → length ys = length xs.
Proof. intros H%map_each_Forall2. symmetry. by eapply Forall2_length. Qed.

Lemma map_each_lookup {A B : Type} (f : A -> result B) xs ys i x :
  map_each f xs = Ok ys → xs !! i = Some x → ∃ y, ys !! i = Some y ∧ f x = Ok y.
Proof. intros H%map_each_Forall2 Hx. by eapply Forall2_lookup_l in H. Qed.

Lemma map_each_Permutation {A B : Type} (f : A -> result B) xs xs' ys :
  xs ≡ₚ xs' → map_each f xs = Ok ys →
  ∃ ys', map_each f xs' = Ok ys' ∧ ys ≡ₚ ys'.
Proof.
  intros Hp H%map_each_Forall2.
  destruct (Permutation_Forall2 Hp H) as (ys' & Hp' & H').
  exists ys'. split; [by apply map_each_Forall2|done].
Qed.

(** ** Sets *)

Lemma set_add_Ok (s s' : pyset) v :
  set_add s v = Ok s' → ∃ k, hash_key v = Ok k ∧ dom s' = dom s ∪ {[k]}.
Proof.
  unfold set_add. intros H. inv_bind H. injection H as <-.
  exists a. split; [done|].
  destruct (s !! a) eqn:Hk.
  - apply elem_of_dom_2 in Hk. set_solver.
  - rewrite dom_insert_L. set_solver.
Qed.

Lemma set_add_total (s : pyset) v k :
  hash_key v = Ok k → ∃ s', set_add s v = Ok s' ∧ dom s' = dom s ∪ {[k]}.
Proof.
  intros Hk. unfold set_add. rewrite Hk. simpl. eexists. split; [done|].
  destruct (s !! k) eqn:Hs.
  - apply elem_of_dom_2 in Hs. set_solver.
  - rewrite dom_insert_L. set_solver.
Qed.

Lemma set_add_Raise (s s0 : pyset) v e :
  set_add s v = Raise e → set_add s0 v = Raise e.
Proof. unfold set_add. destruct (hash_key v); simpl; [done|done]. Qed.


(** ** Steps that only add to the two sets *)

Lemma additive_Ok : additive Ok.
Proof. intros T F. exists T, F. rewrite !dom_empty_L. set_solver. Qed.

Lemma additive_Raise e : additive (fun _ => Raise e).
Proof. by intros T F. Qed.

Lemma additive_bind f g :
  additive f → additive g → additive (fun st => f st ≫= g).
Proof.
  intros Hf Hg T F.
  pose proof (Hf T F) as HfT.
  destruct (f (∅, ∅)) as [[A B]|e]; simpl; [|by rewrite HfT].
  destruct HfT as (T1 & F1 & -> & HT1 & HF1). simpl.
  pose proof (Hg A B) as HgA. pose proof (Hg T1 F1) as HgT.
  destruct (g (∅, ∅)) as [[A' B']|e]; [|by rewrite HgA, HgT].
  destruct HgA as (A2 & B2 & -> & HA2 & HB2).
  destruct HgT as (T2 & F2 & -> & HT2 & HF2).
  exists T2, F2. split; [done|]. rewrite HT2, HF2, HT1, HF1, HA2, HB2. set_solver.
Qed.

Lemma additive_add_table v :
  additive (fun st => T ← set_add st.1 v; Ok (T, st.2)).
Proof.
  intros T F. simpl. destruct (hash_key v) as [k|e] eqn:Hk.
  - destruct (set_add_total ∅ v k Hk) as (A & -> & HA).
    destruct (set_add_total T v k Hk) as (T' & -> & HT). simpl.
    exists T', F. rewrite HT, HA, !dom_empty_L. set_solver.
  - unfold set_add. by rewrite Hk.
Qed.

Lemma additive_add_function v :
  additive (fun st => F ← set_add st.2 v; Ok (st.1, F)).
Proof.
  intros T F. simpl. destruct (hash_key v) as [k|e] eqn:Hk.
  - destruct (set_add_total ∅ v k Hk) as (B & -> & HB).
    destruct (set_add_total F v k Hk) as (F' & -> & HF). simpl.
    exists T, F'. rewrite HF, HB, !dom_empty_L. set_solver.
  - unfold set_add. by rewrite Hk.
Qed.

Lemma additive_ext f g : (∀ st, f st = g st) → additive f → additive g.
Proof.
  intros Heq Hf T F. specialize (Hf T F). rewrite <- !Heq. exact Hf.
Qed.

Lemma additive_for_each {A : Type} (body : pyset * pyset -> A -> result (pyset * pyset)) xs :
  (∀ x, additive (fun st => body st x)) → additive (for_each body xs).
Proof.
  intros Hbody. induction xs as [|x xs IH]; simpl.
  - apply additive_Ok.
  - apply (additive_bind (fun st => body st x) (for_each body xs)); auto.
Qed.


(** ** The extractor only adds *)

Lemma additive_table_part params :
  additive (fun st =>
    match dict_get params "tableName" VNone with
    | Ok tn =>
        if truthy (get_value tn) && negb (eq_str (get_value tn) "Supabase")
        then T ← set_add st.1 (get_value tn); Ok (T, st.2)
        else Ok st
    | Raise e => Raise e
    end).
Proof.
  destruct (dict_get params "tableName" VNone) as [tn|e]; [|apply additive_Raise].
  destruct (truthy (get_value tn) && negb (eq_str (get_value tn) "Supabase")).
  - apply additive_add_table.
  - apply additive_Ok.
Qed.

Lemma additive_function_part params :
  additive (fun st =>
    match dict_get params "operation" VNone with
    | Ok op =>
        if eq_str (get_value op) "call" then
          match dict_get params "functionName" VNone with
          | Ok fname =>
              match (if truthy fname then Ok fname
                     else dict_get params "rpc" VNone) with
              | Ok arg =>
                  if truthy (get_value arg)
                  then F ← set_add st.2 (get_value arg); Ok (st.1, F)
                  else Ok st
              | Raise e => Raise e
              end
          | Raise e => Raise e
          end
        else Ok st
    | Raise e => Raise e
    end).
Proof.
  destruct (dict_get params "operation" VNone) as [op|e]; [|apply additive_Raise].
  destruct (eq_str (get_value op) "call"); [|apply additive_Ok].
  destruct (dict_get params "functionName" VNone) as [fname|e]; [|apply additive_Raise].
  destruct (if truthy fname then Ok fname else dict_get params "rpc" VNone)
    as [arg|e]; [|apply additive_Raise].
  destruct (truthy (get_value arg)).
  - apply additive_add_function.
  - apply additive_Ok.
Qed.

Lemma additive_supabase_branch params : additive (supabase_branch params).
Proof.
  eapply additive_ext;
    [|exact (additive_bind _ _ (additive_table_part params)
                               (additive_function_part params))].
  intros [T F]. unfold supabase_branch. simpl.
  destruct (dict_get params "tableName" VNone) as [tn|e]; simpl; [|done].
  destruct (truthy (get_value tn) && negb (eq_str (get_value tn) "Supabase")); simpl.
  - destruct (set_add T (get_value tn)) as [T'|e]; simpl; [|done].
    destruct (dict_get params "operation" VNone) as [op|e]; simpl; [|done].
    destruct (eq_str (get_value op) "call"); [|done].
    destruct (dict_get params "functionName" VNone) as [fname|e]; simpl; [|done].
    destruct (if truthy fname then Ok fname else dict_get params "rpc" VNone)
      as [arg|e]; simpl; [|done].
    by destruct (truthy (get_value arg)).
  - destruct (dict_get params "operation" VNone) as [op|e]; simpl; [|done].
    destruct (eq_str (get_value op) "call"); [|done].
    destruct (dict_get params "functionName" VNone) as [fname|e]; simpl; [|done].
    destruct (if truthy fname then Ok fname else dict_get params "rpc" VNone)
      as [arg|e]; simpl; [|done].
    by destruct (truthy (get_value arg)).
Qed.

Lemma additive_http_branch params : additive (http_branch params).
Proof.
  eapply (additive_ext (fun st =>
    match dict_get params "url" (VStr "") with
    | Ok u =>
        match re_search_rpc (get_value u) with
        | Ok (Some g) => F ← set_add st.2 (VStr g); Ok (st.1, F)
        | Ok None => Ok st
        | Raise e => Raise e
        end
    | Raise e => Raise e
    end)).
  - intros [T F]. unfold http_branch. simpl.
    destruct (dict_get params "url" (VStr "")) as [u|e]; simpl; [|done].
    by destruct (re_search_rpc (get_value u)) as [[g|]|e].
  - destruct (dict_get params "url" (VStr "")) as [u|e]; [|apply additive_Raise].
    destruct (re_search_rpc (get_value u)) as [[g|]|e].
    + apply additive_add_function.
    + apply additive_Ok.
    + apply additive_Raise.
Qed.

Lemma additive_extract_node node : additive (fun st => extract_node st node).
Proof.
  unfold extract_node.
  destruct (node_type_of node) as [nt|e]; simpl; [|apply additive_Raise].
  destruct (node_params_of node) as [params|e]; simpl; [|apply additive_Raise].
  apply (additive_bind
           (fun st => if contains "supabase" nt then supabase_branch params st else Ok st)
           (fun st => if contains "httprequest" nt || contains "http" nt
                      then http_branch params st else Ok st)).
  - destruct (contains "supabase" nt);
      [apply additive_supabase_branch|apply additive_Ok].
  - destruct (contains "httprequest" nt || contains "http" nt);
      [apply additive_http_branch|apply additive_Ok].
Qed.

Lemma additive_extract_workflow w : additive (fun st => extract_workflow st w).
Proof.
  unfold extract_workflow.
  destruct (dict_get w "nodes" (VList [])) as [ns|e]; simpl; [|apply additive_Raise].
  destruct (py_iter ns) as [nodes|e]; simpl; [|apply additive_Raise].
  apply additive_for_each, additive_extract_node.
Qed.


(** ** What a loop of additive steps leaves in the sets *)

Section AdditiveLoop.
Context {A : Type} (body : pyset * pyset -> A -> result (pyset * pyset)).
Hypothesis body_additive : ∀ x, additive (fun st => body st x).

Lemma for_each_additive_inv xs st st' :
  for_each body xs st = Ok st' →
  (∀ x, x ∈ xs → ∃ st0, body (∅, ∅) x = Ok st0) ∧
  (∀ k, k ∈ dom st'.1 ↔
        k ∈ dom st.1 ∨ ∃ x st0, x ∈ xs ∧ body (∅, ∅) x = Ok st0 ∧ k ∈ dom st0.1) ∧
  (∀ k, k ∈ dom st'.2 ↔
        k ∈ dom st.2 ∨ ∃ x st0, x ∈ xs ∧ body (∅, ∅) x = Ok st0 ∧ k ∈ dom st0.2).
Proof.
  revert st. induction xs as [|x xs IH]; intros [T F]; simpl.
  - intros [= <-]. split; [by intros x Hx%elem_of_nil|].
    split; intros k; (split; [by left|]);
      (intros [?|(x & ? & Hx%elem_of_nil & _)]; done).
  - intros H. inv_bind H. destruct a as [T1 F1].
    pose proof (body_additive x T F) as Hx. simpl in Hx.
    destruct (body (∅, ∅) x) as [[A0 B0]|e] eqn:H0; [|congruence].
    destruct Hx as (T1' & F1' & Hx & HT1 & HF1).
    rewrite Ha in Hx. injection Hx as <- <-.
    destruct (IH _ H) as (IH1 & IH2 & IH3). simpl in *.
    split; [|split].
    + intros y [->|Hy]%elem_of_cons; [by eexists|by apply IH1].
    + intros k. rewrite IH2, HT1, elem_of_union. split.
      * intros [[Hk|Hk]|(y & st0 & Hy & Hy0 & Hk)]; [by left| |].
        -- right. exists x, (A0, B0). split; [by left|done].
        -- right. exists y, st0. split; [by right|done].
      * intros [Hk|(y & st0 & [->|Hy]%elem_of_cons & Hy0 & Hk)].
        -- by left; left.
        -- rewrite H0 in Hy0. injection Hy0 as <-. by left; right.
        -- right. by exists y, st0.
    + intros k. rewrite IH3, HF1, elem_of_union. split.
      * intros [[Hk|Hk]|(y & st0 & Hy & Hy0 & Hk)]; [by left| |].
        -- right. exists x, (A0, B0). split; [by left|done].
        -- right. exists y, st0. split; [by right|done].
      * intros [Hk|(y & st0 & [->|Hy]%elem_of_cons & Hy0 & Hk)].
        -- by left; left.
        -- rewrite H0 in Hy0. injection Hy0 as <-. by left; right.
        -- right. by exists y, st0.
Qed.

Lemma for_each_additive_total xs st :
  (∀ x, x ∈ xs → ∃ st0, body (∅, ∅) x = Ok st0) →
  ∃ st', for_each body xs st = Ok st'.
Proof.
  revert st. induction xs as [|x xs IH]; intros [T F] Hall; simpl; [by eexists|].
  destruct (Hall x) as [[A0 B0] H0]; [by left|].
  pose proof (body_additive x T F) as Hx. simpl in Hx. rewrite H0 in Hx.
  destruct Hx as (T1 & F1 & -> & _). simpl.
  apply IH. intros y Hy. apply Hall. by right.
Qed.

Lemma for_each_additive_Permutation xs xs' st st1 :
  xs ≡ₚ xs' → for_each body xs st = Ok st1 →
  ∃ st2, for_each body xs' st = Ok st2 ∧
         dom st2.1 = dom st1.1 ∧ dom st2.2 = dom st1.2.
Proof.
  intros Hp H1. destruct (for_each_additive_inv _ _ _ H1) as (Hall & HT & HF).
  destruct (for_each_additive_total xs' st) as [st2 H2].
  { intros x Hx. apply Hall. by rewrite Hp. }
  exists st2. split; [done|].
  destruct (for_each_additive_inv _ _ _ H2) as (_ & HT' & HF').
  split; apply set_eq; intros k.
  - rewrite HT, HT'. by setoid_rewrite Hp.
  - rewrite HF, HF'. by setoid_rewrite Hp.
Qed.
End AdditiveLoop.


(** ** The sets the extractor returns, node by node *)

Lemma extract_workflow_members w A B :
  extract_workflow (∅, ∅) w = Ok (A, B) →
  ∃ ns nodes,
    dict_get w "nodes" (VList []) = Ok ns ∧ py_iter ns = Ok nodes ∧
    (∀ node, node ∈ nodes → ∃ st0, extract_node (∅, ∅) node = Ok st0) ∧
    (∀ k, k ∈ dom A ↔
          ∃ node st0, node ∈ nodes ∧ extract_node (∅, ∅) node = Ok st0 ∧ k ∈ dom st0.1) ∧
    (∀ k, k ∈ dom B ↔
          ∃ node st0, node ∈ nodes ∧ extract_node (∅, ∅) node = Ok st0 ∧ k ∈ dom st0.2).
Proof.
  unfold extract_workflow. intros H. inv_bind H. rename a into ns, a0 into nodes.
  exists ns, nodes. split; [done|]. split; [done|].
  destruct (for_each_additive_inv extract_node additive_extract_node _ _ _ H)
    as (Hall & HT & HF).
  split; [done|]. simpl in HT, HF.
  split; intros k; [rewrite HT|rewrite HF]; rewrite dom_empty_L;
    (split; [intros [Hk|Hk]; [set_solver|done] | by right]).
Qed.

Lemma extract_members workflows T F :
  extract_supabase_references_from_workflows workflows = Ok (T, F) →
  (∀ node, visits workflows node →
     ∃ A B, extract_node (∅, ∅) node = Ok (A, B) ∧ dom A ⊆ dom T ∧ dom B ⊆ dom F) ∧
  (∀ k, k ∈ dom T →
     ∃ node A B, visits workflows node ∧ extract_node (∅, ∅) node = Ok (A, B) ∧ k ∈ dom A) ∧
  (∀ k, k ∈ dom F →
     ∃ node A B, visits workflows node ∧ extract_node (∅, ∅) node = Ok (A, B) ∧ k ∈ dom B).
Proof.
  unfold extract_supabase_references_from_workflows. intros H. inv_bind H.
  rename a into ws.
  destruct (for_each_additive_inv extract_workflow additive_extract_workflow _ _ _ H)
    as (Hall & HT & HF).
  simpl in HT, HF. split; [|split].
  - intros node (ws' & w & ns & nodes & Hws & Hw & Hns & Hnodes & Hnode).
    rewrite Ha in Hws. injection Hws as <-.
    destruct (Hall w Hw) as [[Aw Bw] Hw0].
    destruct (extract_workflow_members _ _ _ Hw0)
      as (ns' & nodes' & Hns' & Hnodes' & Hall' & HA & HB).
    rewrite Hns in Hns'. injection Hns' as <-.
    rewrite Hnodes in Hnodes'. injection Hnodes' as <-.
    destruct (Hall' node Hnode) as [[A B] Hn0].
    exists A, B. split; [done|]. split; intros k Hk.
    + apply HT. right. exists w, (Aw, Bw). split; [done|]. split; [done|].
      apply HA. by exists node, (A, B).
    + apply HF. right. exists w, (Aw, Bw). split; [done|]. split; [done|].
      apply HB. by exists node, (A, B).
  - intros k [Hk|(w & [Aw Bw] & Hw & Hw0 & Hk)]%HT; [by rewrite dom_empty_L in Hk|].
    destruct (extract_workflow_members _ _ _ Hw0)
      as (ns & nodes & Hns & Hnodes & _ & HA & _).
    apply HA in Hk as (node & [A B] & Hnode & Hn0 & Hk).
    exists node, A, B. split; [|done]. by exists ws, w, ns, nodes.
  - intros k [Hk|(w & [Aw Bw] & Hw & Hw0 & Hk)]%HF; [by rewrite dom_empty_L in Hk|].
    destruct (extract_workflow_members _ _ _ Hw0)
      as (ns & nodes & Hns & Hnodes & _ & _ & HB).
    apply HB in Hk as (node & [A B] & Hnode & Hn0 & Hk).
    exists node, A, B. split; [|done]. by exists ws, w, ns, nodes.
Qed.

(** ** One node, unfolded *)

Lemma supabase_branch_Ok params T F T' F' :
  supabase_branch params (T, F) = Ok (T', F') →
  ∃ tn op,
    dict_get params "tableName" VNone = Ok tn ∧
    (if truthy (get_value tn) && negb (eq_str (get_value tn) "Supabase")
     then set_add T (get_value tn) = Ok T' else T' = T) ∧
    dict_get params "operation" VNone = Ok op ∧
    (if eq_str (get_value op) "call" then
       ∃ fname arg,
         dict_get params "functionName" VNone = Ok fname ∧
         (if truthy fname then Ok fname else dict_get params "rpc" VNone) = Ok arg ∧
         (if truthy (get_value arg)
          then set_add F (get_value arg) = Ok F' else F' = F)
     else F' = F).
Proof.
  unfold supabase_branch. intros H.
  apply bind_Ok in H as (tn & Htn & H). apply bind_Ok in H as (T1 & HT1 & H).
  apply bind_Ok in H as (op & Hop & H).
  exists tn, op. split; [done|].
  assert (T1 = T' ∧
    (if eq_str (get_value op) "call" then
       ∃ fname arg,
         dict_get params "functionName" VNone = Ok fname ∧
         (if truthy fname then Ok fname else dict_get params "rpc" VNone) = Ok arg ∧
         (if truthy (get_value arg)
          then set_add F (get_value arg) = Ok F' else F' = F)
     else F' = F)) as [-> Hfn].
  { destruct (eq_str (get_value op) "call"); [|by injection H as -> ->].
    apply bind_Ok in H as (fname & Hfname & H). apply bind_Ok in H as (arg & Harg & H).
    destruct (truthy (get_value arg)) eqn:Htr.
    - apply bind_Ok in H as (F1 & HF1 & H). injection H as -> ->.
      split; [done|]. exists fname, arg. by rewrite Htr.
    - injection H as -> ->. split; [done|]. exists fname, arg. by rewrite Htr. }
  split; [|done].
  destruct (truthy (get_value tn) && negb (eq_str (get_value tn) "Supabase"));
    [done|by injection HT1].
Qed.

Lemma http_branch_Ok params T F T' F' :
  http_branch params (T, F) = Ok (T', F') →
  T' = T ∧
  ∃ u m, dict_get params "url" (VStr "") = Ok u ∧
         re_search_rpc (get_value u) = Ok m ∧
         match m with
         | Some g => set_add F (VStr g) = Ok F'
         | None => F' = F
         end.
Proof.
  unfold http_branch. intros H.
  apply bind_Ok in H as (u & Hu & H). apply bind_Ok in H as (m & Hm & H).
  destruct m as [g|].
  - apply bind_Ok in H as (F1 & HF1 & H). injection H as -> ->.
    split; [done|]. by exists u, (Some g).
  - injection H as -> ->. split; [done|]. by exists u, None.
Qed.

Lemma extract_node_Ok T F node T' F' :
  extract_node (T, F) node = Ok (T', F') →
  ∃ nt params T1 F1,
    node_type_of node = Ok nt ∧ node_params_of node = Ok params ∧
    (if contains "supabase" nt
     then supabase_branch params (T, F) = Ok (T1, F1)
     else (T1, F1) = (T, F)) ∧
    (if contains "httprequest" nt || contains "http" nt
     then http_branch params (T1, F1) = Ok (T', F')
     else (T', F') = (T1, F1)).
Proof.
  unfold extract_node. intros H.
  apply bind_Ok in H as (nt & Hnt & H). apply bind_Ok in H as (params & Hp & H).
  apply bind_Ok in H as ([T1 F1] & H1 & H).
  exists nt, params, T1, F1. split; [done|]. split; [done|]. split.
  - destruct (contains "supabase" nt); [done|by injection H1 as -> ->].
  - destruct (contains "httprequest" nt || contains "http" nt);
      [done|by injection H as -> ->].
Qed.


Lemma hash_key_same v w k s :
  hash_key v = Ok k → hash_key w = Ok k →
  truthy v = truthy w ∧ eq_str v s = eq_str w s.
Proof.
  destruct v as [|b|n|t| |], w as [|b'|n'|t'| |]; simpl; try done;
    intros [= <-] [= Heq]; subst; try done;
    repeat match goal with b : bool |- _ => destruct b end; done.
Qed.

(** Every key a node puts among the tables is the key of a value that is
    true and is not the placeholder. *)
Lemma node_tables_guarded node A B k :
  extract_node (∅, ∅) node = Ok (A, B) → k ∈ dom A →
  ∃ v, hash_key v = Ok k ∧ truthy v = true ∧ eq_str v "Supabase" = false.
Proof.
  intros H Hk.
  apply extract_node_Ok in H as (nt & params & T1 & F1 & _ & _ & Hs & Hh).
  assert (A = T1) as ->.
  { destruct (contains "httprequest" nt || contains "http" nt).
    - by apply http_branch_Ok in Hh as [-> _].
    - by injection Hh. }
  destruct (contains "supabase" nt).
  - apply supabase_branch_Ok in Hs as (tn & op & _ & HT & _).
    destruct (truthy (get_value tn) && negb (eq_str (get_value tn) "Supabase")) eqn:Hc.
    + apply set_add_Ok in HT as (k' & Hk' & Hdom).
      rewrite Hdom, dom_empty_L, union_empty_l_L, elem_of_singleton in Hk. subst k'.
      apply andb_true_iff in Hc as [Htr Hne]. apply negb_true_iff in Hne.
      by exists (get_value tn).
    + subst T1. by rewrite dom_empty_L in Hk.
  - injection Hs as -> _. by rewrite dom_empty_L in Hk.
Qed.

(** ** The claims about the extractor *)

(** C1. For every workflow collection on which the extractor returns and
    every Supabase-typed node it visits, the resolved value of
    [parameters.tableName] is in [tablesUsed] if and only if it is
    non-empty and is not the literal ["Supabase"]; and ["Supabase"] is never
    in [tablesUsed]. *)
Theorem table_reference_rule workflows T F node nt params tn :
  extract_supabase_references_from_workflows workflows = Ok (T, F) →
  visits workflows node →
  node_type_of node = Ok nt → contains "supabase" nt = true →
  node_params_of node = Ok params →
  dict_get params "tableName" VNone = Ok tn →
  (set_in (get_value tn) T = Ok true ↔
     truthy (get_value tn) = true ∧ eq_str (get_value tn) "Supabase" = false) ∧
  KStr "Supabase" ∉ dom T.
Proof.
  intros Hex Hvis Hnt Hsup Hparams Htn.
  destruct (extract_members _ _ _ Hex) as (Hin & HT & _).
  split; [split|].
  - unfold set_in. intros H. apply bind_Ok in H as (k & Hk & H).
    injection H as H. apply bool_decide_eq_true in H.
    destruct (HT k H) as (node' & A & B & _ & Hn' & HkA).
    destruct (node_tables_guarded _ _ _ _ Hn' HkA) as (v & Hv & Htr & Hne).
    destruct (hash_key_same _ _ _ "Supabase" Hv Hk) as [<- <-]. done.
  - intros [Htr Hne].
    destruct (Hin node Hvis) as (A & B & Hn & HA & _).
    apply extract_node_Ok in Hn as (nt' & params' & T1 & F1 & Hnt' & Hp' & Hs & Hh).
    rewrite Hnt in Hnt'. injection Hnt' as <-.
    rewrite Hparams in Hp'. injection Hp' as <-.
    assert (A = T1) as ->.
    { destruct (contains "httprequest" nt || contains "http" nt).
      - by apply http_branch_Ok in Hh as [-> _].
      - by injection Hh. }
    rewrite Hsup in Hs.
    apply supabase_branch_Ok in Hs as (tn' & op & Htn' & HT1 & _).
    rewrite Htn in Htn'. injection Htn' as <-.
    rewrite Htr, Hne in HT1. simpl in HT1.
    apply set_add_Ok in HT1 as (k & Hk & Hdom).
    unfold set_in. rewrite Hk. simpl. f_equal. apply bool_decide_eq_true.
    apply HA. rewrite Hdom. set_solver.
  - intros H.
    destruct (HT _ H) as (node' & A & B & _ & Hn' & HkA).
    destruct (node_tables_guarded _ _ _ _ Hn' HkA) as (v & Hv & Htr & Hne).
    destruct v; simpl in Hv; try done. injection Hv as ->. done.
Qed.

(** C10. In the Supabase branch with the operation resolving to ["call"],
    whenever the raw [functionName] is falsy (absent, null or the empty
    string) and [rpc] is a non-empty name [f], [f] is in [functionsUsed]. *)
Theorem rpc_fallback_on_falsy workflows T F node nt params op fname f :
  extract_supabase_references_from_workflows workflows = Ok (T, F) →
  visits workflows node →
  node_type_of node = Ok nt → contains "supabase" nt = true →
  node_params_of node = Ok params →
  dict_get params "operation" VNone = Ok op →
  eq_str (get_value op) "call" = true →
  dict_get params "functionName" VNone = Ok fname →
  truthy fname = false →
  dict_get params "rpc" VNone = Ok (VStr f) →
  f ≠ "" →
  set_in (VStr f) F = Ok true.
Proof.
  intros Hex Hvis Hnt Hsup Hparams Hop Hcall Hfname Hfalsy Hrpc Hf.
  destruct (extract_members _ _ _ Hex) as (Hin & _ & _).
  destruct (Hin node Hvis) as (A & B & Hn & _ & HB).
  apply extract_node_Ok in Hn as (nt' & params' & T1 & F1 & Hnt' & Hp' & Hs & Hh).
  rewrite Hnt in Hnt'. injection Hnt' as <-.
  rewrite Hparams in Hp'. injection Hp' as <-.
  rewrite Hsup in Hs.
  apply supabase_branch_Ok in Hs as (tn & op' & _ & _ & Hop' & Hfn).
  rewrite Hop in Hop'. injection Hop' as <-.
  rewrite Hcall in Hfn. destruct Hfn as (fname' & arg & Hfname' & Harg & HF1).
  rewrite Hfname in Hfname'. injection Hfname' as <-.
  rewrite Hfalsy, Hrpc in Harg. injection Harg as <-.
  assert (truthy (get_value (VStr f)) = true) as Htr.
  { simpl. apply negb_true_iff, String.eqb_neq. done. }
  rewrite Htr in HF1. apply set_add_Ok in HF1 as (k & Hk & Hdom).
  simpl in Hk. injection Hk as <-.
  assert (KStr f ∈ dom B) as HfB.
  { destruct (contains "httprequest" nt || contains "http" nt).
    - apply http_branch_Ok in Hh as (_ & u & m & _ & _ & Hm).
      destruct m as [g|].
      + apply set_add_Ok in Hm as (k & _ & ->). rewrite Hdom. set_solver.
      + subst B. rewrite Hdom. set_solver.
    - injection Hh as _ ->. rewrite Hdom. set_solver. }
  unfold set_in. simpl. f_equal. apply bool_decide_eq_true. by apply HB.
Qed.


Lemma lookup_item_app k items items' :
  lookup_item k (items ++ items') =
  match lookup_item k items with
  | Some v => Some v
  | None => lookup_item k items'
  end.
Proof.
  induction items as [|[k' v] items IH]; simpl; [done|].
  by destruct (String.eqb k k').
Qed.

Lemma supabase_branch_no_params st : supabase_branch (VDict []) st = Ok st.
Proof. by destruct st. Qed.

Lemma http_branch_no_params st : http_branch (VDict []) st = Ok st.
Proof. by destruct st. Qed.

(** C8. A node without [parameters] is processed as if [parameters] were an
    empty mapping, and the extractor returns on it whenever its type is
    readable, adding nothing; a node whose [type] is absent or null has
    the empty type, enters neither branch and adds nothing. *)
Theorem missing_fields_tolerated items st :
  (lookup_item "parameters" items = None →
     node_params_of (VDict items) = Ok (VDict []) ∧
     extract_node st (VDict items) =
       extract_node st (VDict (items ++ [("parameters", VDict [])])) ∧
     ∀ nt, node_type_of (VDict items) = Ok nt → extract_node st (VDict items) = Ok st) ∧
  (lookup_item "type" items = None ∨ lookup_item "type" items = Some VNone →
     node_type_of (VDict items) = Ok "" ∧
     contains "supabase" "" = false ∧
     contains "httprequest" "" || contains "http" "" = false ∧
     extract_node st (VDict items) = Ok st).
Proof.
  split.
  - intros Hp.
    assert (node_params_of (VDict items) = Ok (VDict [])) as Hparams.
    { unfold node_params_of. simpl. by rewrite Hp. }
    split; [done|]. split.
    + unfold extract_node, node_type_of, node_params_of. simpl.
      rewrite !lookup_item_app, Hp. simpl.
      by destruct (lookup_item "type" items).
    + intros nt Hnt. unfold extract_node. rewrite Hnt, Hparams. simpl.
      destruct (contains "supabase" nt); simpl;
        rewrite ?supabase_branch_no_params; simpl;
        destruct (contains "httprequest" nt || contains "http" nt);
        by rewrite ?http_branch_no_params.
  - intros Hty.
    assert (node_type_of (VDict items) = Ok "") as Hnt.
    { unfold node_type_of. simpl. by destruct Hty as [-> | ->]. }
    split; [done|]. split; [done|]. split; [done|].
    unfold extract_node. rewrite Hnt. simpl.
    by destruct (node_params_of (VDict items)).
Qed.

Lemma locator_node_refs :
  match extract_node (∅, ∅) locator_node with
  | Ok (A, B) =>
      bool_decide (KStr "orders" ∈ dom A) &&
      bool_decide (KStr "refresh_orders" ∈ dom B)
  | Raise _ => false
  end = true.
Proof. vm_compute. reflexivity. Qed.

(** C6, as amended. [get_value] maps null to the empty string, a plain
    string to itself, and an object to its cached display name when that is
    truthy (present, not null, not empty), else to its raw value when that
    is truthy, else to the empty string; and wherever the extractor visits
    the node of the example, ["orders"] is in [tablesUsed] and
    ["refresh_orders"] in [functionsUsed]. *)
Theorem resource_locator_resolution :
  get_value VNone = VStr "" ∧
  (∀ s, get_value (VStr s) = VStr s) ∧
  (∀ items,
     let cached := default VNone (lookup_item "cachedResultName" items) in
     let raw := default VNone (lookup_item "value" items) in
     get_value (VDict items) =
       if truthy cached then cached else if truthy raw then raw else VStr "") ∧
  (∀ workflows T F,
     extract_supabase_references_from_workflows workflows = Ok (T, F) →
     visits workflows locator_node →
     set_in (VStr "orders") T = Ok true ∧ set_in (VStr "refresh_orders") F = Ok true).
Proof.
  split; [done|]. split; [done|]. split.
  - intros items cached raw. simpl. unfold py_or. fold cached raw.
    destruct (truthy cached) eqn:Hc; simpl; [by rewrite Hc|].
    by destruct (truthy raw).
  - intros workflows T F Hex Hvis.
    destruct (extract_members _ _ _ Hex) as (Hin & _ & _).
    destruct (Hin _ Hvis) as (A & B & Hn & HA & HB).
    pose proof locator_node_refs as Hc. rewrite Hn in Hc.
    apply andb_true_iff in Hc as [H1 H2].
    apply bool_decide_eq_true in H1, H2.
    unfold set_in. simpl. split; f_equal; apply bool_decide_eq_true; auto.
Qed.


(** ** The search for an RPC path *)

Lemma append_cons c s t : String c s +:+ t = String c (s +:+ t).
Proof. reflexivity. Qed.

Lemma append_nil t : "" +:+ t = t.
Proof. reflexivity. Qed.

Lemma prefix_split w s :
  String.prefix w s = true → s = w +:+ drop_prefix (String.length w) s.
Proof.
  revert s. induction w as [|a w IH]; intros s; [by destruct s|].
  destruct s as [|b s]; simpl; [done|].
  destruct (ascii_dec a b) as [->|]; [|done].
  intros H. apply IH in H. exact (f_equal (String b) H).
Qed.

Lemma prefix_append w x : String.prefix w (w +:+ x) = true.
Proof.
  induction w as [|a w IH]; [by destruct x|].
  rewrite append_cons. simpl. by destruct (ascii_dec a a).
Qed.

Lemma drop_prefix_append w x : drop_prefix (String.length w) (w +:+ x) = x.
Proof. induction w as [|a w IH]; [done|]. by rewrite append_cons. Qed.

Lemma take_drop_while p s : s = take_while p s +:+ drop_while p s.
Proof.
  induction s as [|c s IH]; simpl; [done|].
  destruct (p c); [|done]. rewrite append_cons. by f_equal.
Qed.

Lemma all_chars_take_while p s : all_chars p (take_while p s) = true.
Proof.
  induction s as [|c s IH]; simpl; [done|].
  destruct (p c) eqn:Hc; simpl; [by rewrite Hc|done].
Qed.

Lemma stops_drop_while s : stops (drop_while ident_char s) = true.
Proof.
  induction s as [|c s IH]; simpl; [done|].
  destruct (ident_char c) eqn:Hc; simpl; [done|by rewrite Hc].
Qed.

Lemma take_while_greedy r post :
  all_chars ident_char r = true → stops post = true →
  take_while ident_char (r +:+ post) = r.
Proof.
  intros Hr Hpost. induction r as [|c r IH]; simpl in Hr.
  - rewrite append_nil. destruct post as [|c post]; simpl in *; [done|].
    by apply negb_true_iff in Hpost as ->.
  - apply andb_true_iff in Hr as [Hc Hr]. rewrite append_cons. simpl.
    rewrite Hc. f_equal. by apply IH.
Qed.

Lemma match_rpc_here_Some s g : match_rpc_here s = Some g ↔ rpc_match_here s g.
Proof.
  unfold match_rpc_here, rpc_match_here. split.
  - destruct (String.prefix "/rpc/" s) eqn:Hp; [|done].
    apply prefix_split in Hp. simpl String.length in Hp.
    destruct (drop_prefix 5 s) as [|c rest] eqn:Hd; [done|].
    destruct (ident_start c) eqn:Hc; [|done]. intros [= <-].
    exists (drop_while ident_char rest). split; [|split].
    + rewrite Hp at 1. f_equal. rewrite append_cons. f_equal.
      apply take_drop_while.
    + simpl. by rewrite Hc, all_chars_take_while.
    + apply stops_drop_while.
  - intros (post & -> & Hg & Hpost).
    destruct g as [|c r]; [done|]. simpl in Hg.
    apply andb_true_iff in Hg as [Hc Hr].
    rewrite (prefix_append "/rpc/").
    change 5%nat with (String.length "/rpc/"). rewrite drop_prefix_append.
    simpl. rewrite Hc. by rewrite take_while_greedy.
Qed.

Lemma match_rpc_here_None s : match_rpc_here s = None ↔ ¬ rpc_possible_here s.
Proof.
  split.
  - intros Hnone (g & post & -> & Hg).
    destruct g as [|c r]; [done|]. simpl in Hg.
    apply andb_true_iff in Hg as [Hc Hr].
    unfold match_rpc_here in Hnone. rewrite (prefix_append "/rpc/") in Hnone.
    change 5%nat with (String.length "/rpc/") in Hnone.
    rewrite drop_prefix_append in Hnone. simpl in Hnone. by rewrite Hc in Hnone.
  - intros Hno. destruct (match_rpc_here s) as [g|] eqn:Hm; [|done].
    destruct Hno. apply match_rpc_here_Some in Hm as (post & -> & Hg & _).
    by exists g, post.
Qed.

Lemma search_rpc_unfold s :
  search_rpc s =
  match match_rpc_here s with
  | Some g => Some g
  | None =>
      match s with
      | EmptyString => None
      | String _ rest => search_rpc rest
      end
  end.
Proof. by destruct s. Qed.

(** [search_rpc] returns the leftmost match of the pattern, with the
    longest identifier. *)
Lemma search_rpc_leftmost s g : search_rpc s = Some g ↔ leftmost_rpc_match s g.
Proof.
  unfold leftmost_rpc_match. split.
  - revert g. induction s as [|c s IH]; intros g; rewrite search_rpc_unfold.
    + destruct (match_rpc_here "") as [g'|] eqn:Hm; [|done]. intros [= ->].
      exists "", "". split; [done|]. split; [by apply match_rpc_here_Some|].
      simpl. intros; lia.
    + destruct (match_rpc_here (String c s)) as [g'|] eqn:Hm.
      * intros [= ->]. exists "", (String c s). split; [done|].
        split; [by apply match_rpc_here_Some|]. simpl. intros; lia.
      * intros (pre & t & -> & Ht & Hleft)%IH.
        exists (String c pre), t. split; [done|]. split; [done|].
        intros pre' t' Heq Hlen. destruct pre' as [|c' pre'].
        -- rewrite append_nil in Heq. subst t'. by apply match_rpc_here_None.
        -- rewrite !append_cons in Heq. injection Heq as <- Heq.
           apply (Hleft pre' t' Heq). simpl in Hlen. lia.
  - intros (pre & t & -> & Ht & Hleft). induction pre as [|c pre IH].
    + rewrite append_nil, search_rpc_unfold. apply match_rpc_here_Some in Ht.
      by rewrite Ht.
    + rewrite search_rpc_unfold.
      assert (match_rpc_here (String c pre +:+ t) = None) as ->.
      { apply match_rpc_here_None. apply (Hleft "" _ eq_refl). simpl. lia. }
      rewrite append_cons. apply IH. intros pre' t' Heq Hlen.
      apply (Hleft (String c pre') t'); [by rewrite !append_cons, Heq|simpl; lia].
Qed.





(** ** The report depends on the usage sets through their keys *)

Lemma map_keys_elements (m : pyset) : (map_to_list m).*1 ≡ₚ elements (dom m).
Proof.
  apply NoDup_Permutation.
  - apply NoDup_fst_map_to_list.
  - apply NoDup_elements.
  - intros k. rewrite elem_of_elements, elem_of_dom, list_elem_of_fmap. split.
    + intros ([k' v] & -> & Hkv%elem_of_map_to_list). by exists v.
    + intros [v Hv]. exists (k, v). split; [done|]. by apply elem_of_map_to_list.
Qed.

Lemma forallb_Permutation {A : Type} (f : A -> bool) l l' :
  l ≡ₚ l' → forallb f l = forallb f l'.
Proof.
  induction 1 as [|x l l' _ IH|x y l|l l' l'' _ IH1 _ IH2]; simpl.
  - done.
  - by rewrite IH.
  - by destruct (f x), (f y).
  - by rewrite IH1.
Qed.

Lemma comparable_Permutation l l' : l ≡ₚ l' → comparable l = comparable l'.
Proof.
  intros Hp. unfold comparable.
  by rewrite (Permutation_length Hp), (forallb_Permutation is_num _ _ Hp),
    (forallb_Permutation is_str _ _ Hp).
Qed.

Lemma sorted_set_sortable (s : pyset) :
  sorted_set s =
  if sortable (dom s) then Ok ((merge_sort item_le (map_to_list s)).*2)
  else Raise TypeError.
Proof.
  unfold sorted_set, sortable.
  by rewrite (comparable_Permutation _ _ (map_keys_elements s)).
Qed.

Lemma set_in_dom v (s s' : pyset) : dom s = dom s' → set_in v s = set_in v s'.
Proof. intros Hd. unfold set_in. by rewrite Hd. Qed.

Lemma set_len_dom (s s' : pyset) : dom s = dom s' → set_len s = set_len s'.
Proof.
  intros Hd. unfold set_len. by rewrite <- (size_dom s), <- (size_dom s'), Hd.
Qed.

Lemma map_each_ext {A B : Type} (f g : A -> result B) xs :
  (∀ x, f x = g x) → map_each f xs = map_each g xs.
Proof. intros Hfg. induction xs as [|x xs IH]; simpl; [done|]. by rewrite Hfg, IH. Qed.

Lemma main_report_dom now workflows supabase_data (T T' F F' : pyset) :
  dom T = dom T' → dom F = dom F' →
  main_report now workflows supabase_data T F =
  main_report now workflows supabase_data T' F'.
Proof.
  intros HT HF.
  assert (∀ tl, map_each (enrich_table T) tl = map_each (enrich_table T') tl) as HeT.
  { intros tl. apply map_each_ext. intros x. unfold enrich_table.
    destruct (dict_get x "name" VNone) as [name|]; simpl; [|done].
    destruct (dict_get x "schema" (VStr "public")); simpl; [|done].
    by rewrite (set_in_dom name _ _ HT). }
  assert (∀ fl, map_each (enrich_function F) fl = map_each (enrich_function F') fl)
    as HeF.
  { intros fl. apply map_each_ext. intros x. unfold enrich_function.
    destruct (dict_get x "name" VNone) as [name|]; simpl; [|done].
    destruct (dict_get x "schema" (VStr "public")); simpl; [|done].
    destruct (dict_get x "tables_used" (VList [])); simpl; [|done].
    by rewrite (set_in_dom name _ _ HF). }
  unfold main_report.
  rewrite (sorted_set_sortable T), (sorted_set_sortable T'), <- HT.
  destruct (sortable (dom T)); simpl; [|done].
  rewrite (sorted_set_sortable F), (sorted_set_sortable F'), <- HF.
  destruct (sortable (dom F)); simpl; [|done].
  destruct (dict_get supabase_data "tables" (VList [])) as [tv|]; simpl; [|done].
  destruct (py_iter tv) as [tl|]; simpl; [|done].
  rewrite HeT. destruct (map_each (enrich_table T') tl) as [et|]; simpl; [|done].
  destruct (dict_get supabase_data "functions" (VList [])) as [fv|]; simpl; [|done].
  destruct (py_iter fv) as [fl|]; simpl; [|done].
  rewrite HeF. destruct (map_each (enrich_function F') fl) as [ef|]; simpl; [|done].
  by rewrite (set_len_dom _ _ HT), (set_len_dom _ _ HF).
Qed.

Lemma main_report_Ok now workflows supabase_data T F r :
  main_report now workflows supabase_data T F = Ok r →
  ∃ tv tl et fv fl ef n,
    sortable (dom T) = true ∧ sortable (dom F) = true ∧
    dict_get supabase_data "tables" (VList []) = Ok tv ∧ py_iter tv = Ok tl ∧
    map_each (enrich_table T) tl = Ok et ∧
    dict_get supabase_data "functions" (VList []) = Ok fv ∧ py_iter fv = Ok fl ∧
    map_each (enrich_function F) fl = Ok ef ∧
    py_len workflows = Ok n ∧
    r = VDict
        [("metadata", VDict
            [("generated_at", VStr now);
             ("workflow_count", VInt n);
             ("table_count", VInt (Z.of_nat (length et)));
             ("function_count", VInt (Z.of_nat (length ef)));
             ("tables_used_by_n8n", VInt (set_len T));
             ("functions_used_by_n8n", VInt (set_len F))]);
         ("workflows", workflows);
         ("supabase", VDict [("tables", VList et); ("functions", VList ef)])].
Proof.
  unfold main_report. intros H.
  rewrite (sorted_set_sortable T) in H.
  destruct (sortable (dom T)); simpl in H; [|done].
  rewrite (sorted_set_sortable F) in H.
  destruct (sortable (dom F)); simpl in H; [|done].
  apply bind_Ok in H as (tv & Htv & H). apply bind_Ok in H as (tl & Htl & H).
  apply bind_Ok in H as (et & Het & H). apply bind_Ok in H as (fv & Hfv & H).
  apply bind_Ok in H as (fl & Hfl & H). apply bind_Ok in H as (ef & Hef & H).
  apply bind_Ok in H as (n & Hn & H). injection H as <-.
  by exists tv, tl, et, fv, fl, ef, n.
Qed.

(** ** The claims about the reconciler *)

(** C9. The report is a function of the clock and of the two inputs: a run
    at another clock raises the same exception or gives the same report
    with only [metadata.generated_at] replaced, and replacing it by the
    clock of the run changes nothing, so two runs at one clock agree. *)
Theorem reconcile_deterministic now now' files :
  main now' files = (r ← main now files; Ok (with_generated_at now' r)) ∧
  (∀ r r', main now files = Ok r → main now files = Ok r' → r = r') ∧
  (∀ r, main now files = Ok r → with_generated_at now r = r).
Proof.
  assert (∀ t, main t files =
               (r ← main now files; Ok (with_generated_at t r))) as Hclock.
  { intros t. unfold main, main_core.
    destruct (extract_supabase_references_from_workflows (load_workflows files))
      as [[T F]|e]; simpl; [|done].
    unfold main_report.
    destruct (sorted_set T); simpl; [|done].
    destruct (sorted_set F); simpl; [|done].
    destruct (dict_get (load_catalog files) "tables" (VList [])) as [tv|]; simpl; [|done].
    destruct (py_iter tv) as [tl|]; simpl; [|done].
    destruct (map_each (enrich_table T) tl) as [et|]; simpl; [|done].
    destruct (dict_get (load_catalog files) "functions" (VList [])) as [fv|]; simpl; [|done].
    destruct (py_iter fv) as [fl|]; simpl; [|done].
    destruct (map_each (enrich_function F) fl) as [ef|]; simpl; [|done].
    by destruct (py_len (load_workflows files)). }
  split; [apply Hclock|]. split.
  - intros r r' H H'. rewrite H in H'. by injection H'.
  - intros r H. pose proof (Hclock now) as Hnow. rewrite H in Hnow. simpl in Hnow.
    by injection Hnow.
Qed.


Lemma enrich_table_Ok T t e :
  enrich_table T t = Ok e →
  ∃ b, set_in (field "name" t) T = Ok b ∧
       field "name" e = field "name" t ∧ field "used_by_n8n" e = VBool b.
Proof.
  unfold enrich_table. destruct t; simpl; try done.
  intros H. apply bind_Ok in H as (b & Hb & H). injection H as <-. by exists b.
Qed.

Lemma enrich_function_Ok F f e :
  enrich_function F f = Ok e →
  ∃ b, set_in (field "name" f) F = Ok b ∧
       field "name" e = field "name" f ∧
       field "tables_used" e = default (VList []) (match f with
                                                   | VDict items => lookup_item "tables_used" items
                                                   | _ => None
                                                   end) ∧
       field "used_by_n8n" e = VBool b.
Proof.
  unfold enrich_function. destruct f; simpl; try done.
  intros H. apply bind_Ok in H as (b & Hb & H). injection H as <-. by exists b.
Qed.

Lemma enrich_table_total T t : entry_ok t = true → ∃ e, enrich_table T t = Ok e.
Proof.
  unfold entry_ok, enrich_table, set_in. destruct t; simpl; try done.
  destruct (hash_key _); simpl; [by eexists|done].
Qed.

Lemma enrich_function_total F f : entry_ok f = true → ∃ e, enrich_function F f = Ok e.
Proof.
  unfold entry_ok, enrich_function, set_in. destruct f; simpl; try done.
  destruct (hash_key _); simpl; [by eexists|done].
Qed.

Lemma map_each_total {A B : Type} (f : A -> result B) (ok : A -> bool) xs :
  (∀ x, ok x = true → ∃ y, f x = Ok y) → forallb ok xs = true →
  ∃ ys, map_each f xs = Ok ys.
Proof.
  intros Hok. induction xs as [|x xs IH]; simpl; [by eexists|].
  intros [Hx Hxs]%andb_true_iff. destruct (Hok x Hx) as [y ->].
  destruct (IH Hxs) as [ys ->]. by eexists.
Qed.

Lemma set_in_empty v b : set_in v (∅ : pyset) = Ok b → b = false.
Proof.
  unfold set_in. intros H. apply bind_Ok in H as (k & _ & H). injection H as <-.
  apply bool_decide_eq_false. rewrite dom_empty_L. set_solver.
Qed.

Lemma sortable_empty : sortable ∅ = true.
Proof. unfold sortable. by rewrite elements_empty. Qed.

Lemma extract_no_workflows :
  extract_supabase_references_from_workflows (VList []) = Ok (∅, ∅).
Proof. reflexivity. Qed.

Lemma load_workflows_missing files :
  files "n8n_data.json" = None →
  files "n8n_workflows_export/n8n_data.json" = None →
  load_workflows files = VList [].
Proof. intros H1 H2. unfold load_workflows, load_json. by rewrite H1, H2. Qed.

(** C5. For every catalog the reconciler can read, reconciling it with an
    empty workflow collection produces a report: it has one entry per table
    and per function of the catalog, every entry has [used_by_n8n] false,
    and [tables_used_by_n8n] and [functions_used_by_n8n] are 0.  It is also
    the report of [main] when no workflow file is found. *)
Theorem empty_workflows_mark_nothing now supabase_data :
  catalog_ok supabase_data = true →
  ∃ r tl fl,
    main_core now (VList []) supabase_data = Ok r ∧
    (dict_get supabase_data "tables" (VList []) ≫= py_iter) = Ok tl ∧
    (dict_get supabase_data "functions" (VList []) ≫= py_iter) = Ok fl ∧
    length (report_tables r) = length tl ∧
    length (report_functions r) = length fl ∧
    Forall (fun e => field "used_by_n8n" e = VBool false) (report_tables r) ∧
    Forall (fun e => field "used_by_n8n" e = VBool false) (report_functions r) ∧
    field "tables_used_by_n8n" (field "metadata" r) = VInt 0 ∧
    field "functions_used_by_n8n" (field "metadata" r) = VInt 0 ∧
    (∀ files,
       files "n8n_data.json" = None →
       files "n8n_workflows_export/n8n_data.json" = None →
       load_catalog files = supabase_data →
       main now files = Ok r).
Proof.
  intros Hok. unfold catalog_ok in Hok.
  destruct supabase_data as [| | | | |items]; try done.
  apply andb_true_iff in Hok as [Ht Hf]. unfold entries_ok in Ht, Hf.
  set (tv := default (VList []) (lookup_item "tables" items)) in *.
  set (fv := default (VList []) (lookup_item "functions" items)) in *.
  destruct (py_iter tv) as [tl|] eqn:Htl; [|done].
  destruct (py_iter fv) as [fl|] eqn:Hfl; [|done].
  destruct (map_each_total (enrich_table ∅) entry_ok tl (enrich_table_total ∅) Ht)
    as [et Het].
  destruct (map_each_total (enrich_function ∅) entry_ok fl (enrich_function_total ∅) Hf)
    as [ef Hef].
  assert (main_core now (VList []) (VDict items) =
          Ok (VDict
            [("metadata", VDict
                [("generated_at", VStr now);
                 ("workflow_count", VInt 0);
                 ("table_count", VInt (Z.of_nat (length et)));
                 ("function_count", VInt (Z.of_nat (length ef)));
                 ("tables_used_by_n8n", VInt (set_len ∅));
                 ("functions_used_by_n8n", VInt (set_len ∅))]);
             ("workflows", VList []);
             ("supabase", VDict [("tables", VList et); ("functions", VList ef)])]))
    as Hmain.
  { unfold main_core. rewrite extract_no_workflows. simpl. unfold main_report.
    rewrite sorted_set_sortable, dom_empty_L, sortable_empty. simpl.
    fold tv. rewrite Htl. simpl. rewrite Het. simpl.
    fold fv. rewrite Hfl. simpl. by rewrite Hef. }
  eexists _, tl, fl. split; [exact Hmain|].
  split; [simpl; by fold tv|]. split; [simpl; by fold fv|].
  unfold report_tables, report_functions. simpl.
  split; [by eapply map_each_length|]. split; [by eapply map_each_length|].
  split; [|split; [|split; [|split]]].
  - apply map_each_Forall2 in Het. clear -Het.
    induction Het as [|t e tl et Hte _ IH]; constructor; [|done].
    apply enrich_table_Ok in Hte as (b & Hb & _ & ->).
    by rewrite (set_in_empty _ _ Hb).
  - apply map_each_Forall2 in Hef. clear -Hef.
    induction Hef as [|f e fl ef Hfe _ IH]; constructor; [|done].
    apply enrich_function_Ok in Hfe as (b & Hb & _ & _ & ->).
    by rewrite (set_in_empty _ _ Hb).
  - done.
  - done.
  - intros files H1 H2 Hcat. unfold main.
    by rewrite (load_workflows_missing files H1 H2), Hcat.
Qed.


Lemma main_core_Ok now workflows supabase_data r :
  main_core now workflows supabase_data = Ok r →
  ∃ T F, extract_supabase_references_from_workflows workflows = Ok (T, F) ∧
         main_report now workflows supabase_data T F = Ok r.
Proof.
  unfold main_core. intros H. apply bind_Ok in H as ([T F] & Hex & H).
  by exists T, F.
Qed.

(** C7. For every catalog entry, the entry of the report tagged for it has
    [used_by_n8n] equal to the membership of the entry's bare [name] in the
    usage set, the schema taking no part: two tables, or two functions,
    with the same name receive the same [used_by_n8n], whatever their
    schemas. *)
Theorem usage_by_bare_name now workflows supabase_data r T F tl fl :
  main_core now workflows supabase_data = Ok r →
  extract_supabase_references_from_workflows workflows = Ok (T, F) →
  (dict_get supabase_data "tables" (VList []) ≫= py_iter) = Ok tl →
  (dict_get supabase_data "functions" (VList []) ≫= py_iter) = Ok fl →
  Forall2 (fun t e => ∃ b, set_in (field "name" t) T = Ok b ∧
                           field "name" e = field "name" t ∧
                           field "used_by_n8n" e = VBool b)
          tl (report_tables r) ∧
  Forall2 (fun f e => ∃ b, set_in (field "name" f) F = Ok b ∧
                           field "name" e = field "name" f ∧
                           field "used_by_n8n" e = VBool b)
          fl (report_functions r) ∧
  (∀ i j t1 t2 e1 e2,
     tl !! i = Some t1 → tl !! j = Some t2 →
     report_tables r !! i = Some e1 → report_tables r !! j = Some e2 →
     field "name" t1 = field "name" t2 →
     field "used_by_n8n" e1 = field "used_by_n8n" e2) ∧
  (∀ i j f1 f2 e1 e2,
     fl !! i = Some f1 → fl !! j = Some f2 →
     report_functions r !! i = Some e1 → report_functions r !! j = Some e2 →
     field "name" f1 = field "name" f2 →
     field "used_by_n8n" e1 = field "used_by_n8n" e2).
Proof.
  intros Hmain Hex Htl Hfl.
  apply main_core_Ok in Hmain as (T' & F' & Hex' & Hrep).
  rewrite Hex in Hex'. injection Hex' as <- <-.
  apply main_report_Ok in Hrep
    as (tv & tl' & et & fv & fl' & ef & n & _ & _ & Htv & Htl' & Het & Hfv & Hfl' & Hef & _ & ->).
  rewrite Htv in Htl. simpl in Htl. rewrite Htl' in Htl. injection Htl as <-.
  rewrite Hfv in Hfl. simpl in Hfl. rewrite Hfl' in Hfl. injection Hfl as <-.
  unfold report_tables, report_functions. simpl.
  apply map_each_Forall2 in Het, Hef.
  assert (Forall2 (fun t e => ∃ b, set_in (field "name" t) T = Ok b ∧
                                   field "name" e = field "name" t ∧
                                   field "used_by_n8n" e = VBool b) tl' et) as HT.
  { eapply Forall2_impl; [exact Het|]. intros t e. apply enrich_table_Ok. }
  assert (Forall2 (fun f e => ∃ b, set_in (field "name" f) F = Ok b ∧
                                   field "name" e = field "name" f ∧
                                   field "used_by_n8n" e = VBool b) fl' ef) as HF.
  { eapply Forall2_impl; [exact Hef|]. intros f e Hfe.
    apply enrich_function_Ok in Hfe as (b & Hb & Hname & _ & Hused). by exists b. }
  split; [done|]. split; [done|]. split.
  - intros i j t1 t2 e1 e2 Ht1 Ht2 He1 He2 Hname.
    destruct (Forall2_lookup_lr _ _ _ _ _ _ HT Ht1 He1) as (b1 & Hb1 & _ & ->).
    destruct (Forall2_lookup_lr _ _ _ _ _ _ HT Ht2 He2) as (b2 & Hb2 & _ & ->).
    rewrite Hname, Hb2 in Hb1. by injection Hb1 as ->.
  - intros i j f1 f2 e1 e2 Hf1 Hf2 He1 He2 Hname.
    destruct (Forall2_lookup_lr _ _ _ _ _ _ HF Hf1 He1) as (b1 & Hb1 & _ & ->).
    destruct (Forall2_lookup_lr _ _ _ _ _ _ HF Hf2 He2) as (b2 & Hb2 & _ & ->).
    rewrite Hname, Hb2 in Hb1. by injection Hb1 as ->.
Qed.


Lemma main_report_intro now workflows supabase_data T F tv tl et fv fl ef n :
  sortable (dom T) = true → sortable (dom F) = true →
  dict_get supabase_data "tables" (VList []) = Ok tv → py_iter tv = Ok tl →
  map_each (enrich_table T) tl = Ok et →
  dict_get supabase_data "functions" (VList []) = Ok fv → py_iter fv = Ok fl →
  map_each (enrich_function F) fl = Ok ef →
  py_len workflows = Ok n →
  main_report now workflows supabase_data T F =
  Ok (VDict
        [("metadata", VDict
            [("generated_at", VStr now);
             ("workflow_count", VInt n);
             ("table_count", VInt (Z.of_nat (length et)));
             ("function_count", VInt (Z.of_nat (length ef)));
             ("tables_used_by_n8n", VInt (set_len T));
             ("functions_used_by_n8n", VInt (set_len F))]);
         ("workflows", workflows);
         ("supabase", VDict [("tables", VList et); ("functions", VList ef)])]).
Proof.
  intros HsT HsF Htv Htl Het Hfv Hfl Hef Hn. unfold main_report.
  rewrite (sorted_set_sortable T), HsT. simpl.
  rewrite (sorted_set_sortable F), HsF. simpl.
  rewrite Htv. simpl. rewrite Htl. simpl. rewrite Het. simpl.
  rewrite Hfv. simpl. rewrite Hfl. simpl. rewrite Hef. simpl.
  by rewrite Hn.
Qed.

Lemma extract_Permutation ws ws' T F :
  ws ≡ₚ ws' →
  extract_supabase_references_from_workflows (VList ws) = Ok (T, F) →
  ∃ T' F', extract_supabase_references_from_workflows (VList ws') = Ok (T', F') ∧
           dom T' = dom T ∧ dom F' = dom F.
Proof.
  unfold extract_supabase_references_from_workflows. simpl. intros Hp H.
  destruct (for_each_additive_Permutation extract_workflow additive_extract_workflow
              _ _ _ _ Hp H) as ([T' F'] & H' & HT & HF).
  by exists T', F'.
Qed.

(** The entries built from a list are in the order of the list, so an
    element keeps its entry wherever a rearrangement puts it. *)
Lemma map_each_rearranged {A B : Type} (f : A -> result B) xs xs' ys ys' i j x :
  map_each f xs = Ok ys → map_each f xs' = Ok ys' →
  xs !! i = Some x → xs' !! j = Some x → ys' !! j = ys !! i.
Proof.
  intros H H' Hi Hj.
  destruct (map_each_lookup _ _ _ _ _ H Hi) as (y & -> & Hy).
  destruct (map_each_lookup _ _ _ _ _ H' Hj) as (y' & -> & Hy').
  rewrite Hy in Hy'. by injection Hy' as <-.
Qed.

Lemma enriched_tables_named T tl et :
  map_each (enrich_table T) tl = Ok et →
  Forall2 (fun t e =>
             ∃ used, e = VDict [("name", field "name" t);
                                ("schema", field_or "schema" (VStr "public") t);
                                ("used_by_n8n", VBool used)])
          tl et.
Proof.
  intros H%map_each_Forall2. eapply Forall2_impl; [exact H|]. simpl.
  intros t e He. unfold enrich_table in He. destruct t; simpl in He; try done.
  apply bind_Ok in He as (used & _ & He). injection He as <-. by exists used.
Qed.

Lemma enriched_functions_named F fl ef :
  map_each (enrich_function F) fl = Ok ef →
  Forall2 (fun f e =>
             ∃ used, e = VDict [("name", field "name" f);
                                ("schema", field_or "schema" (VStr "public") f);
                                ("tables_used", field_or "tables_used" (VList []) f);
                                ("used_by_n8n", VBool used)])
          fl ef.
Proof.
  intros H%map_each_Forall2. eapply Forall2_impl; [exact H|]. simpl.
  intros f e He. unfold enrich_function in He. destruct f; simpl in He; try done.
  apply bind_Ok in He as (used & _ & He). injection He as <-. by exists used.
Qed.

(** C4, as amended. Permuting the workflows and, in the catalog, the tables
    and the functions leaves the metadata of the report unchanged; the
    [workflows] field is the input collection in its input order; the
    tables and the functions of the report follow the order of the catalog:
    the entry at a position is the entry of the catalog element at that
    position, with its name and schema, so the lists of the report are
    rearranged exactly as the catalog is, an element at position [i] of one
    catalog and [j] of the other having the same entry at [i] in one report
    and at [j] in the other; and when the catalog order is kept, the report
    changes in its [workflows] field only. *)
Theorem report_order_invariance now ws ws' cat cat' tl tl' fl fl' r :
  ws ≡ₚ ws' → tl ≡ₚ tl' → fl ≡ₚ fl' →
  dict_get cat "tables" (VList []) = Ok (VList tl) →
  dict_get cat "functions" (VList []) = Ok (VList fl) →
  dict_get cat' "tables" (VList []) = Ok (VList tl') →
  dict_get cat' "functions" (VList []) = Ok (VList fl') →
  main_core now (VList ws) cat = Ok r →
  ∃ r', main_core now (VList ws') cat' = Ok r' ∧
        field "metadata" r' = field "metadata" r ∧
        field "workflows" r = VList ws ∧
        field "workflows" r' = VList ws' ∧
        report_tables r ≡ₚ report_tables r' ∧
        report_functions r ≡ₚ report_functions r' ∧
        Forall2 (fun t e =>
                   ∃ used, e = VDict [("name", field "name" t);
                                      ("schema", field_or "schema" (VStr "public") t);
                                      ("used_by_n8n", VBool used)])
                tl (report_tables r) ∧
        Forall2 (fun t e =>
                   ∃ used, e = VDict [("name", field "name" t);
                                      ("schema", field_or "schema" (VStr "public") t);
                                      ("used_by_n8n", VBool used)])
                tl' (report_tables r') ∧
        Forall2 (fun f e =>
                   ∃ used, e = VDict [("name", field "name" f);
                                      ("schema", field_or "schema" (VStr "public") f);
                                      ("tables_used", field_or "tables_used" (VList []) f);
                                      ("used_by_n8n", VBool used)])
                fl (report_functions r) ∧
        Forall2 (fun f e =>
                   ∃ used, e = VDict [("name", field "name" f);
                                      ("schema", field_or "schema" (VStr "public") f);
                                      ("tables_used", field_or "tables_used" (VList []) f);
                                      ("used_by_n8n", VBool used)])
                fl' (report_functions r') ∧
        (∀ i j t, tl !! i = Some t → tl' !! j = Some t →
                  report_tables r' !! j = report_tables r !! i) ∧
        (∀ i j f, fl !! i = Some f → fl' !! j = Some f →
                  report_functions r' !! j = report_functions r !! i) ∧
        (tl = tl' → fl = fl' → r' = with_field "workflows" (VList ws') r).
Proof.
  intros Hws Htl Hfl Hct Hcf Hct' Hcf' Hmain.
  apply main_core_Ok in Hmain as (T & F & Hex & Hrep).
  apply main_report_Ok in Hrep
    as (tv & tl0 & et & fv & fl0 & ef & n & HsT & HsF & Htv & Htl0 & Het & Hfv & Hfl0
        & Hef & Hn & ->).
  rewrite Hct in Htv. injection Htv as <-. simpl in Htl0. injection Htl0 as <-.
  rewrite Hcf in Hfv. injection Hfv as <-. simpl in Hfl0. injection Hfl0 as <-.
  simpl in Hn. injection Hn as <-.
  destruct (extract_Permutation _ _ _ _ Hws Hex) as (T' & F' & Hex' & HT & HF).
  destruct (map_each_Permutation _ _ _ _ Htl Het) as (et' & Het' & Hpet).
  destruct (map_each_Permutation _ _ _ _ Hfl Hef) as (ef' & Hef' & Hpef).
  assert (main_core now (VList ws') cat' =
          Ok (VDict
            [("metadata", VDict
                [("generated_at", VStr now);
                 ("workflow_count", VInt (Z.of_nat (length ws')));
                 ("table_count", VInt (Z.of_nat (length et')));
                 ("function_count", VInt (Z.of_nat (length ef')));
                 ("tables_used_by_n8n", VInt (set_len T));
                 ("functions_used_by_n8n", VInt (set_len F))]);
             ("workflows", VList ws');
             ("supabase", VDict [("tables", VList et'); ("functions", VList ef')])]))
    as Hmain'.
  { unfold main_core. rewrite Hex'. simpl.
    rewrite (main_report_dom now (VList ws') cat' T' T F' F HT HF).
    by apply (main_report_intro now (VList ws') cat' T F (VList tl') tl' et'
                (VList fl') fl' ef'). }
  eexists. split; [exact Hmain'|].
  unfold report_tables, report_functions. simpl.
  split; [|split; [done|split; [done|split; [done|split; [done|]]]]].
  { by rewrite (Permutation_length Hws), (Permutation_length Hpet),
      (Permutation_length Hpef). }
  split; [by eapply enriched_tables_named|].
  split; [by eapply enriched_tables_named|].
  split; [by eapply enriched_functions_named|].
  split; [by eapply enriched_functions_named|].
  split; [|split].
  - intros i j t Hi Hj. by eapply (map_each_rearranged (enrich_table T) tl tl').
  - intros i j f Hi Hj. by eapply (map_each_rearranged (enrich_function F) fl fl').
  - intros <- <-. rewrite Het in Het'. injection Het' as <-.
    rewrite Hef in Hef'. injection Hef' as <-.
    by rewrite (Permutation_length Hws).
Qed.


(** ** Sorting a set of names *)

Lemma leb_le s1 s2 : String.leb s1 s2 = true ↔ String.le s1 s2.
Proof. unfold String.le. by rewrite Is_true_true. Qed.

#[local] Instance item_le_total : Total item_le.
Proof.
  intros [a va] [b vb]. unfold item_le, key_le. simpl.
  destruct a as [|x|x], b as [|y|y]; simpl; auto.
  - destruct (Z.leb_spec x y); [by left|right]. apply Z.leb_le. lia.
  - apply String.leb_total.
Qed.

#[local] Instance item_le_trans : Transitive item_le.
Proof.
  intros [a va] [b vb] [c vc]. unfold item_le, key_le. simpl.
  destruct a as [|x|x], b as [|y|y], c as [|z|z]; simpl; try done.
  - rewrite !Z.leb_le. lia.
  - rewrite !leb_le. apply transitivity.
Qed.

Lemma names_only_sortable s : names_only s → comparable (map_to_list s).*1 = true.
Proof.
  intros Hs. unfold comparable. apply orb_true_iff. right.
  apply forallb_forall. intros k Hk%list_elem_of_In.
  apply list_elem_of_fmap in Hk as ([k' v] & -> & Hkv%elem_of_map_to_list).
  by destruct (Hs _ _ Hkv) as (t & -> & _).
Qed.

Lemma names_items_values (L : list (hkey * value)) :
  Forall (fun kv => ∃ t, kv = (KStr t, VStr t)) L →
  L.*2 = VStr <$> (key_text <$> L.*1).
Proof.
  induction 1 as [|[k v] L (t & [= -> ->]) _ IH]; [done|].
  rewrite !fmap_cons. simpl. by f_equal.
Qed.

Lemma names_items_sorted (L : list (hkey * value)) :
  Forall (fun kv => ∃ t, kv = (KStr t, VStr t)) L →
  NoDup L.*1 → StronglySorted item_le L →
  StronglySorted string_lt (key_text <$> L.*1).
Proof.
  intros Hnames Hnd Hsorted.
  induction Hsorted as [|[k v] L _ IH Hall]; simpl; [constructor|].
  apply Forall_cons in Hnames as [(t & [= -> ->]) Hnames].
  simpl in Hnd. apply NoDup_cons in Hnd as [Hnotin Hnd].
  constructor; [by apply IH|].
  rewrite !Forall_fmap. apply Forall_forall. intros [k' v'] Hin. simpl.
  rewrite Forall_forall in Hall, Hnames.
  destruct (Hnames _ Hin) as (t' & [= -> ->]). simpl.
  pose proof (Hall _ Hin) as Hle. unfold item_le, key_le in Hle. simpl in Hle.
  unfold string_lt, String.ltb. unfold String.leb in Hle.
  destruct (String.compare t t') eqn:Hc; try done.
  apply String.compare_eq_iff in Hc as ->.
  destruct Hnotin. apply list_elem_of_fmap. by exists (KStr t', VStr t').
Qed.

(** [sorted] of a set of names: the names in strictly increasing order. *)
Lemma sorted_set_names s :
  names_only s →
  ∃ ts, sorted_set s = Ok (VStr <$> ts) ∧
        StronglySorted string_lt ts ∧
        ∀ t, t ∈ ts ↔ KStr t ∈ dom s.
Proof.
  intros Hs. unfold sorted_set. rewrite (names_only_sortable s Hs).
  set (L := merge_sort item_le (map_to_list s)).
  assert (L ≡ₚ map_to_list s) as Hperm by apply merge_sort_Permutation.
  assert (Forall (fun kv => ∃ t, kv = (KStr t, VStr t)) L) as Hnames.
  { apply Forall_forall. intros [k v] Hin. rewrite Hperm in Hin.
    apply elem_of_map_to_list in Hin. destruct (Hs _ _ Hin) as (t & -> & -> & _).
    by exists t. }
  exists (key_text <$> L.*1). split; [|split].
  - f_equal. by apply names_items_values.
  - apply names_items_sorted; [done| |by apply StronglySorted_merge_sort; apply _].
    rewrite Hperm. apply NoDup_fst_map_to_list.
  - intros t. rewrite elem_of_dom. split.
    + intros (k & -> & Hk)%list_elem_of_fmap.
      apply list_elem_of_fmap in Hk as ([k' v] & -> & Hin). simpl.
      pose proof Hin as Hin'. rewrite Hperm in Hin'.
      apply elem_of_map_to_list in Hin'.
      destruct (Hs _ _ Hin') as (t & -> & -> & _). by exists (VStr t).
    + intros [v Hv]. apply list_elem_of_fmap. exists (KStr t). split; [done|].
      apply list_elem_of_fmap. exists (KStr t, v). split; [done|].
      rewrite Hperm. by apply elem_of_map_to_list.
Qed.


(** ** The map the first loop of the resolver builds *)

Lemma names_only_empty : names_only ∅.
Proof. intros k v H. by rewrite lookup_empty in H. Qed.

Lemma add_name_lookup s tv k v :
  names_only s →
  (add_name s tv !! k = Some v ↔
   s !! k = Some v ∨ ∃ t, tv = VStr t ∧ t ≠ "" ∧ k = KStr t ∧ v = VStr t).
Proof.
  intros Hs. unfold add_name. destruct tv as [| | |t| |];
    try (split; [by left|by intros [?|(?&?&_)]]).
  destruct (String.eqb_spec t "") as [->|Hne].
  { split; [by left|]. by intros [?|(t & [= <-] & ? & _)]. }
  destruct (s !! KStr t) as [v0|] eqn:Hk.
  - split; [by left|]. intros [?|(t' & [= <-] & _ & -> & ->)]; [done|].
    destruct (Hs _ _ Hk) as (t' & [= <-] & -> & _). done.
  - rewrite lookup_insert. case_decide as Hkk.
    + subst k. rewrite Hk. split.
      * intros [= <-]. right. by exists t.
      * by intros [?|(t' & [= <-] & _ & _ & ->)].
    + split; [by left|]. intros [?|(t' & [= <-] & _ & -> & _)]; done.
Qed.

Lemma add_name_names s tv : names_only s → names_only (add_name s tv).
Proof.
  intros Hs k v [H|(t & _ & Hne & -> & ->)]%add_name_lookup; [by apply Hs| |done].
  by exists t.
Qed.

Lemma dep_record_key items :
  dep_record_ok (VDict items) = true →
  ∃ key, dep_key (VDict items) = Ok key ∧
         name_or_null (default VNone (lookup_item "referenced_table" items)) = true.
Proof.
  unfold dep_record_ok, dep_key. simpl.
  intros [[Hs Hn]%andb_true_iff Ht]%andb_true_iff.
  assert (∃ ks, hash_key (default (VStr "public")
                            (lookup_item "function_schema" items)) = Ok ks) as [ks Hks].
  { destruct (lookup_item "function_schema" items) as [[]|]; simpl in *;
      try done; by eexists. }
  assert (∃ kn, hash_key (default VNone (lookup_item "function_name" items)) = Ok kn)
    as [kn Hkn].
  { destruct (lookup_item "function_name" items) as [[]|]; simpl in *;
      try done; by eexists. }
  exists (ks, kn). unfold hash_pair. by rewrite Hks, Hkn.
Qed.

Lemma dep_step_ok m d :
  dep_record_ok d = true →
  ∃ key, dep_key d = Ok key ∧
         dep_step m d =
         Ok (<[key := add_name (default ∅ (m !! key)) (field "referenced_table" d)]> m).
Proof.
  intros Hok. destruct d as [| | | | |items]; try done.
  destruct (dep_record_key items Hok) as (key & Hkey & Ht).
  exists key. split; [done|]. unfold dep_step. rewrite Hkey. simpl.
  destruct (default VNone (lookup_item "referenced_table" items)) as [| | |t| |];
    try done; simpl.
  - destruct (m !! key) as [s|] eqn:Hm; simpl; [by rewrite insert_id|done].
  - unfold add_name. destruct (String.eqb_spec t "") as [->|Hne]; simpl.
    + destruct (m !! key) as [s|] eqn:Hm; simpl; [by rewrite insert_id|done].
    + unfold set_add. simpl.
      destruct (m !! key) as [s|] eqn:Hm; simpl.
      * by rewrite Hm.
      * by rewrite lookup_insert_eq, lookup_empty, insert_insert_eq.
Qed.

Lemma dep_step_entries m0 key_d tv key k v :
  names_map m0 →
  (∃ s1, <[key_d := add_name (default ∅ (m0 !! key_d)) tv]> m0 !! key = Some s1 ∧
         s1 !! k = Some v) ↔
  (∃ s0, m0 !! key = Some s0 ∧ s0 !! k = Some v) ∨
  (key = key_d ∧ ∃ t, tv = VStr t ∧ t ≠ "" ∧ k = KStr t ∧ v = VStr t).
Proof.
  intros Hm0. rewrite lookup_insert. case_decide as Hkey.
  - subst key_d.
    assert (names_only (default ∅ (m0 !! key))) as Hs0.
    { destruct (m0 !! key) as [s0|] eqn:Hm; simpl;
        [by eapply Hm0|apply names_only_empty]. }
    split.
    + intros (s1 & [= <-] & [H|H]%add_name_lookup); [|by right|done].
      left. destruct (m0 !! key) as [s0|]; simpl in H; [by exists s0|].
      by rewrite lookup_empty in H.
    + intros H. eexists. split; [done|]. apply add_name_lookup; [done|].
      destruct H as [(s0 & -> & H)|[_ H]]; [by left|by right].
  - split; [by left|]. by intros [?|[-> _]].
Qed.

Lemma dep_fold_spec ds : ∀ m0,
  names_map m0 → forallb dep_record_ok ds = true →
  ∃ m, for_each dep_step ds m0 = Ok m ∧ names_map m ∧
       (∀ key, is_Some (m !! key) ↔
               is_Some (m0 !! key) ∨ ∃ d, d ∈ ds ∧ dep_key d = Ok key) ∧
       (∀ key k v,
          (∃ s, m !! key = Some s ∧ s !! k = Some v) ↔
          (∃ s0, m0 !! key = Some s0 ∧ s0 !! k = Some v) ∨
          ∃ d t, d ∈ ds ∧ dep_key d = Ok key ∧
                 field "referenced_table" d = VStr t ∧ t ≠ "" ∧
                 k = KStr t ∧ v = VStr t).
Proof.
  induction ds as [|d ds IH]; intros m0 Hm0 Hok; simpl.
  - exists m0. split; [done|]. split; [done|]. split.
    + intros key. split; [by left|]. by intros [?|(d & ?%elem_of_nil & _)].
    + intros key k v. split; [by left|].
      by intros [?|(d & t & ?%elem_of_nil & _)].
  - simpl in Hok. apply andb_true_iff in Hok as [Hd Hds].
    destruct (dep_step_ok m0 d Hd) as (key_d & Hkey_d & ->). simpl.
    set (tv := field "referenced_table" d).
    set (m1 := <[key_d := add_name (default ∅ (m0 !! key_d)) tv]> m0).
    assert (names_map m1) as Hm1.
    { intros key s. unfold m1. rewrite lookup_insert. case_decide.
      - intros [= <-]. apply add_name_names.
        destruct (m0 !! key_d) as [s0|] eqn:Hm; simpl;
          [by eapply Hm0|apply names_only_empty].
      - apply Hm0. }
    destruct (IH m1 Hm1 Hds) as (m & -> & Hm & Hdom & Hent).
    exists m. split; [done|]. split; [done|]. split.
    + intros key. rewrite Hdom. unfold m1. rewrite lookup_insert. split.
      * intros [H|(d' & Hd' & Hk)].
        -- case_decide as Hkey; [|by left]. subst key_d. right. exists d.
           split; [by left|done].
        -- right. exists d'. split; [by right|done].
      * intros [H|(d' & [->|Hd']%elem_of_cons & Hk)].
        -- left. by case_decide.
        -- left. rewrite Hkey_d in Hk. injection Hk as ->. by case_decide.
        -- right. by exists d'.
    + intros key k v. rewrite Hent. unfold m1. rewrite (dep_step_entries m0); [|done].
      split.
      * intros [[H|(-> & t & Htv & Hne & -> & ->)]|(d' & t & Hd' & H)].
        -- by left.
        -- right. exists d, t. split; [by left|done].
        -- right. exists d', t. split; [by right|done].
      * intros [H|(d' & t & [->|Hd']%elem_of_cons & Hk & Htv & Hne & -> & ->)].
        -- by left; left.
        -- left; right. rewrite Hkey_d in Hk. injection Hk as ->.
           split; [done|]. by exists t.
        -- right. by exists d', t.
Qed.


(** ** The entries the second loop of the resolver appends *)

Lemma name_hashable v : name_or_null v = true → ∃ k, hash_key v = Ok k.
Proof. destruct v; simpl; try done; by eexists. Qed.

Lemma name_or_null_or a b :
  name_or_null a = true → name_or_null b = true → name_or_null (py_or a b) = true.
Proof. intros Ha Hb. unfold py_or. by destruct (truthy a). Qed.

Lemma fn_entry_spec (m : gmap (hkey * hkey) pyset) fn :
  names_map m → fn_record_ok fn = true →
  ∃ schema name key ts,
    fn_schema fn = Ok schema ∧ fn_name fn = Ok name ∧
    hash_pair schema name = Ok key ∧
    fn_entry m fn =
      Ok (VDict [("schema", schema); ("name", name);
                 ("tables_used", VList (VStr <$> ts))]) ∧
    StronglySorted string_lt ts ∧
    ∀ t, t ∈ ts ↔ ∃ s, m !! key = Some s ∧ s !! KStr t = Some (VStr t).
Proof.
  intros Hm Hok. destruct fn as [| | | | |items]; try done.
  unfold fn_record_ok in Hok.
  apply andb_true_iff in Hok as [[[H1 H2]%andb_true_iff H3]%andb_true_iff H4].
  set (schema := py_or (py_or (default VNone (lookup_item "schema_name" items))
                              (default VNone (lookup_item "function_schema" items)))
                       (VStr "public")).
  set (name := py_or (default VNone (lookup_item "function_name" items))
                     (default VNone (lookup_item "name" items))).
  destruct (name_hashable schema) as [ks Hks].
  { apply name_or_null_or; [by apply name_or_null_or|done]. }
  destruct (name_hashable name) as [kn Hkn]; [by apply name_or_null_or|].
  assert (hash_pair schema name = Ok (ks, kn)) as Hkey.
  { unfold hash_pair. by rewrite Hks, Hkn. }
  unfold fn_entry, fn_schema, fn_name. simpl. fold schema name. rewrite Hkey. simpl.
  destruct (m !! (ks, kn)) as [s|] eqn:Hs.
  - destruct (sorted_set_names s (Hm _ _ Hs)) as (ts & Hsorted & Hstrict & Hmem).
    exists schema, name, (ks, kn), ts. rewrite Hsorted. simpl.
    split; [done|]. split; [done|]. split; [done|]. split; [done|].
    split; [done|]. intros t. rewrite Hmem, elem_of_dom. split.
    + intros [v Hv]. exists s. split; [done|].
      by destruct (Hm _ _ Hs _ _ Hv) as (t' & [= <-] & -> & _).
    + intros (s' & Hs' & Hv). rewrite Hs in Hs'. injection Hs' as <-.
      by exists (VStr t).
  - exists schema, name, (ks, kn), []. simpl.
    split; [done|]. split; [done|]. split; [done|]. split; [done|].
    split; [constructor|]. intros t. split; [by intros ?%elem_of_nil|].
    intros (s & Hs' & _). by rewrite Hs in Hs'.
Qed.

Lemma names_map_empty : names_map ∅.
Proof. intros key s H. by rewrite lookup_empty in H. Qed.


(** ** The claim about the resolver *)








(** * Further properties of merge_data.py *)

(** ** The words the extractor looks for *)

Lemma prefix_append_l w x s :
  String.prefix (w +:+ x) s = true → String.prefix w s = true.
Proof.
  revert s. induction w as [|a w IH]; intros s; [by destruct s|].
  rewrite append_cons. destruct s as [|b s]; simpl; [done|].
  destruct (ascii_dec a b); [apply IH|done].
Qed.

Lemma contains_nil w : contains w "" = String.prefix w "".
Proof. apply orb_false_r. Qed.

Lemma contains_cons w c s :
  contains w (String c s) = String.prefix w (String c s) || contains w s.
Proof. reflexivity. Qed.

Lemma contains_append_l w x s : contains (w +:+ x) s = true → contains w s = true.
Proof.
  induction s as [|c s IH].
  - rewrite !contains_nil. apply prefix_append_l.
  - rewrite !contains_cons. intros [H|H]%orb_true_iff; apply orb_true_iff.
    + left. by eapply prefix_append_l.
    + right. by apply IH.
Qed.

(** X2. The test of the HTTP branch, ["httprequest" in node_type or "http"
    in node_type], is the test ["http" in node_type]: every type whose
    lowercase contains [http] enters the branch. *)
Theorem http_test_is_http s :
  contains "httprequest" s || contains "http" s = contains "http" s.
Proof.
  destruct (contains "http" s) eqn:Hh; [apply orb_true_r|].
  rewrite orb_false_r. destruct (contains "httprequest" s) eqn:Hr; [|done].
  apply (contains_append_l "http" "request") in Hr. congruence.
Qed.

(** ** Collections without a Supabase or HTTP node *)

Lemma node_type_params node nt :
  node_type_of node = Ok nt → ∃ params, node_params_of node = Ok params.
Proof.
  unfold node_type_of, node_params_of. destruct node; simpl; try done.
  by eexists.
Qed.

Lemma extract_node_skipped st node :
  skipped_node node = true → extract_node st node = Ok st.
Proof.
  unfold skipped_node. destruct (node_type_of node) as [nt|] eqn:Hnt; [|done].
  intros [Hs Hh]%andb_true_iff. apply negb_true_iff in Hs, Hh.
  destruct (node_type_params node nt Hnt) as [params Hp].
  unfold extract_node. rewrite Hnt, Hp. simpl. rewrite Hs. simpl.
  destruct (contains "httprequest" nt) eqn:Hr; [|by rewrite Hh].
  apply (contains_append_l "http" "request") in Hr. congruence.
Qed.

Lemma for_each_unchanged {S A : Type} (body : S -> A -> result S) xs st :
  (∀ x, x ∈ xs → body st x = Ok st) → for_each body xs st = Ok st.
Proof.
  induction xs as [|x xs IH]; intros Hall; simpl; [done|].
  rewrite (Hall x) by (by left). simpl. apply IH. intros y Hy. apply Hall. by right.
Qed.

Lemma forallb_elem_of {A : Type} (f : A -> bool) xs x :
  forallb f xs = true → x ∈ xs → f x = true.
Proof.
  intros Hall Hx. rewrite forallb_forall in Hall. by apply Hall, list_elem_of_In.
Qed.

(** X1. When every workflow is readable and every node has a type that
    names neither Supabase nor HTTP, the extractor returns two empty
    sets. *)
Theorem no_reference_without_nodes ws :
  forallb skipped_workflow ws = true →
  extract_supabase_references_from_workflows (VList ws) = Ok (∅, ∅).
Proof.
  intros Hall. unfold extract_supabase_references_from_workflows. simpl.
  apply for_each_unchanged. intros w Hw.
  pose proof (forallb_elem_of _ _ _ Hall Hw) as Hskip.
  unfold skipped_workflow, workflow_nodes in Hskip. unfold extract_workflow.
  destruct (dict_get w "nodes" (VList [])) as [ns|]; simpl in *; [|done].
  destruct (py_iter ns) as [nodes|]; simpl in *; [|done].
  apply for_each_unchanged. intros node Hnode.
  apply extract_node_skipped. by eapply forallb_elem_of.
Qed.

(** ** What the usage sets never hold *)

Lemma search_rpc_nonempty s g : search_rpc s = Some g → g ≠ "".
Proof.
  intros (pre & t & _ & (post & _ & Hg & _) & _)%search_rpc_leftmost.
  by destruct g.
Qed.

Lemma node_functions_guarded node A B k :
  extract_node (∅, ∅) node = Ok (A, B) → k ∈ dom B →
  ∃ v, hash_key v = Ok k ∧ truthy v = true.
Proof.
  intros H Hk.
  apply extract_node_Ok in H as (nt & params & T1 & F1 & _ & _ & Hs & Hh).
  assert (∀ k, k ∈ dom F1 → ∃ v, hash_key v = Ok k ∧ truthy v = true) as HF1.
  { intros k' Hk'. destruct (contains "supabase" nt).
    - apply supabase_branch_Ok in Hs as (tn & op & _ & _ & _ & Hfn).
      destruct (eq_str (get_value op) "call").
      + destruct Hfn as (fname & arg & _ & _ & Hadd).
        destruct (truthy (get_value arg)) eqn:Htr.
        * apply set_add_Ok in Hadd as (k0 & Hk0 & Hdom).
          rewrite Hdom, dom_empty_L, union_empty_l_L, elem_of_singleton in Hk'.
          subst k0. by exists (get_value arg).
        * subst F1. by rewrite dom_empty_L in Hk'.
      + subst F1. by rewrite dom_empty_L in Hk'.
    - injection Hs as _ ->. by rewrite dom_empty_L in Hk'. }
  destruct (contains "httprequest" nt || contains "http" nt).
  - apply http_branch_Ok in Hh as (_ & u & m & _ & Hm & Hadd).
    destruct m as [g|]; [|subst B; by apply HF1].
    apply set_add_Ok in Hadd as (k0 & Hk0 & Hdom). simpl in Hk0. injection Hk0 as <-.
    rewrite Hdom in Hk. apply elem_of_union in Hk as [Hk|Hk]; [by apply HF1|].
    apply elem_of_singleton in Hk as ->.
    destruct (get_value u) as [| | |s| |]; simpl in Hm; try done.
    injection Hm as Hm. apply search_rpc_nonempty in Hm.
    exists (VStr g). split; [done|]. simpl. by apply negb_true_iff, String.eqb_neq.
  - injection Hh as _ ->. by apply HF1.
Qed.

Lemma truthy_key v k :
  hash_key v = Ok k → truthy v = true → k ≠ KNone ∧ k ≠ KNum 0 ∧ k ≠ KStr "".
Proof.
  destruct v as [|b|n|s| |]; simpl; try done; intros [= <-] Htr.
  - by destruct b.
  - apply negb_true_iff, Z.eqb_neq in Htr. repeat split; congruence.
  - apply negb_true_iff, String.eqb_neq in Htr. repeat split; congruence.
Qed.

(** X3. Neither usage set ever holds a falsy element: no [None], no [0] or
    [False], no empty string. *)
Theorem usage_sets_hold_no_falsy workflows T F k :
  extract_supabase_references_from_workflows workflows = Ok (T, F) →
  k ∈ dom T ∨ k ∈ dom F →
  k ≠ KNone ∧ k ≠ KNum 0 ∧ k ≠ KStr "".
Proof.
  intros Hex Hk. destruct (extract_members _ _ _ Hex) as (_ & HT & HF).
  destruct Hk as [Hk|Hk].
  - destruct (HT k Hk) as (node & A & B & _ & Hn & HkA).
    destruct (node_tables_guarded _ _ _ _ Hn HkA) as (v & Hv & Htr & _).
    by eapply truthy_key.
  - destruct (HF k Hk) as (node & A & B & _ & Hn & HkB).
    destruct (node_functions_guarded _ _ _ _ Hn HkB) as (v & Hv & Htr).
    by eapply truthy_key.
Qed.

(** ** Collections put together *)

(** X4. Extraction from two collections put one after the other gives the
    unions of the sets extracted from each. *)
Theorem extract_concatenation ws1 ws2 T1 F1 T2 F2 :
  extract_supabase_references_from_workflows (VList ws1) = Ok (T1, F1) →
  extract_supabase_references_from_workflows (VList ws2) = Ok (T2, F2) →
  ∃ T F,
    extract_supabase_references_from_workflows (VList (ws1 ++ ws2)) = Ok (T, F) ∧
    dom T = dom T1 ∪ dom T2 ∧ dom F = dom F1 ∪ dom F2.
Proof.
  unfold extract_supabase_references_from_workflows. simpl. intros H1 H2.
  rewrite for_each_app, H1. simpl.
  pose proof (additive_for_each extract_workflow ws2 additive_extract_workflow T1 F1)
    as Hadd.
  rewrite H2 in Hadd. destruct Hadd as (T & F & -> & HT & HF). by exists T, F.
Qed.

(** ** What [get_value] returns *)

(** X6. [get_value] returns the empty string or a truthy value, never
    [None], [0], [False] or an empty container; and for anything but a
    dict it returns a string. *)
Theorem get_value_empty_or_truthy v :
  (get_value v = VStr "" ∨ truthy (get_value v) = true) ∧
  (match v with VDict _ => True | _ => ∃ s, get_value v = VStr s end).
Proof.
  assert (∀ s, VStr s = VStr "" ∨ truthy (VStr s) = true) as Hstr.
  { intros s. simpl. destruct (String.eqb_spec s "") as [->|]; [by left|by right]. }
  split.
  - destruct v as [|b|n|s|xs|items]; simpl; [by left|apply Hstr..|].
    unfold py_or.
    destruct (truthy (default VNone (lookup_item "cachedResultName" items))) eqn:Hc.
    + rewrite Hc. by right.
    + destruct (truthy (default VNone (lookup_item "value" items))) eqn:Hr;
        [by right|by left].
  - destruct v; simpl; try done; by eexists.
Qed.

(** ** The extractor on well-formed exports *)

Lemma scalar_hashable v : scalar v = true → ∃ k, hash_key v = Ok k.
Proof. destruct v; simpl; try done; by eexists. Qed.

Lemma hashable_param_key v :
  hashable_param v = true → ∃ k, hash_key (get_value v) = Ok k.
Proof.
  destruct v as [|b|n|s|xs|items]; simpl; try (by eexists).
  intros [Hc Hr]%andb_true_iff. apply scalar_hashable. unfold py_or.
  destruct (truthy (default VNone (lookup_item "cachedResultName" items))) eqn:Hc'.
  - by rewrite Hc'.
  - by destruct (truthy (default VNone (lookup_item "value" items))).
Qed.

Lemma text_param_str v : text_param v = true → ∃ s, get_value v = VStr s.
Proof.
  destruct v as [|b|n|s|xs|items]; simpl; try (by eexists).
  intros [Hc Hr]%andb_true_iff. unfold py_or.
  destruct (default VNone (lookup_item "cachedResultName" items)) as [| | |c| |];
    try done; simpl.
  - destruct (default VNone (lookup_item "value" items)) as [| | |r| |];
      try done; simpl; [by eexists|].
    destruct (negb (String.eqb r "")); by eexists.
  - destruct (negb (String.eqb c "")) eqn:Hne; simpl; [rewrite Hne; by eexists|].
    destruct (default VNone (lookup_item "value" items)) as [| | |r| |];
      try done; simpl; [by eexists|].
    destruct (negb (String.eqb r "")); by eexists.
Qed.

Lemma set_add_hashable (s : pyset) v :
  (∃ k, hash_key v = Ok k) → ∃ s', set_add s v = Ok s'.
Proof. intros [k Hk]. destruct (set_add_total s v k Hk) as (s' & Hs' & _). by exists s'. Qed.

Lemma supabase_branch_total params st :
  params_ok params = true → ∃ st', supabase_branch params st = Ok st'.
Proof.
  destruct params as [| | | | |items]; try done. destruct st as [T F].
  unfold params_ok.
  intros [[[[Htn Hop]%andb_true_iff Hfn]%andb_true_iff Hrpc]%andb_true_iff _]%andb_true_iff.
  unfold supabase_branch. simpl.
  set (tn := default VNone (lookup_item "tableName" items)) in *.
  set (op := default VNone (lookup_item "operation" items)) in *.
  set (fname := default VNone (lookup_item "functionName" items)) in *.
  set (rpc := default VNone (lookup_item "rpc" items)) in *.
  assert (∃ T', (if truthy (get_value tn) && negb (eq_str (get_value tn) "Supabase")
                 then set_add T (get_value tn) else Ok T) = Ok T') as [T' ->].
  { destruct (truthy (get_value tn) && negb (eq_str (get_value tn) "Supabase"));
      [|by eexists]. by apply set_add_hashable, hashable_param_key. }
  simpl. destruct (eq_str (get_value op) "call"); [|by eexists].
  assert (∃ arg, (if truthy fname then Ok fname else Ok rpc) = Ok arg ∧
                 hashable_param arg = true) as (arg & -> & Harg).
  { destruct (truthy fname); by eexists. }
  simpl. destruct (truthy (get_value arg)); [|by eexists].
  destruct (set_add_hashable F (get_value arg) (hashable_param_key _ Harg)) as [F' ->].
  by eexists.
Qed.

Lemma http_branch_total params st :
  params_ok params = true → ∃ st', http_branch params st = Ok st'.
Proof.
  destruct params as [| | | | |items]; try done. destruct st as [T F].
  unfold params_ok. intros [_ Hurl]%andb_true_iff.
  unfold http_branch. simpl.
  destruct (text_param_str _ Hurl) as [s ->]. simpl.
  destruct (search_rpc s) as [g|]; by eexists.
Qed.

Lemma extract_node_total st node :
  node_ok node = true → ∃ st', extract_node st node = Ok st'.
Proof.
  destruct node as [| | | | |items]; try done. unfold node_ok.
  intros [Hty Hparams]%andb_true_iff.
  unfold extract_node, node_type_of, node_params_of. simpl.
  assert (∃ nt, str_lower (py_or (default VNone (lookup_item "type" items)) (VStr ""))
                = Ok nt) as [nt ->].
  { destruct (default VNone (lookup_item "type" items)) as [| | |s| |];
      try done; unfold py_or; simpl; [by eexists|].
    destruct (negb (String.eqb s "")); by eexists. }
  simpl.
  set (params := default (VDict []) (lookup_item "parameters" items)) in *.
  assert (∃ st1, (if contains "supabase" nt then supabase_branch params st else Ok st)
                 = Ok st1) as [st1 ->].
  { destruct (contains "supabase" nt); [by apply supabase_branch_total|by eexists]. }
  simpl. destruct (contains "httprequest" nt || contains "http" nt);
    [by apply http_branch_total|by eexists].
Qed.

Lemma for_each_total {S A : Type} (body : S -> A -> result S) xs st :
  (∀ st x, x ∈ xs → ∃ st', body st x = Ok st') → ∃ st', for_each body xs st = Ok st'.
Proof.
  revert st. induction xs as [|x xs IH]; intros st Hall; simpl; [by eexists|].
  destruct (Hall st x) as [st1 ->]; [by left|]. simpl.
  apply IH. intros st2 y Hy. apply Hall. by right.
Qed.

Lemma extract_total ws :
  forallb workflow_ok ws = true →
  ∃ T F, extract_supabase_references_from_workflows (VList ws) = Ok (T, F).
Proof.
  intros Hall. unfold extract_supabase_references_from_workflows. simpl.
  destruct (for_each_total extract_workflow ws (∅, ∅)) as [[T F] H]; [|by exists T, F].
  intros st w Hw. pose proof (forallb_elem_of _ _ _ Hall Hw) as Hok.
  destruct w as [| | | | |items]; try done. unfold workflow_ok in Hok.
  unfold extract_workflow. simpl.
  destruct (default (VList []) (lookup_item "nodes" items)) as [| | | |nodes|];
    try done. simpl.
  apply for_each_total. intros st1 node Hnode. apply extract_node_total.
  by eapply forallb_elem_of.
Qed.

(** X5. On a well-formed export (workflows that are objects with a list of
    nodes, nodes that are objects with a string or null type, parameters
    that are strings, scalars or resource locators of scalars, a URL that
    is a string or a locator of strings) the extractor raises nothing. *)
Theorem extractor_total_on_exports ws :
  forallb workflow_ok ws = true →
  ∃ T F, extract_supabase_references_from_workflows (VList ws) = Ok (T, F).
Proof. apply extract_total. Qed.

(** ** The counts of the report *)





(** ** The two shapes of the workflow file *)

(** X9. A workflow file holding a mapping with the list under [workflows]
    and one holding the bare list give the same run, provided the list is
    not empty (an empty bare list counts as a missing file). *)
Theorem workflow_file_shapes now files files' items ws :
  ws ≠ [] →
  files "n8n_data.json" = Some (VDict items) →
  lookup_item "workflows" items = Some (VList ws) →
  files' "n8n_data.json" = Some (VList ws) →
  (∀ path, path ≠ "n8n_data.json" → files' path = files path) →
  main now files' = main now files.
Proof.
  intros Hne Hfile Hws Hfile' Hsame. unfold main.
  assert (load_catalog files' = load_catalog files) as ->.
  { unfold load_catalog, load_json. by rewrite !Hsame. }
  assert (load_workflows files' = VList ws) as ->.
  { unfold load_workflows, load_json. rewrite Hfile'. simpl. by destruct ws. }
  assert (load_workflows files = VList ws) as ->; [|done].
  unfold load_workflows, load_json. rewrite Hfile.
  destruct items as [|item items]; [done|]. cbn -[lookup_item]. by rewrite Hws.
Qed.

(** ** The usage sets and the nodes visited *)

(** X7. The usage sets depend on the collection only through the nodes it
    holds: two collections on which the extractor returns and that hold the
    same nodes, in whatever order and under whatever workflows, give the
    same tables and the same functions. *)
Theorem usage_sets_by_nodes W W' T F T' F' :
  extract_supabase_references_from_workflows W = Ok (T, F) →
  extract_supabase_references_from_workflows W' = Ok (T', F') →
  (∀ node, visits W node ↔ visits W' node) →
  dom T = dom T' ∧ dom F = dom F'.
Proof.
  intros Hex Hex' Hsame.
  destruct (extract_members _ _ _ Hex) as (Hin & HT & HF).
  destruct (extract_members _ _ _ Hex') as (Hin' & HT' & HF').
  split; apply set_eq; intros k; split; intros Hk.
  - destruct (HT k Hk) as (node & A & B & Hvis & Hn & HkA).
    destruct (Hin' node (proj1 (Hsame node) Hvis)) as (A' & B' & Hn' & HA' & _).
    rewrite Hn in Hn'. injection Hn' as <- <-. by apply HA'.
  - destruct (HT' k Hk) as (node & A & B & Hvis & Hn & HkA).
    destruct (Hin node (proj2 (Hsame node) Hvis)) as (A' & B' & Hn' & HA' & _).
    rewrite Hn in Hn'. injection Hn' as <- <-. by apply HA'.
  - destruct (HF k Hk) as (node & A & B & Hvis & Hn & HkB).
    destruct (Hin' node (proj1 (Hsame node) Hvis)) as (A' & B' & Hn' & _ & HB').
    rewrite Hn in Hn'. injection Hn' as <- <-. by apply HB'.
  - destruct (HF' k Hk) as (node & A & B & Hvis & Hn & HkB).
    destruct (Hin node (proj2 (Hsame node) Hvis)) as (A' & B' & Hn' & _ & HB').
    rewrite Hn in Hn'. injection Hn' as <- <-. by apply HB'.
Qed.

(** * Properties of supabase_export_tables.py *)

(** ** Iterating a text *)

(** The code points of a text are non-empty and, joined, give the text
    back. *)
Lemma code_points_join s :
  Forall (fun p => p ≠ EmptyString) (code_points s) ∧
  fold_right String.append EmptyString (code_points s) = s.
Proof.
  induction s as [|c s [IHne IH]]; simpl; [by split|].
  destruct (code_points s) as [|p ps]; simpl in *.
  - subst s. by split; [repeat constructor|].
  - apply Forall_cons in IHne as [Hp Hps].
    destruct (starts_with_continuation p); simpl.
    + split; [by constructor|]. by rewrite <- IH.
    + split; [by repeat constructor|]. by rewrite <- IH.
Qed.

(** A letter of one byte, one of two and one of three between two others:
    five code points. *)
Example code_points_of_text :
  code_points "aé€bc" = ["a"; "é"; "€"; "b"; "c"].
Proof. reflexivity. Qed.

(** ** The pages of a table *)

Lemma fetch_pages_full fuel srv table_text page_size start rows items :
  full_page (get_rows srv table_text start (start + page_size - 1)) items →
  fetch_pages (S fuel) srv table_text page_size start rows =
  fetch_pages fuel srv table_text page_size (start + page_size) (rows ++ items)%list.
Proof.
  intros (H416 & Herr & batch & Hbody & Htr & Hitems). simpl.
  apply Z.eqb_neq in H416. rewrite H416.
  unfold raise_for_status, response_json. rewrite Herr, Hbody, Htr. simpl.
  by rewrite Hitems.
Qed.

Lemma fetch_pages_end fuel srv table_text page_size start rows :
  end_page (get_rows srv table_text start (start + page_size - 1)) →
  fetch_pages (S fuel) srv table_text page_size start rows = Some (Done rows).
Proof.
  intros [H416|(Herr & batch & Hbody & Htr)]; simpl.
  - apply Z.eqb_eq in H416. by rewrite H416.
  - destruct (status_code _ =? 416); [done|].
    unfold raise_for_status, response_json. by rewrite Herr, Hbody, Htr.
Qed.

Lemma next_page_start (k : nat) page_size :
  Z.of_nat k * page_size + page_size = Z.of_nat (S k) * page_size.
Proof. lia. Qed.

Lemma fetch_pages_run srv table_text page_size (pages : list (list value)) :
  ∀ fuel (k : nat) rows,
    (∀ i items, pages !! i = Some items →
                full_page (page_response srv table_text page_size (k + i)) items) →
    end_page (page_response srv table_text page_size (k + length pages)) →
    (length pages < fuel)%nat →
    fetch_pages fuel srv table_text page_size (Z.of_nat k * page_size) rows =
    Some (Done (rows ++ concat pages)%list).
Proof.
  induction pages as [|items pages IH]; intros fuel k rows Hfull Hend Hfuel.
  - destruct fuel as [|fuel]; [simpl in Hfuel; lia|].
    simpl in Hend. rewrite Nat.add_0_r in Hend. rewrite app_nil_r.
    by apply fetch_pages_end.
  - destruct fuel as [|fuel]; [simpl in Hfuel; lia|].
    pose proof (Hfull 0%nat items eq_refl) as H0. rewrite Nat.add_0_r in H0.
    rewrite (fetch_pages_full _ _ _ _ _ _ items H0), next_page_start.
    rewrite (IH fuel (S k) (rows ++ items)%list).
    + simpl. by rewrite app_assoc.
    + intros i items' Hi. specialize (Hfull (S i) items' Hi).
      by rewrite Nat.add_succ_r in Hfull.
    + simpl in Hend. by rewrite Nat.add_succ_r in Hend.
    + simpl in Hfuel. lia.
Qed.

(** X10. When the service answers the requests for the first pages of a
    table with non-empty batches and the next one with status 416 or an
    empty batch, [fetch_all_rows] returns the rows of those batches, in
    order, after one request per page for the item ranges
    [k * page_size .. k * page_size + page_size - 1]. *)
Theorem fetch_all_rows_pages fuel srv schema_name table_name page_size
    (pages : list (list value)) :
  (∀ i items, pages !! i = Some items →
              full_page (page_response srv (py_str table_name) page_size i) items) →
  end_page (page_response srv (py_str table_name) page_size (length pages)) →
  (length pages < fuel)%nat →
  fetch_all_rows fuel srv schema_name table_name page_size = Some (Done (concat pages)).
Proof.
  intros Hfull Hend Hfuel. unfold fetch_all_rows.
  by apply (fetch_pages_run srv _ page_size pages fuel 0%nat []).
Qed.

Lemma fetch_pages_endless srv table_text page_size :
  (∀ k, ∃ items, full_page (page_response srv table_text page_size k) items) →
  ∀ fuel (k : nat) rows,
    fetch_pages fuel srv table_text page_size (Z.of_nat k * page_size) rows = None.
Proof.
  intros Hfull. induction fuel as [|fuel IH]; intros k rows; [done|].
  destruct (Hfull k) as [items Hk].
  rewrite (fetch_pages_full _ _ _ _ _ _ items Hk), next_page_start. apply IH.
Qed.

(** X11. While the service keeps answering with non-empty batches, as a
    service that pays no attention to the range does, [fetch_all_rows] does
    not return: no number of requests is enough. *)
Theorem fetch_all_rows_endless srv schema_name table_name page_size :
  (∀ k, ∃ items, full_page (page_response srv (py_str table_name) page_size k) items) →
  ∀ fuel, fetch_all_rows fuel srv schema_name table_name page_size = None.
Proof.
  intros Hfull fuel. unfold fetch_all_rows.
  apply (fetch_pages_endless srv _ page_size Hfull fuel 0%nat).
Qed.

(** ** The run of the export *)

(** X12. When the answer to [list_tables] has status 404 or an error
    status, the run stops before it writes a file: with [SystemExit] for
    404, with [HTTPError] otherwise. *)
Theorem missing_list_tables_stops fuel srv schemas now :
  let r := post srv "/rpc/list_tables" (schemas_body schemas) in
  status_code r = 404 ∨ (400 ≤ status_code r < 600) →
  export_main fuel srv schemas now =
  ([], Some (Failed (if status_code r =? 404 then SystemExit
                     else HTTPError (status_code r)))).
Proof.
  intros r Hr. unfold export_main, export_lists, list_tables, sb_request. fold r.
  destruct (status_code r =? 404) eqn:H404; [done|].
  destruct Hr as [Hr|Hr]; [apply Z.eqb_neq in H404; done|].
  unfold raise_for_status.
  assert ((400 <=? status_code r) && (status_code r <? 600) = true) as ->; [|done].
  apply andb_true_iff. split; [apply Z.leb_le|apply Z.ltb_lt]; lia.
Qed.

Lemma bundle_table_entry t schema table :
  dict_get t "schema_name" (VStr "public") = Ok schema →
  dict_get t "table_name" VNone = Ok table →
  bundle_table t =
  Ok (if truthy table then Some (VDict [("schema", schema); ("name", table)]) else None).
Proof.
  intros Hs Ht. unfold bundle_table. rewrite Ht. simpl.
  destruct (truthy table); [|done]. by rewrite Hs.
Qed.

Lemma export_tables_done fuel srv ts :
  ∀ w0 w,
    export_tables fuel srv ts w0 = (w, Some (Done tt)) →
    ∃ data_files entries,
      w = (w0 ++ data_files)%list ∧ tables_for_bundle ts = Ok entries ∧
      Forall2 (fun f e => f.1 = InOutDir (table_file_name (field "schema" e)
                                                           (field "name" e)))
              data_files entries.
Proof.
  induction ts as [|t ts IH]; intros w0 w; simpl.
  - intros [= <-]. exists [], []. by rewrite app_nil_r.
  - destruct (dict_get t "schema_name" (VStr "public")) as [schema|] eqn:Hs; [|done].
    destruct (dict_get t "table_name" VNone) as [table|] eqn:Ht; [|done].
    rewrite (bundle_table_entry t schema table Hs Ht). simpl.
    destruct (truthy table); simpl.
    + destruct (fetch_all_rows fuel srv schema table 1000) as [[data|]|]; [|done..].
      intros (data_files & entries & -> & -> & Hall)%IH.
      exists ((InOutDir (table_file_name schema table), VList data) :: data_files),
        (VDict [("schema", schema); ("name", table)] :: entries).
      split; [by rewrite <- app_assoc|]. split; [done|]. by constructor.
    + intros (data_files & entries & -> & -> & Hall)%IH.
      by exists data_files, entries.
Qed.

Lemma export_main_done fuel srv schemas now written :
  export_main fuel srv schemas now = (written, Some (Done tt)) →
  ∃ tables functions dependencies ts data_files entries fentries,
    export_lists srv schemas = Done (tables, functions, dependencies) ∧
    py_iter tables = Ok ts ∧
    tables_for_bundle ts = Ok entries ∧
    build_functions_with_dependencies functions dependencies = Ok fentries ∧
    Forall2 (fun f e => f.1 = InOutDir (table_file_name (field "schema" e)
                                                         (field "name" e)))
            data_files entries ∧
    let bundle :=
      VDict
        [("metadata", VDict
            [("generated_at", VStr now);
             ("table_count", VInt (Z.of_nat (length entries)));
             ("function_count", VInt (Z.of_nat (length fentries)))]);
         ("tables", VList entries);
         ("functions", VList fentries)] in
    written =
      ([(InOutDir "_list_tables.json", tables);
        (InOutDir "_list_custom_functions.json", functions)] ++
       data_files ++
       [(InOutDir "supabase_data.json", bundle);
        (InCwd "supabase_data.json", bundle)])%list.
Proof.
  unfold export_main.
  destruct (export_lists srv schemas) as [[[tables functions] dependencies]|];
    [|done].
  destruct (py_iter tables) as [ts|] eqn:Hts; [|done].
  destruct (export_tables fuel srv ts _) as [w [[[]|]|]] eqn:Hexp; [|done..].
  apply export_tables_done in Hexp as (data_files & entries & -> & Hentries & Hall).
  unfold make_bundle. rewrite Hentries. simpl.
  destruct (build_functions_with_dependencies functions dependencies)
    as [fentries|] eqn:Hf; simpl; [|done].
  intros [= <-].
  exists tables, functions, dependencies, ts, data_files, entries, fentries.
  repeat (split; [done|]). done.
Qed.

Lemma dict_get_field_or t k dflt v : dict_get t k dflt = Ok v → v = field_or k dflt t.
Proof. destruct t; simpl; try done. by intros [= <-]. Qed.

Lemma dict_get_field t k v : dict_get t k VNone = Ok v → v = field k t.
Proof. destruct t; simpl; try done. by intros [= <-]. Qed.

(** The loop over the tables, by the rows that name a table: each gives one
    entry of the bundle and one data file, holding the rows fetched. *)
Lemma export_tables_rows fuel srv ts :
  ∀ w0 w,
    export_tables fuel srv ts w0 = (w, Some (Done tt)) →
    ∃ data_files entries,
      w = (w0 ++ data_files)%list ∧ tables_for_bundle ts = Ok entries ∧
      Forall2 (fun t e =>
                 e = VDict [("schema", field_or "schema_name" (VStr "public") t);
                            ("name", field "table_name" t)])
              (named_rows ts) entries ∧
      Forall2 (fun t f =>
                 ∃ data,
                   fetch_all_rows fuel srv (field_or "schema_name" (VStr "public") t)
                     (field "table_name" t) 1000 = Some (Done data) ∧
                   f = (InOutDir (table_file_name
                                    (field_or "schema_name" (VStr "public") t)
                                    (field "table_name" t)),
                        VList data))
              (named_rows ts) data_files.
Proof.
  induction ts as [|t ts IH]; intros w0 w; simpl.
  - intros [= <-]. exists [], []. rewrite app_nil_r. repeat split; constructor.
  - destruct (dict_get t "schema_name" (VStr "public")) as [schema|] eqn:Hs; [|done].
    destruct (dict_get t "table_name" VNone) as [table|] eqn:Ht; [|done].
    rewrite (bundle_table_entry t schema table Hs Ht). simpl.
    apply dict_get_field_or in Hs as ->. apply dict_get_field in Ht as ->.
    unfold named_rows. simpl. fold (named_rows ts).
    destruct (truthy (field "table_name" t)); simpl.
    + destruct (fetch_all_rows fuel srv _ _ 1000) as [[data|]|] eqn:Hfetch; [|done..].
      intros (data_files & entries & -> & -> & Hentries & Hfiles)%IH.
      eexists (_ :: data_files), (_ :: entries).
      split; [by rewrite <- app_assoc|]. split; [done|].
      split; constructor; try done. by exists data.
    + intros (data_files & entries & -> & -> & Hentries & Hfiles)%IH.
      by exists data_files, entries.
Qed.

(** The three lists of the run are the bodies of the answers: the tables as
    they are, the functions and the dependencies with the empty list for a
    missing RPC or an empty answer. *)
Lemma sb_request_or_empty srv path body v :
  (result ← sb_request srv path body; Done (py_or result (VList []))) = Done v →
  (status_code (post srv path body) = 404 → v = VList []) ∧
  (status_code (post srv path body) ≠ 404 →
   ∃ received, json_body (post srv path body) = Some received ∧
               v = if truthy received then received else VList []).
Proof.
  unfold sb_request, response_json.
  destruct (Z.eqb_spec (status_code (post srv path body)) 404) as [H404|H404]; simpl.
  - intros [= <-]. by split.
  - destruct (raise_for_status _); simpl; [|done].
    destruct (json_body _) as [received|]; simpl; [|done].
    intros [= <-]. split; [done|]. intros _. by exists received.
Qed.

Lemma export_lists_received srv schemas tables functions dependencies :
  export_lists srv schemas = Done (tables, functions, dependencies) →
  json_body (post srv "/rpc/list_tables" (schemas_body schemas)) = Some tables ∧
  (status_code (post srv "/rpc/list_functions" (schemas_body schemas)) = 404 →
   functions = VList []) ∧
  (status_code (post srv "/rpc/list_functions" (schemas_body schemas)) ≠ 404 →
   ∃ received,
     json_body (post srv "/rpc/list_functions" (schemas_body schemas)) = Some received ∧
     functions = if truthy received then received else VList []).
Proof.
  unfold export_lists. intros H.
  destruct (list_tables srv schemas) as [t|] eqn:Ht; simpl in H; [|done].
  destruct (lift (py_len t)); simpl in H; [|done].
  destruct (list_functions srv schemas) as [f|] eqn:Hf; simpl in H; [|done].
  destruct (lift (py_len f)); simpl in H; [|done].
  destruct (list_function_dependencies srv schemas) as [d|]; simpl in H; [|done].
  assert (t = tables ∧ f = functions) as [-> ->].
  { destruct (truthy d); simpl in H; [destruct (lift (py_len d)); simpl in H|];
      try done; by injection H as -> -> _. }
  split; [|by apply sb_request_or_empty].
  unfold list_tables, sb_request, response_json in Ht.
  destruct (status_code _ =? 404); simpl in Ht; [done|].
  destruct (raise_for_status _); simpl in Ht; [|done].
  destruct (json_body _) as [received|]; simpl in Ht; [|done].
  destruct received; simpl in Ht; try done; by injection Ht as <-.
Qed.

(** X13. A run of the export that ends well has written, in this order:
    the body of the answer to [list_tables] and that of the answer to
    [list_functions] (the empty list when that RPC is missing or its answer
    is empty), one data file per row of the tables that names a table,
    called [schema.name.json] after it and holding the rows fetched for it,
    and the bundle twice; the tables of the bundle are those rows, each as
    its schema and name, and the bundle's [table_count] is the number of
    data files. *)
Theorem export_files_match_bundle fuel srv schemas now written :
  export_main fuel srv schemas now = (written, Some (Done tt)) →
  ∃ tables functions ts data_files bundle,
    json_body (post srv "/rpc/list_tables" (schemas_body schemas)) = Some tables ∧
    (status_code (post srv "/rpc/list_functions" (schemas_body schemas)) = 404 →
     functions = VList []) ∧
    (status_code (post srv "/rpc/list_functions" (schemas_body schemas)) ≠ 404 →
     ∃ received,
       json_body (post srv "/rpc/list_functions" (schemas_body schemas)) = Some received ∧
       functions = if truthy received then received else VList []) ∧
    py_iter tables = Ok ts ∧
    written =
      ([(InOutDir "_list_tables.json", tables);
        (InOutDir "_list_custom_functions.json", functions)] ++
       data_files ++
       [(InOutDir "supabase_data.json", bundle);
        (InCwd "supabase_data.json", bundle)])%list ∧
    Forall2 (fun f e => f.1 = InOutDir (table_file_name (field "schema" e)
                                                         (field "name" e)))
            data_files (elements_of (field "tables" bundle)) ∧
    Forall2 (fun t e =>
               e = VDict [("schema", field_or "schema_name" (VStr "public") t);
                          ("name", field "table_name" t)])
            (named_rows ts) (elements_of (field "tables" bundle)) ∧
    Forall2 (fun t f =>
               ∃ data,
                 fetch_all_rows fuel srv (field_or "schema_name" (VStr "public") t)
                   (field "table_name" t) 1000 = Some (Done data) ∧
                 f = (InOutDir (table_file_name
                                  (field_or "schema_name" (VStr "public") t)
                                  (field "table_name" t)),
                      VList data))
            (named_rows ts) data_files ∧
    field "table_count" (field "metadata" bundle) = VInt (Z.of_nat (length data_files)) ∧
    field "function_count" (field "metadata" bundle) =
      VInt (Z.of_nat (length (elements_of (field "functions" bundle)))).
Proof.
  unfold export_main.
  destruct (export_lists srv schemas) as [[[tables functions] dependencies]|] eqn:Hlists;
    [|done].
  apply export_lists_received in Hlists as (Htables & Hf404 & Hfbody).
  destruct (py_iter tables) as [ts|] eqn:Hts; [|done].
  destruct (export_tables fuel srv ts _) as [w [[[]|]|]] eqn:Hexp; [|done..].
  pose proof (export_tables_done _ _ _ _ _ Hexp)
    as (data_files' & entries' & Hw' & Hentries' & Hnames).
  apply export_tables_rows in Hexp
    as (data_files & entries & -> & Hentries & Hrows & Hfiles).
  apply app_inv_head in Hw' as <-.
  rewrite Hentries in Hentries'. injection Hentries' as <-.
  unfold make_bundle. rewrite Hentries. simpl.
  destruct (build_functions_with_dependencies functions dependencies)
    as [fentries|] eqn:Hf; simpl; [|done].
  intros [= <-].
  eexists tables, functions, ts, data_files, _.
  split; [done|]. split; [done|]. split; [done|]. split; [done|].
  split; [done|]. simpl.
  split; [done|]. split; [done|]. split; [done|].
  split; [|done]. by rewrite (Forall2_length _ _ _ Hnames).
Qed.

(** ** From the export to the merge *)

Lemma files_after_app w1 w2 path :
  files_after (w1 ++ w2) path =
  match files_after w2 path with
  | Some v => Some v
  | None => files_after w1 path
  end.
Proof.
  induction w1 as [|[t v] w1 IH]; simpl.
  - by destruct (files_after w2 path).
  - rewrite IH. by destruct (files_after w2 path).
Qed.




Lemma files_after_bundle written l1 data_files bundle :
  written = (l1 ++ data_files ++
             [(InOutDir "supabase_data.json", bundle);
              (InCwd "supabase_data.json", bundle)])%list →
  files_after written "supabase_data.json" = Some bundle ∧
  files_after written "supabase_export_tables/supabase_data.json" = Some bundle.
Proof. intros ->. rewrite app_assoc, !files_after_app. by split. Qed.

(** ** Where the files land *)




Lemma fn_entry_no_dependencies fn e :
  fn_entry ∅ fn = Ok e → field "tables_used" e = VList [].
Proof.
  unfold fn_entry. intros H. apply bind_Ok in H as (schema & _ & H).
  apply bind_Ok in H as (name & _ & H). apply bind_Ok in H as (key & _ & H).
  rewrite lookup_empty in H. simpl in H. by injection H as <-.
Qed.

Lemma build_without_dependencies functions out :
  build_functions_with_dependencies functions (VList []) = Ok out →
  Forall (fun e => field "tables_used" e = VList []) out.
Proof.
  unfold build_functions_with_dependencies. simpl. intros H.
  apply bind_Ok in H as (fns & _ & H). apply map_each_Forall2 in H.
  induction H as [|fn e fns out Hfn _ IH]; constructor; [|done].
  by eapply fn_entry_no_dependencies.
Qed.

Lemma export_lists_dependencies_404 srv schemas tables functions dependencies :
  export_lists srv schemas = Done (tables, functions, dependencies) →
  status_code (post srv "/rpc/list_function_dependencies" (schemas_body schemas)) = 404 →
  dependencies = VList [].
Proof.
  unfold export_lists, list_function_dependencies, sb_request. intros H H404.
  apply Z.eqb_eq in H404. rewrite H404 in H. simpl in H.
  destruct (list_tables srv schemas) as [t|]; simpl in H; [|done].
  destruct (lift (py_len t)); simpl in H; [|done].
  destruct (list_functions srv schemas) as [f|]; simpl in H; [|done].
  destruct (lift (py_len f)); simpl in H; [|done]. by injection H as _ _ <-.
Qed.

(** X15. When the RPC [list_function_dependencies] does not exist (status
    404) and the export ends well, every function of the bundle has an
    empty [tables_used]. *)
Theorem export_without_dependencies fuel srv schemas now written :
  export_main fuel srv schemas now = (written, Some (Done tt)) →
  status_code (post srv "/rpc/list_function_dependencies" (schemas_body schemas)) = 404 →
  ∃ bundle,
    files_after written "supabase_data.json" = Some bundle ∧
    Forall (fun e => field "tables_used" e = VList [])
           (elements_of (field "functions" bundle)).
Proof.
  intros (tables & functions & dependencies & ts & data_files & entries & fentries
          & Hlists & _ & _ & Hbuild & _ & Hw)%export_main_done H404.
  cbv zeta in Hw. apply files_after_bundle in Hw as [Hroot _].
  eexists. split; [exact Hroot|]. simpl.
  rewrite (export_lists_dependencies_404 _ _ _ _ _ Hlists H404) in Hbuild.
  exact (build_without_dependencies _ _ Hbuild).
Qed.

(** ** When the report cannot be printed *)

Lemma sortable_mixed D : mixed D → sortable D = false.
Proof.
  intros (n & s & Hn & Hs). apply elem_of_elements in Hn, Hs.
  unfold sortable, comparable.
  assert (forallb is_num (elements D) = false) as ->.
  { apply not_true_is_false. intros H. by pose proof (forallb_elem_of _ _ _ H Hs). }
  assert (forallb is_str (elements D) = false) as ->.
  { apply not_true_is_false. intros H. by pose proof (forallb_elem_of _ _ _ H Hn). }
  rewrite !orb_false_r. apply Nat.leb_gt.
  destruct (elements D) as [|x [|y l]]; simpl; [|..|lia].
  - by apply elem_of_nil in Hn.
  - apply list_elem_of_singleton in Hn, Hs. congruence.
Qed.

Lemma sorted_set_Raise s e : sorted_set s = Raise e → e = TypeError.
Proof. rewrite sorted_set_sortable. destruct (sortable (dom s)); [done|]. by intros [= <-]. Qed.

(** X16. When the tables, or the functions, the workflows reference
    include both a number (a resource locator whose value is a number) and
    a string, [main] raises [TypeError] where it prints the sorted usage
    set, and writes no report. *)
Theorem mixed_usage_raises now workflows supabase_data T F :
  extract_supabase_references_from_workflows workflows = Ok (T, F) →
  mixed (dom T) ∨ mixed (dom F) →
  main_core now workflows supabase_data = Raise TypeError.
Proof.
  intros Hex Hmixed. unfold main_core. rewrite Hex. simpl. unfold main_report.
  destruct (sorted_set T) as [l|e] eqn:HT; simpl.
  - destruct Hmixed as [Hm|Hm].
    + rewrite sorted_set_sortable, (sortable_mixed _ Hm) in HT. done.
    + by rewrite sorted_set_sortable, (sortable_mixed _ Hm).
  - by rewrite (sorted_set_Raise _ _ HT).
Qed.

(** ** The merge on well-formed inputs *)

Lemma name_or_null_scalar v : name_or_null v = true → scalar v = true.
Proof. by destruct v. Qed.

Lemma text_param_hashable v : text_param v = true → hashable_param v = true.
Proof.
  destruct v as [| | | | |items]; simpl; try done.
  intros [Hc Hr]%andb_true_iff. by rewrite !name_or_null_scalar.
Qed.

Lemma text_params_params_ok params : text_params_ok params = true → params_ok params = true.
Proof.
  destruct params as [| | | | |items]; simpl; try done.
  intros [[[[H1 H2]%andb_true_iff H3]%andb_true_iff H4]%andb_true_iff H5]%andb_true_iff.
  by rewrite !text_param_hashable, H5.
Qed.

Lemma text_node_node_ok node : text_node_ok node = true → node_ok node = true.
Proof.
  destruct node as [| | | | |items]; simpl; try done.
  intros [Hty Hp]%andb_true_iff. by rewrite Hty, text_params_params_ok.
Qed.

Lemma forallb_impl {A : Type} (f g : A -> bool) xs :
  (∀ x, f x = true → g x = true) → forallb f xs = true → forallb g xs = true.
Proof.
  intros Hfg. induction xs as [|x xs IH]; simpl; [done|].
  intros [Hx Hxs]%andb_true_iff. by rewrite (Hfg x Hx), IH.
Qed.

Lemma text_workflow_workflow_ok w : text_workflow_ok w = true → workflow_ok w = true.
Proof.
  destruct w as [| | | | |items]; simpl; try done.
  destruct (default (VList []) (lookup_item "nodes" items)); try done.
  apply forallb_impl, text_node_node_ok.
Qed.

Lemma set_add_text (s s' : pyset) v t :
  v = VStr t → set_add s v = Ok s' → dom s' = dom s ∪ {[KStr t]}.
Proof. intros -> (k & [= <-] & Hdom)%set_add_Ok. done. Qed.

Lemma text_node_keys items A B k :
  text_node_ok (VDict items) = true →
  extract_node (∅, ∅) (VDict items) = Ok (A, B) →
  k ∈ dom A ∨ k ∈ dom B → is_str k = true.
Proof.
  unfold text_node_ok. intros [_ Hparams]%andb_true_iff H.
  apply extract_node_Ok in H as (nt & params & T1 & F1 & _ & Hp & Hs & Hh).
  unfold node_params_of in Hp. simpl in Hp. injection Hp as <-.
  set (params := default (VDict []) (lookup_item "parameters" items)) in *.
  destruct params as [| | | | |pitems] eqn:Hpar; try done.
  unfold text_params_ok in Hparams.
  apply andb_true_iff in Hparams
    as [[[[Htn Hop]%andb_true_iff Hfn]%andb_true_iff Hrpc]%andb_true_iff Hurl].
  assert (∀ k, k ∈ dom T1 ∨ k ∈ dom F1 → is_str k = true) as H1.
  { destruct (contains "supabase" nt).
    - apply supabase_branch_Ok in Hs as (tn & op & Htn' & HT & _ & HF).
      simpl in Htn'. injection Htn' as <-.
      intros k' [Hk'|Hk'].
      + destruct (truthy _ && _).
        * destruct (text_param_str _ Htn) as [t Ht].
          rewrite (set_add_text _ _ _ t Ht HT), dom_empty_L, union_empty_l_L,
            elem_of_singleton in Hk'. by subst k'.
        * subst T1. by rewrite dom_empty_L in Hk'.
      + destruct (eq_str _ "call"); [|subst F1; by rewrite dom_empty_L in Hk'].
        destruct HF as (fname & arg & Hfname & Harg & Hadd).
        simpl in Hfname. injection Hfname as <-.
        assert (text_param arg = true) as Htext.
        { destruct (truthy (default VNone (lookup_item "functionName" pitems)));
            simpl in Harg; by injection Harg as <-. }
        destruct (truthy (get_value arg));
          [|subst F1; by rewrite dom_empty_L in Hk'].
        destruct (text_param_str _ Htext) as [t Ht].
        rewrite (set_add_text _ _ _ t Ht Hadd), dom_empty_L, union_empty_l_L,
          elem_of_singleton in Hk'. by subst k'.
    - injection Hs as -> ->. intros k' [Hk'|Hk']; by rewrite dom_empty_L in Hk'. }
  intros Hk. destruct (contains "httprequest" nt || contains "http" nt).
  - apply http_branch_Ok in Hh as (-> & u & m & _ & _ & Hadd).
    destruct m as [g|]; [|subst B; by apply H1].
    destruct Hk as [Hk|Hk]; [apply H1; by left|].
    rewrite (set_add_text _ _ _ g eq_refl Hadd) in Hk.
    apply elem_of_union in Hk as [Hk|Hk]; [apply H1; by right|].
    apply elem_of_singleton in Hk. by subst k.
  - injection Hh as -> ->. by apply H1.
Qed.

Lemma sortable_strings (D : gset hkey) :
  (∀ k, k ∈ D → is_str k = true) → sortable D = true.
Proof.
  intros Hall. unfold sortable, comparable. apply orb_true_iff. right.
  apply forallb_forall. intros k Hk%list_elem_of_In. by apply Hall, elem_of_elements.
Qed.

Lemma visits_text_node ws node :
  forallb text_workflow_ok ws = true → visits (VList ws) node →
  ∃ items, node = VDict items ∧ text_node_ok node = true.
Proof.
  intros Hall (ws' & w & ns & nodes & [= <-] & Hw & Hns & Hnodes & Hnode).
  pose proof (forallb_elem_of _ _ _ Hall Hw) as Hok.
  destruct w as [| | | | |witems]; try done. simpl in Hns. injection Hns as <-.
  unfold text_workflow_ok in Hok.
  destruct (default (VList []) (lookup_item "nodes" witems)) as [| | | |nodes'|];
    try done. simpl in Hnodes. injection Hnodes as <-.
  pose proof (forallb_elem_of _ _ _ Hok Hnode) as Hnode_ok.
  destruct node as [| | | | |items]; try done. by exists items.
Qed.

Lemma catalog_entries_total supabase_data (T F : pyset) :
  catalog_ok supabase_data = true →
  ∃ tv tl et fv fl ef,
    dict_get supabase_data "tables" (VList []) = Ok tv ∧ py_iter tv = Ok tl ∧
    map_each (enrich_table T) tl = Ok et ∧
    dict_get supabase_data "functions" (VList []) = Ok fv ∧ py_iter fv = Ok fl ∧
    map_each (enrich_function F) fl = Ok ef.
Proof.
  intros Hok. unfold catalog_ok in Hok.
  destruct supabase_data as [| | | | |items]; try done.
  apply andb_true_iff in Hok as [Ht Hf]. unfold entries_ok in Ht, Hf.
  destruct (py_iter (default (VList []) (lookup_item "tables" items)))
    as [tl|] eqn:Htl; [|done].
  destruct (py_iter (default (VList []) (lookup_item "functions" items)))
    as [fl|] eqn:Hfl; [|done].
  destruct (map_each_total (enrich_table T) entry_ok tl (enrich_table_total T) Ht)
    as [et Het].
  destruct (map_each_total (enrich_function F) entry_ok fl (enrich_function_total F) Hf)
    as [ef Hef].
  by eexists _, tl, et, _, fl, ef.
Qed.

(** X17. On a well-formed export whose parameters are strings or resource
    locators of strings, and a catalog of entries with hashable names,
    steps 3 to 6 of [main] raise nothing: there is a report. *)
Theorem merge_total_on_text_exports now ws supabase_data :
  forallb text_workflow_ok ws = true →
  catalog_ok supabase_data = true →
  ∃ r, main_core now (VList ws) supabase_data = Ok r.
Proof.
  intros Hws Hcat.
  destruct (extract_total ws) as (T & F & Hex).
  { revert Hws. apply forallb_impl, text_workflow_workflow_ok. }
  destruct (extract_members _ _ _ Hex) as (_ & HT & HF).
  assert (∀ k, k ∈ dom T ∨ k ∈ dom F → is_str k = true) as Hstr.
  { intros k [Hk|Hk].
    - destruct (HT k Hk) as (node & A & B & Hvis & Hn & HkA).
      destruct (visits_text_node ws node Hws Hvis) as (items & -> & Hok).
      eapply text_node_keys; [done..|by left].
    - destruct (HF k Hk) as (node & A & B & Hvis & Hn & HkB).
      destruct (visits_text_node ws node Hws Hvis) as (items & -> & Hok).
      eapply text_node_keys; [done..|by right]. }
  destruct (catalog_entries_total supabase_data T F Hcat)
    as (tv & tl & et & fv & fl & ef & Htv & Htl & Het & Hfv & Hfl & Hef).
  eexists. unfold main_core. rewrite Hex. simpl.
  eapply main_report_intro; try done.
  - apply sortable_strings. intros k Hk. apply Hstr. by left.
  - apply sortable_strings. intros k Hk. apply Hstr. by right.
Qed.

(** ** A dependency record with a null schema *)

Lemma fn_schema_text fn schema :
  fn_record_ok fn = true → fn_schema fn = Ok schema → ∃ s, schema = VStr s.
Proof.
  destruct fn as [| | | | |items]; try done. unfold fn_record_ok, fn_schema. simpl.
  intros [[[H1 H2]%andb_true_iff _]%andb_true_iff _]%andb_true_iff [= <-].
  unfold py_or.
  destruct (default VNone (lookup_item "schema_name" items)) as [| | |s1| |];
    try done; simpl.
  - destruct (default VNone (lookup_item "function_schema" items)) as [| | |s2| |];
      try done; simpl; [by eexists|].
    destruct (negb (String.eqb s2 "")) eqn:H; simpl; rewrite ?H; by eexists.
  - destruct (negb (String.eqb s1 "")) eqn:H; simpl; rewrite ?H; simpl;
      rewrite ?H; [by eexists|].
    destruct (default VNone (lookup_item "function_schema" items)) as [| | |s2| |];
      try done; simpl; [by eexists|].
    destruct (negb (String.eqb s2 "")) eqn:H'; simpl; rewrite ?H'; by eexists.
Qed.

(** X18. A dependency record that carries [function_schema] with a null
    value is filed under the schema [None], not under ["public"] as a
    record without the field is; no function record has that schema, so
    when every record is such a record, every function gets an empty
    [tables_used]. *)
Theorem null_schema_matches_nothing fns ds :
  forallb fn_record_ok fns = true → forallb dep_record_ok ds = true →
  (∀ d, d ∈ ds →
        ∃ items, d = VDict items ∧ lookup_item "function_schema" items = Some VNone) →
  ∃ out,
    build_functions_with_dependencies (VList fns) (VList ds) = Ok out ∧
    length out = length fns ∧
    Forall (fun e => field "tables_used" e = VList []) out.
Proof.
  intros Hfns Hds Hnull.
  destruct (dep_fold_spec ds ∅ names_map_empty Hds) as (m & Hfold & Hm & _ & Hent).
  unfold build_functions_with_dependencies. simpl. rewrite Hfold. simpl.
  clear Hfold. induction fns as [|fn fns IH]; simpl.
  - by exists [].
  - simpl in Hfns. apply andb_true_iff in Hfns as [Hfn Hfns].
    destruct (fn_entry_spec m fn Hm Hfn)
      as (schema & name & key & ts & Hs & Hn & Hk & He & _ & Hmem).
    destruct (IH Hfns) as (out & -> & Hlen & Hall). rewrite He. simpl.
    eexists. split; [done|]. split; [simpl; by rewrite Hlen|].
    constructor; [|done]. simpl.
    destruct ts as [|t ts]; [done|]. exfalso.
    destruct (proj1 (Hmem t)) as (s & Hms & Hst); [by left|].
    destruct (proj1 (Hent key (KStr t) (VStr t))) as [(s0 & H0 & _)|H]; [by exists s| |].
    { by rewrite lookup_empty in H0. }
    destruct H as (d & t' & Hd & Hkd & _).
    destruct (Hnull d Hd) as (items & -> & Hschema).
    destruct (fn_schema_text fn schema Hfn Hs) as [sch ->].
    unfold dep_key in Hkd. simpl in Hkd. rewrite Hschema in Hkd. simpl in Hkd.
    unfold hash_pair in Hk, Hkd. simpl in Hk, Hkd.
    destruct (hash_key name) as [kn|]; simpl in Hk; [|done]. injection Hk as <-.
    destruct (hash_key (default VNone (lookup_item "function_name" items)));
      simpl in Hkd; [|done]. by injection Hkd.
Qed.

(** ** A run that does not end well *)



End Model.

(** * The theorems at concrete inputs *)

Lemma is_ok_Ok {A : Type} (r : result A) : is_ok r = true → ∃ a, r = Ok a.
Proof. destruct r as [a|e]; [by exists a|done]. Qed.

Lemma visits_single ws w ns nodes node items k :
  ws = VList [w] → w = VDict items →
  lookup_item "nodes" items = Some ns → ns = VList nodes →
  nodes !! k = Some node →
  visits ws node.
Proof.
  intros -> -> Hns -> Hk. exists [VDict items], (VDict items), (VList nodes), nodes.
  split; [done|]. split; [by left|]. split; [simpl; by rewrite Hns|].
  split; [done|]. by eapply list_elem_of_lookup_2.
Qed.

Lemma table_reference_rule_witness :
  ∃ T F,
    extract_supabase_references_from_workflows elided_text example_workflows = Ok (T, F) ∧
    (set_in (VStr "orders") T = Ok true ↔
       truthy (VStr "orders") = true ∧ eq_str (VStr "orders") "Supabase" = false) ∧
    KStr "Supabase" ∉ dom T.
Proof.
  assert (is_ok (extract_supabase_references_from_workflows elided_text
                   example_workflows) = true) as Hok by (vm_compute; reflexivity).
  destruct (is_ok_Ok _ Hok) as [[T F] Hex].
  exists T, F. split; [exact Hex|].
  refine (table_reference_rule elided_text example_workflows T F locator_node
            "n8n-nodes-base.supabase"
            (VDict [("tableName", VDict [("cachedResultName", VStr "orders")]);
                    ("operation", VStr "call");
                    ("functionName", VStr "refresh_orders")])
            (VDict [("cachedResultName", VStr "orders")])
            Hex _ eq_refl eq_refl eq_refl eq_refl).
  by eapply (visits_single _ _ _ _ _ _ 0%nat).
Defined.


Lemma rpc_fallback_on_falsy_witness :
  ∃ T F,
    extract_supabase_references_from_workflows elided_text rpc_fallback_workflows
      = Ok (T, F) ∧
    set_in (VStr "refresh_orders") F = Ok true.
Proof.
  assert (is_ok (extract_supabase_references_from_workflows elided_text
                   rpc_fallback_workflows) = true) as Hok by (vm_compute; reflexivity).
  destruct (is_ok_Ok _ Hok) as [[T F] Hex].
  exists T, F. split; [exact Hex|].
  refine (rpc_fallback_on_falsy elided_text rpc_fallback_workflows T F rpc_fallback_node
            "n8n-nodes-base.supabase"
            (VDict [("operation", VStr "call"); ("functionName", VStr "");
                    ("rpc", VStr "refresh_orders")])
            (VStr "call") (VStr "") "refresh_orders"
            Hex _ eq_refl eq_refl eq_refl eq_refl eq_refl eq_refl eq_refl eq_refl _).
  - by eapply (visits_single _ _ _ _ _ _ 0%nat).
  - discriminate.
Defined.

Lemma missing_fields_tolerated_witness :
  extract_node elided_text (∅, ∅) (VDict [("type", VStr "n8n-nodes-base.supabase")])
    = Ok (∅, ∅) ∧
  extract_node elided_text (∅, ∅)
    (VDict [("type", VNone); ("parameters", VDict [("tableName", VStr "orders")])])
    = Ok (∅, ∅) ∧
  extract_node elided_text (∅, ∅)
    (VDict [("parameters", VDict [("tableName", VStr "orders")])])
    = Ok (∅, ∅).
Proof.
  split; [|split].
  - destruct (missing_fields_tolerated elided_text
                [("type", VStr "n8n-nodes-base.supabase")] (∅, ∅)) as [H _].
    destruct (H eq_refl) as (_ & _ & Hret).
    exact (Hret "n8n-nodes-base.supabase" eq_refl).
  - destruct (missing_fields_tolerated elided_text
                [("type", VNone); ("parameters", VDict [("tableName", VStr "orders")])]
                (∅, ∅)) as [_ H].
    destruct (H (or_intror eq_refl)) as (_ & _ & _ & Hret). exact Hret.
  - destruct (missing_fields_tolerated elided_text
                [("parameters", VDict [("tableName", VStr "orders")])]
                (∅, ∅)) as [_ H].
    destruct (H (or_introl eq_refl)) as (_ & _ & _ & Hret). exact Hret.
Defined.

Lemma resource_locator_resolution_witness :
  ∃ T F,
    extract_supabase_references_from_workflows elided_text example_workflows = Ok (T, F) ∧
    set_in (VStr "orders") T = Ok true ∧ set_in (VStr "refresh_orders") F = Ok true.
Proof.
  assert (is_ok (extract_supabase_references_from_workflows elided_text
                   example_workflows) = true) as Hok by (vm_compute; reflexivity).
  destruct (is_ok_Ok _ Hok) as [[T F] Hex].
  exists T, F. split; [exact Hex|].
  destruct (resource_locator_resolution elided_text) as (_ & _ & _ & H).
  apply (H example_workflows T F Hex).
  by eapply (visits_single _ _ _ _ _ _ 0%nat).
Defined.

(** C6, as stated, fails: a cached display name that is present but empty
    is passed over for the raw value. *)
Lemma cached_name_if_present_counterexample :
  ∃ items name,
    lookup_item "cachedResultName" items = Some name ∧
    get_value elided_text (VDict items) ≠ name.
Proof.
  exists [("cachedResultName", VStr ""); ("value", VStr "orders")], (VStr "").
  split; [reflexivity|]. discriminate.
Qed.

Lemma empty_workflows_mark_nothing_witness :
  catalog_ok example_catalog = true ∧
  ∃ r tl fl,
    main_core elided_text "2026-01-01T00:00:00+00:00" (VList []) example_catalog = Ok r ∧
    (dict_get example_catalog "tables" (VList []) ≫= py_iter) = Ok tl ∧
    (dict_get example_catalog "functions" (VList []) ≫= py_iter) = Ok fl ∧
    length (report_tables r) = length tl ∧
    length (report_functions r) = length fl ∧
    Forall (fun e => field "used_by_n8n" e = VBool false) (report_tables r) ∧
    Forall (fun e => field "used_by_n8n" e = VBool false) (report_functions r) ∧
    field "tables_used_by_n8n" (field "metadata" r) = VInt 0 ∧
    field "functions_used_by_n8n" (field "metadata" r) = VInt 0 ∧
    (∀ files,
       files "n8n_data.json" = None →
       files "n8n_workflows_export/n8n_data.json" = None →
       load_catalog files = example_catalog →
       main elided_text "2026-01-01T00:00:00+00:00" files = Ok r).
Proof.
  split; [reflexivity|].
  exact (empty_workflows_mark_nothing elided_text "2026-01-01T00:00:00+00:00"
           example_catalog eq_refl).
Defined.

Lemma usage_by_bare_name_witness :
  ∃ r T F,
    main_core elided_text "2026-01-01T00:00:00+00:00" example_workflows example_catalog
      = Ok r ∧
    extract_supabase_references_from_workflows elided_text example_workflows = Ok (T, F) ∧
    Forall2 (fun t e => ∃ b, set_in (field "name" t) T = Ok b ∧
                             field "name" e = field "name" t ∧
                             field "used_by_n8n" e = VBool b)
            (elements_of (field "tables" example_catalog)) (report_tables r) ∧
    Forall2 (fun f e => ∃ b, set_in (field "name" f) F = Ok b ∧
                             field "name" e = field "name" f ∧
                             field "used_by_n8n" e = VBool b)
            (elements_of (field "functions" example_catalog)) (report_functions r) ∧
    (∀ i j t1 t2 e1 e2,
       elements_of (field "tables" example_catalog) !! i = Some t1 →
       elements_of (field "tables" example_catalog) !! j = Some t2 →
       report_tables r !! i = Some e1 → report_tables r !! j = Some e2 →
       field "name" t1 = field "name" t2 →
       field "used_by_n8n" e1 = field "used_by_n8n" e2) ∧
    (∀ i j f1 f2 e1 e2,
       elements_of (field "functions" example_catalog) !! i = Some f1 →
       elements_of (field "functions" example_catalog) !! j = Some f2 →
       report_functions r !! i = Some e1 → report_functions r !! j = Some e2 →
       field "name" f1 = field "name" f2 →
       field "used_by_n8n" e1 = field "used_by_n8n" e2).
Proof.
  assert (is_ok (main_core elided_text "2026-01-01T00:00:00+00:00" example_workflows
                   example_catalog) = true) as Hok by (vm_compute; reflexivity).
  destruct (is_ok_Ok _ Hok) as [r Hmain].
  assert (is_ok (extract_supabase_references_from_workflows elided_text
                   example_workflows) = true) as Hok' by (vm_compute; reflexivity).
  destruct (is_ok_Ok _ Hok') as [[T F] Hex].
  exists r, T, F. split; [exact Hmain|]. split; [exact Hex|].
  exact (usage_by_bare_name elided_text "2026-01-01T00:00:00+00:00" example_workflows
           example_catalog r T F _ _ Hmain Hex eq_refl eq_refl).
Defined.

Lemma report_order_invariance_witness :
  ∃ r,
    main_core elided_text "2026-01-01T00:00:00+00:00"
      (VList [VDict [("nodes", VList [locator_node])];
              VDict [("nodes", VList [rpc_url_node])]])
      example_catalog = Ok r ∧
    ∃ r',
      main_core elided_text "2026-01-01T00:00:00+00:00"
        (VList [VDict [("nodes", VList [rpc_url_node])];
                VDict [("nodes", VList [locator_node])]])
        swapped_catalog = Ok r' ∧
      field "metadata" r' = field "metadata" r ∧
      field "workflows" r =
        VList [VDict [("nodes", VList [locator_node])];
               VDict [("nodes", VList [rpc_url_node])]] ∧
      field "workflows" r' =
        VList [VDict [("nodes", VList [rpc_url_node])];
               VDict [("nodes", VList [locator_node])]] ∧
      report_tables r ≡ₚ report_tables r' ∧
      report_functions r ≡ₚ report_functions r' ∧
      Forall2 (fun t e =>
                 ∃ used, e = VDict [("name", field "name" t);
                                    ("schema", field_or "schema" (VStr "public") t);
                                    ("used_by_n8n", VBool used)])
        (elements_of (field "tables" example_catalog)) (report_tables r) ∧
      Forall2 (fun t e =>
                 ∃ used, e = VDict [("name", field "name" t);
                                    ("schema", field_or "schema" (VStr "public") t);
                                    ("used_by_n8n", VBool used)])
        (elements_of (field "tables" swapped_catalog)) (report_tables r') ∧
      Forall2 (fun f e =>
                 ∃ used, e = VDict [("name", field "name" f);
                                    ("schema", field_or "schema" (VStr "public") f);
                                    ("tables_used", field_or "tables_used" (VList []) f);
                                    ("used_by_n8n", VBool used)])
        (elements_of (field "functions" example_catalog)) (report_functions r) ∧
      Forall2 (fun f e =>
                 ∃ used, e = VDict [("name", field "name" f);
                                    ("schema", field_or "schema" (VStr "public") f);
                                    ("tables_used", field_or "tables_used" (VList []) f);
                                    ("used_by_n8n", VBool used)])
        (elements_of (field "functions" swapped_catalog)) (report_functions r') ∧
      (∀ i j t,
         elements_of (field "tables" example_catalog) !! i = Some t →
         elements_of (field "tables" swapped_catalog) !! j = Some t →
         report_tables r' !! j = report_tables r !! i) ∧
      (∀ i j f,
         elements_of (field "functions" example_catalog) !! i = Some f →
         elements_of (field "functions" swapped_catalog) !! j = Some f →
         report_functions r' !! j = report_functions r !! i) ∧
      (elements_of (field "tables" example_catalog) =
         elements_of (field "tables" swapped_catalog) →
       elements_of (field "functions" example_catalog) =
         elements_of (field "functions" swapped_catalog) →
       r' = with_field "workflows"
              (VList [VDict [("nodes", VList [rpc_url_node])];
                      VDict [("nodes", VList [locator_node])]]) r).
Proof.
  assert (is_ok (main_core elided_text "2026-01-01T00:00:00+00:00"
                   (VList [VDict [("nodes", VList [locator_node])];
                           VDict [("nodes", VList [rpc_url_node])]])
                   example_catalog) = true) as Hok by (vm_compute; reflexivity).
  destruct (is_ok_Ok _ Hok) as [r Hmain].
  exists r. split; [exact Hmain|].
  exact (report_order_invariance elided_text "2026-01-01T00:00:00+00:00"
           _ _ example_catalog swapped_catalog _ _ _ _ r
           (perm_swap _ _ []) (perm_swap _ _ _) (perm_swap _ _ [])
           eq_refl eq_refl eq_refl eq_refl Hmain).
Defined.

(** C4, as stated, fails: the tables and the functions of the report are
    listed in the order of the catalog, so a permuted catalog gives another
    report. *)
Lemma catalog_order_counterexample :
  elements_of (field "tables" example_catalog) ≡ₚ
    elements_of (field "tables" swapped_catalog) ∧
  elements_of (field "functions" example_catalog) ≡ₚ
    elements_of (field "functions" swapped_catalog) ∧
  main_core elided_text "2026-01-01T00:00:00+00:00" (VList []) example_catalog ≠
  main_core elided_text "2026-01-01T00:00:00+00:00" (VList []) swapped_catalog.
Proof.
  split; [apply perm_swap|]. split; [apply perm_swap|].
  intros H. vm_compute in H. discriminate H.
Qed.



(** The resolver on the example: the default schema joins the records of
    [refresh_orders], whose tables come out once each and sorted; [purge],
    whose only record names no table, gets the empty list. *)
Example dependency_resolution_example :
  build_functions_with_dependencies (VList example_functions)
    (VList example_dependencies) =
  Ok [VDict [("schema", VStr "public"); ("name", VStr "refresh_orders");
             ("tables_used", VList [VStr "customers"; VStr "orders"])];
      VDict [("schema", VStr "audit"); ("name", VStr "purge");
             ("tables_used", VList [])]].
Proof. vm_compute. reflexivity. Qed.

(** * The further properties at concrete inputs *)

Lemma ended_well_done {A : Type} (run : list (target * value) * option (outcome A)) :
  ended_well run = true → ∃ written a, run = (written, Some (Done a)).
Proof. destruct run as [written [[a|]|]]; try done. by exists written, a. Qed.

Lemma example_orders_member :
  ∃ T F,
    extract_supabase_references_from_workflows elided_text example_workflows = Ok (T, F) ∧
    KStr "orders" ∈ dom T.
Proof.
  assert (match extract_supabase_references_from_workflows elided_text example_workflows with
          | Ok (T, F) => bool_decide (KStr "orders" ∈ dom T)
          | Raise _ => false
          end = true) as H by (vm_compute; reflexivity).
  destruct (extract_supabase_references_from_workflows elided_text example_workflows)
    as [[T F]|]; [|done].
  apply bool_decide_eq_true in H. by exists T, F.
Qed.

Lemma mixed_workflows_member :
  ∃ T F,
    extract_supabase_references_from_workflows elided_text mixed_workflows = Ok (T, F) ∧
    mixed (dom T).
Proof.
  assert (match extract_supabase_references_from_workflows elided_text mixed_workflows with
          | Ok (T, F) => bool_decide (KNum 7 ∈ dom T) && bool_decide (KStr "orders" ∈ dom T)
          | Raise _ => false
          end = true) as H by (vm_compute; reflexivity).
  destruct (extract_supabase_references_from_workflows elided_text mixed_workflows)
    as [[T F]|]; [|done].
  apply andb_true_iff in H as [H1 H2]. apply bool_decide_eq_true in H1, H2.
  exists T, F. split; [done|]. by exists 7, "orders".
Qed.

Lemma visits_Permutation ws ws' node :
  ws ≡ₚ ws' → visits (VList ws) node → visits (VList ws') node.
Proof.
  intros Hp (ws0 & w & ns & nodes & [= <-] & Hw & Hns & Hnodes & Hnode).
  exists ws', w, ns, nodes. split; [done|]. split; [by rewrite <- Hp|done].
Qed.

Lemma no_reference_without_nodes_witness :
  extract_supabase_references_from_workflows elided_text (VList [plain_workflow; VDict []])
  = Ok (∅, ∅).
Proof. exact (no_reference_without_nodes elided_text [plain_workflow; VDict []] eq_refl). Defined.

Lemma usage_sets_hold_no_falsy_witness :
  ∃ T F,
    extract_supabase_references_from_workflows elided_text example_workflows = Ok (T, F) ∧
    KStr "orders" ∈ dom T ∧
    KStr "orders" ≠ KNone ∧ KStr "orders" ≠ KNum 0 ∧ KStr "orders" ≠ KStr "".
Proof.
  destruct example_orders_member as (T & F & Hex & Hk).
  exists T, F. split; [exact Hex|]. split; [exact Hk|].
  exact (usage_sets_hold_no_falsy elided_text example_workflows T F (KStr "orders")
           Hex (or_introl Hk)).
Defined.

Lemma extract_concatenation_witness :
  ∃ T1 F1 T2 F2,
    extract_supabase_references_from_workflows elided_text
      (VList (elements_of example_workflows)) = Ok (T1, F1) ∧
    extract_supabase_references_from_workflows elided_text
      (VList (elements_of rpc_url_workflows)) = Ok (T2, F2) ∧
    ∃ T F,
      extract_supabase_references_from_workflows elided_text
        (VList (elements_of example_workflows ++ elements_of rpc_url_workflows))
        = Ok (T, F) ∧
      dom T = dom T1 ∪ dom T2 ∧ dom F = dom F1 ∪ dom F2.
Proof.
  assert (is_ok (extract_supabase_references_from_workflows elided_text
                   (VList (elements_of example_workflows))) = true) as H1
    by (vm_compute; reflexivity).
  assert (is_ok (extract_supabase_references_from_workflows elided_text
                   (VList (elements_of rpc_url_workflows))) = true) as H2
    by (vm_compute; reflexivity).
  destruct (is_ok_Ok _ H1) as [[T1 F1] Hex1].
  destruct (is_ok_Ok _ H2) as [[T2 F2] Hex2].
  exists T1, F1, T2, F2. split; [exact Hex1|]. split; [exact Hex2|].
  exact (extract_concatenation elided_text _ _ T1 F1 T2 F2 Hex1 Hex2).
Defined.

Lemma extractor_total_on_exports_witness :
  ∃ T F,
    extract_supabase_references_from_workflows elided_text
      (VList (elements_of mixed_workflows ++ elements_of rpc_url_workflows)) = Ok (T, F).
Proof.
  exact (extractor_total_on_exports elided_text
           (elements_of mixed_workflows ++ elements_of rpc_url_workflows) eq_refl).
Defined.

Lemma usage_sets_by_nodes_witness :
  ∃ T F T' F',
    extract_supabase_references_from_workflows elided_text
      (VList [plain_workflow; VDict [("nodes", VList [locator_node])]]) = Ok (T, F) ∧
    extract_supabase_references_from_workflows elided_text
      (VList [VDict [("nodes", VList [locator_node])]; plain_workflow]) = Ok (T', F') ∧
    dom T = dom T' ∧ dom F = dom F'.
Proof.
  assert (is_ok (extract_supabase_references_from_workflows elided_text
                   (VList [plain_workflow; VDict [("nodes", VList [locator_node])]]))
          = true) as H1 by (vm_compute; reflexivity).
  assert (is_ok (extract_supabase_references_from_workflows elided_text
                   (VList [VDict [("nodes", VList [locator_node])]; plain_workflow]))
          = true) as H2 by (vm_compute; reflexivity).
  destruct (is_ok_Ok _ H1) as [[T F] Hex].
  destruct (is_ok_Ok _ H2) as [[T' F'] Hex'].
  exists T, F, T', F'. split; [exact Hex|]. split; [exact Hex'|].
  apply (usage_sets_by_nodes elided_text _ _ T F T' F' Hex Hex').
  intros node. split; apply visits_Permutation, perm_swap.
Defined.


Lemma workflow_file_shapes_witness :
  main elided_text "2026-01-01T00:00:00+00:00" list_file =
  main elided_text "2026-01-01T00:00:00+00:00" dict_file.
Proof.
  refine (workflow_file_shapes elided_text "2026-01-01T00:00:00+00:00" dict_file list_file
            [("workflows", example_workflows)] (elements_of example_workflows)
            _ eq_refl eq_refl eq_refl _).
  - discriminate.
  - intros path Hpath. unfold list_file, dict_file.
    destruct (String.eqb_spec path "n8n_data.json"); [done|reflexivity].
Defined.

Lemma fetch_all_rows_pages_witness :
  fetch_all_rows elided_text 5 example_server (VStr "public") (VStr "orders") 1000
  = Some (Done (concat [example_rows])).
Proof.
  refine (fetch_all_rows_pages elided_text 5 example_server (VStr "public") (VStr "orders")
            1000 [example_rows] _ _ _).
  - intros [|i] items Hi; [|destruct i; discriminate Hi].
    injection Hi as <-. split; [discriminate|]. split; [reflexivity|].
    exists (VList example_rows). repeat split.
  - left. reflexivity.
  - simpl. lia.
Defined.

(** A page whose body is a string adds its code points, one per letter. *)
Example fetch_all_rows_text_page :
  fetch_all_rows elided_text 5 text_page_server (VStr "public") (VStr "orders") 1000
  = Some (Done [VStr "é"; VStr "€"]).
Proof. vm_compute. reflexivity. Qed.

Lemma fetch_all_rows_endless_witness :
  fetch_all_rows elided_text 1000 stuck_server (VStr "public") (VStr "orders") 1000 = None.
Proof.
  refine (fetch_all_rows_endless elided_text stuck_server (VStr "public") (VStr "orders")
            1000 _ 1000%nat).
  intros k. exists example_rows. split; [discriminate|]. split; [reflexivity|].
  exists (VList example_rows). repeat split.
Defined.

Lemma missing_list_tables_stops_witness :
  export_main elided_text 5 bare_server ["public"] "2026-01-01T00:00:00+00:00"
  = ([], Some (Failed SystemExit)).
Proof.
  exact (missing_list_tables_stops elided_text 5 bare_server ["public"]
           "2026-01-01T00:00:00+00:00" (or_introl eq_refl)).
Defined.

Lemma example_export_ends_well :
  ∃ written,
    export_main elided_text 5 example_server ["public"] "2026-01-01T00:00:00+00:00"
    = (written, Some (Done tt)).
Proof.
  assert (ended_well (export_main elided_text 5 example_server ["public"]
                        "2026-01-01T00:00:00+00:00") = true) as H
    by (vm_compute; reflexivity).
  destruct (ended_well_done _ H) as (written & [] & Hrun). by exists written.
Qed.

Lemma export_files_match_bundle_witness :
  ∃ written,
    export_main elided_text 5 example_server ["public"] "2026-01-01T00:00:00+00:00"
      = (written, Some (Done tt)) ∧
    ∃ tables functions ts data_files bundle,
      json_body (post example_server "/rpc/list_tables" (schemas_body ["public"]))
        = Some tables ∧
      (status_code (post example_server "/rpc/list_functions" (schemas_body ["public"]))
         = 404 → functions = VList []) ∧
      (status_code (post example_server "/rpc/list_functions" (schemas_body ["public"]))
         ≠ 404 →
       ∃ received,
         json_body (post example_server "/rpc/list_functions" (schemas_body ["public"]))
           = Some received ∧
         functions = if truthy received then received else VList []) ∧
      py_iter tables = Ok ts ∧
      written =
        ([(InOutDir "_list_tables.json", tables);
          (InOutDir "_list_custom_functions.json", functions)] ++
         data_files ++
         [(InOutDir "supabase_data.json", bundle);
          (InCwd "supabase_data.json", bundle)])%list ∧
      Forall2 (fun f e => f.1 = InOutDir (table_file_name elided_text (field "schema" e)
                                                           (field "name" e)))
              data_files (elements_of (field "tables" bundle)) ∧
      Forall2 (fun t e =>
                 e = VDict [("schema", field_or "schema_name" (VStr "public") t);
                            ("name", field "table_name" t)])
              (named_rows ts) (elements_of (field "tables" bundle)) ∧
      Forall2 (fun t f =>
                 ∃ data,
                   fetch_all_rows elided_text 5 example_server
                     (field_or "schema_name" (VStr "public") t)
                     (field "table_name" t) 1000 = Some (Done data) ∧
                   f = (InOutDir (table_file_name elided_text
                                    (field_or "schema_name" (VStr "public") t)
                                    (field "table_name" t)),
                        VList data))
              (named_rows ts) data_files ∧
      field "table_count" (field "metadata" bundle) = VInt (Z.of_nat (length data_files)) ∧
      field "function_count" (field "metadata" bundle) =
        VInt (Z.of_nat (length (elements_of (field "functions" bundle)))).
Proof.
  destruct example_export_ends_well as [written Hrun].
  exists written. split; [exact Hrun|].
  exact (export_files_match_bundle elided_text 5 example_server ["public"]
           "2026-01-01T00:00:00+00:00" written Hrun).
Defined.

(** A row whose names hold a separator is set aside: its data file would
    be opened outside the output directory. *)
Example separator_row_not_plain :
  plain_row elided_text (VDict [("schema_name", VStr ""); ("table_name", VStr "./n8n_data")])
  = false ∧
  table_file_name elided_text (VStr "") (VStr "./n8n_data") = "../n8n_data.json".
Proof. split; reflexivity. Qed.


Lemma export_without_dependencies_witness :
  ∃ written,
    export_main elided_text 5 example_server ["public"] "2026-01-01T00:00:00+00:00"
      = (written, Some (Done tt)) ∧
    status_code (post example_server "/rpc/list_function_dependencies"
                   (schemas_body ["public"])) = 404 ∧
    ∃ bundle,
      files_after written "supabase_data.json" = Some bundle ∧
      Forall (fun e => field "tables_used" e = VList [])
             (elements_of (field "functions" bundle)).
Proof.
  destruct example_export_ends_well as [written Hrun].
  exists written. split; [exact Hrun|]. split; [reflexivity|].
  exact (export_without_dependencies elided_text 5 example_server ["public"]
           "2026-01-01T00:00:00+00:00" written Hrun eq_refl).
Defined.

Lemma mixed_usage_raises_witness :
  main_core elided_text "2026-01-01T00:00:00+00:00" mixed_workflows example_catalog
  = Raise TypeError.
Proof.
  destruct mixed_workflows_member as (T & F & Hex & Hmixed).
  exact (mixed_usage_raises elided_text "2026-01-01T00:00:00+00:00" mixed_workflows
           example_catalog T F Hex (or_introl Hmixed)).
Defined.

Lemma merge_total_on_text_exports_witness :
  ∃ r,
    main_core elided_text "2026-01-01T00:00:00+00:00"
      (VList (elements_of example_workflows ++ elements_of rpc_url_workflows))
      example_catalog = Ok r.
Proof.
  exact (merge_total_on_text_exports elided_text "2026-01-01T00:00:00+00:00"
           (elements_of example_workflows ++ elements_of rpc_url_workflows)
           example_catalog eq_refl eq_refl).
Defined.

Lemma null_schema_matches_nothing_witness :
  ∃ out,
    build_functions_with_dependencies (VList example_functions)
      (VList null_schema_dependencies) = Ok out ∧
    length out = length example_functions ∧
    Forall (fun e => field "tables_used" e = VList []) out.
Proof.
  refine (null_schema_matches_nothing example_functions null_schema_dependencies
            eq_refl eq_refl _).
  intros d Hd. apply list_elem_of_singleton in Hd as ->. by eexists.
Defined.


